(** * ble_meters: decoder engine, session and aggregator

    A shallow embedding of [ble_meters.py].  Frames are lists of byte
    values, Python dictionaries are finite maps, Python floats are binary64
    primitive floats, and Python exceptions are the [Raise] results of an
    error monad.  Every definition carries the name of the Python function
    it is translated from. *)

From Stdlib Require Import ZArith Ascii String List Bool Lia.
From Stdlib Require Import PrimFloat FloatOps SpecFloat FloatAxioms DecimalString.
From Stdlib Require Import Permutation.
From stdpp Require Import base gmap strings list fin_maps.

Local Open Scope string_scope.
Local Open Scope Z_scope.

Set Warnings "-inexact-float".

(** ** Python values and exceptions *)

Inductive pyexc :=
| KeyError | IndexError | ValueError | TypeError | NameError
| UnicodeDecodeError | AttributeError | ZeroDivisionError | OverflowError
| RuntimeError.

Inductive exn (A : Type) : Type :=
| Ok (a : A)
| Raise (e : pyexc).
Arguments Ok {A} a.
Arguments Raise {A} e.

#[global] Instance exn_ret : MRet exn := @Ok.
#[global] Instance exn_bind : MBind exn := λ A B k m,
  match m with Ok a => k a | Raise e => Raise e end.

#[global] Instance exn_fmap : FMap exn := λ A B f m,
  match m with Ok a => Ok (f a) | Raise e => Raise e end.

Definition is_ok {A} (m : exn A) : bool :=
  match m with Ok _ => true | Raise _ => false end.

(** [float(z)] for an [int]: the correctly rounded binary64 value. *)
Definition Z2F (z : Z) : float := SF2Prim (binary_normalize prec emax z 0 false).

Definition inf : float := infinity.

(** [a / b] for two small [int]s (true division). Both operands are exactly
    representable in the uses below, so the quotient of the converted
    operands is the correctly rounded quotient. *)
Definition int_truediv (a b : Z) : exn float :=
  if b =? 0 then Raise ZeroDivisionError else Ok (Z2F a / Z2F b)%float.

(** ** Strings: [str(n)], [int(s, 10)], hexadecimal and binary formatting *)

(** [str(n)] for an [int]. *)
Definition py_str (n : Z) : string := NilZero.string_of_int (Z.to_int n).

Definition is_space (c : ascii) : bool :=
  let n := Z.of_nat (nat_of_ascii c) in
  ((9 <=? n) && (n <=? 13)) || ((28 <=? n) && (n <=? 32)).

Fixpoint lstrip (s : string) : string :=
  match s with
  | String c r => if is_space c then lstrip r else s
  | EmptyString => EmptyString
  end.

Fixpoint rstrip (s : string) : string :=
  match s with
  | EmptyString => EmptyString
  | String c r =>
      match rstrip r with
      | EmptyString => if is_space c then EmptyString else String c EmptyString
      | r' => String c r'
      end
  end.

(** [s.strip()] on an ASCII string. *)
Definition py_strip (s : string) : string := rstrip (lstrip s).

Definition digit_val (c : ascii) : option Z :=
  let n := Z.of_nat (nat_of_ascii c) in
  if (48 <=? n) && (n <=? 57) then Some (n - 48) else None.

(** The digit part of a decimal literal: digits with single underscores
    between them.  [prev] tells whether the previous character was a digit. *)
Fixpoint parse_digits (s : string) (acc : Z) (prev : bool) : option Z :=
  match s with
  | EmptyString => if prev then Some acc else None
  | String c r =>
      match digit_val c with
      | Some d => parse_digits r (10 * acc + d) true
      | None =>
          if (Ascii.eqb c "_") && prev
          then match r with
               | EmptyString => None
               | String c' _ =>
                   match digit_val c' with
                   | Some _ => parse_digits r acc false
                   | None => None
                   end
               end
          else None
      end
  end.

(** [int(s, 10)] on an ASCII string: surrounding whitespace stripped, one
    optional sign, then the digits; anything else is a [ValueError]. *)
Definition py_int10 (s : string) : exn Z :=
  match py_strip s with
  | EmptyString => Raise ValueError
  | String c r =>
      let '(sign, body) :=
        if Ascii.eqb c "-" then (-1, r)
        else if Ascii.eqb c "+" then (1, r)
        else (1, String c r) in
      match parse_digits body 0 false with
      | Some n => Ok (sign * n)
      | None => Raise ValueError
      end
  end.

Definition hex_digit (n : Z) : string :=
  match n with
  | 0 => "0" | 1 => "1" | 2 => "2" | 3 => "3" | 4 => "4" | 5 => "5"
  | 6 => "6" | 7 => "7" | 8 => "8" | 9 => "9" | 10 => "A" | 11 => "B"
  | 12 => "C" | 13 => "D" | 14 => "E" | _ => "F"
  end.

(** ['0x%02X' % b] for a byte. *)
Definition hex_byte (b : Z) : string :=
  "0x" +:+ hex_digit (Z.shiftr b 4) +:+ hex_digit (Z.land b 15).

(** [' '.join('0x%02X' % x for x in data)]: [Dummy_Decoder.hex]. *)
Definition hex (data : list Z) : string := String.concat " " (map hex_byte data).

Definition bit_char (b : Z) (i : Z) : string :=
  if Z.testbit b i then "1" else "0".

(** ['{0:08b}'.format(b)] for a byte. *)
Definition bin_byte (b : Z) : string :=
  bit_char b 7 +:+ bit_char b 6 +:+ bit_char b 5 +:+ bit_char b 4 +:+
  bit_char b 3 +:+ bit_char b 2 +:+ bit_char b 1 +:+ bit_char b 0.

(** [Dummy_Decoder.binary]. *)
Definition binary (data : list Z) : string := String.concat " " (map bin_byte data).

(** A binary literal, [0b...]. *)
Definition bin (s : string) : Z :=
  fold_left (fun acc c => 2 * acc + (if Ascii.eqb c "1" then 1 else 0))
            (list_ascii_of_string s) 0.

(** The value of one hexadecimal pattern character, [int(p, 16)]. *)
Definition hex_val (c : ascii) : option Z :=
  let n := Z.of_nat (nat_of_ascii c) in
  if (48 <=? n) && (n <=? 57) then Some (n - 48)
  else if (65 <=? n) && (n <=? 70) then Some (n - 55)
  else if (97 <=? n) && (n <=? 102) then Some (n - 87)
  else None.

(** ** Frames *)

(** [data[i]]: an out-of-range index is an [IndexError]. *)
Definition getitem (data : list Z) (i : nat) : exn Z :=
  match data !! i with
  | Some b => Ok b
  | None => Raise IndexError
  end.

(** A pattern element of [match]: a byte value or the wildcard ['.']. *)
Definition pattern := list (option Z).

Fixpoint match_zip (pat : pattern) (data : list Z) : bool :=
  match pat, data with
  | p :: pat', d :: data' =>
      match p with
      | None => match_zip pat' data'
      | Some b => if negb (b =? d) then false else match_zip pat' data'
      end
  | _, _ => true
  end.

(** [LCD_Decoder.match]. *)
Definition match_ (data : list Z) (pat : pattern) : bool :=
  if negb (Nat.eqb (length pat) (length data)) then false
  else match_zip pat data.

Fixpoint remove_spaces (s : string) : string :=
  match s with
  | EmptyString => EmptyString
  | String c r => if Ascii.eqb c " " then remove_spaces r else String c (remove_spaces r)
  end.

Definition nibble_ok (p : ascii) (d : Z) : bool :=
  if Ascii.eqb p "." then true
  else match hex_val p with
       | Some v => v =? d
       | None => false
       end.

Fixpoint match2_loop (data : list Z) (pat : string) : bool :=
  match data, pat with
  | [], _ => true
  | d :: data', String p1 (String p2 pat') =>
      if negb (nibble_ok p1 (Z.shiftr (Z.land d 240) 4)) then false
      else if negb (nibble_ok p2 (Z.land d 15)) then false
      else match2_loop data' pat'
  | _ :: _, _ => false
  end.

(** [LCD_Decoder.match2]: one pattern character per nibble. *)
Definition match2 (data : list Z) (pat : string) : bool :=
  let pat := remove_spaces pat in
  if negb (Nat.eqb (String.length pat) (length data * 2)) then false
  else match2_loop data pat.

(** ** Decoded LCD state and readings *)

(** A Python [int] or [float]. *)
Inductive num :=
| NInt (z : Z)
| NFloat (f : float).

(** A Python value stored in a decoded LCD or returned as a reading value:
    [int], [float], [str] or [True]. *)
Inductive pyval :=
| PInt (z : Z)
| PFloat (f : float)
| PStr (s : string)
| PTrue.

Definition num_val (n : num) : pyval :=
  match n with NInt z => PInt z | NFloat f => PFloat f end.

(** The decoded LCD dictionary: key to value, [None] for Python's [None]. *)
Abbreviation lcd_t := (gmap string (option pyval)).

(** [key in lcd]. *)
Definition has (lcd : lcd_t) (key : string) : bool :=
  match lcd !! key with Some _ => true | None => false end.

(** [lcd[key] = True]. *)
Definition set_flag (lcd : lcd_t) (key : string) : lcd_t := <[key := Some PTrue]> lcd.

(** [lcd[key]]: a missing key is a [KeyError]. *)
Definition lcd_item (lcd : lcd_t) (key : string) : exn (option pyval) :=
  match lcd !! key with Some v => Ok v | None => Raise KeyError end.

(** One element of the sequence a decode function returns: a triple
    [(flags, value, unit)], each part possibly [None]; a bare [None] (an
    element of the tuple [None, None, None]); or a bare byte (an element of
    the frame itself, returned by the default [lambda x: x]). *)
Inductive reading :=
| RNone
| RByte (b : Z)
| RTriple (flags : option lcd_t) (value : option pyval) (units : option string).

(** The absent triple [(None, None, None)]. *)
Definition absent : reading := RTriple None None None.

(** ** Decoder classes *)

(** The classes [make_decoder] can construct. *)
Inductive model :=
| Dummy | TS04 | HP90EPD | AN9002 | V05B | WT81B | UT383BT
| TP357 | TS02 | K1705 | BT980D | BT7200_APP | BT985C_APP.

#[global] Instance model_eq_dec : EqDecision model.
Proof. solve_decision. Defined.

(** [make_decoder(model)]: the class for a model name of the configuration;
    an unknown name is a [KeyError]. *)
Definition make_decoder (name : string) : exn model :=
  match name with
  | "TS04" => Ok TS04
  | "90EPD" => Ok HP90EPD
  | "AN9002" | "ZT300AB" => Ok AN9002
  | "V05B" | "ZT5B" => Ok V05B
  | "WT81B" => Ok WT81B
  | "UT383BT" => Ok UT383BT
  | "TP357" => Ok TP357
  | "TS02" => Ok TS02
  | "K1705" => Ok K1705
  | "BT980D" => Ok BT980D
  | "BT7200_APP" => Ok BT7200_APP
  | "BT985C_APP" => Ok BT985C_APP
  | "dummy" => Ok Dummy
  | _ => Raise KeyError
  end.

(** [self.model]. *)
Definition model_name (m : model) : string :=
  match m with
  | Dummy => "dummy" | TS04 => "TS04" | HP90EPD => "HP90EPD"
  | AN9002 => "AN9002" | V05B => "V05B" | WT81B => "WT81B"
  | UT383BT => "UT383BT" | TP357 => "TP357" | TS02 => "TS02"
  | K1705 => "K1705" | BT980D => "BT980D" | BT7200_APP => "BT7200_APP"
  | BT985C_APP => "BT985C_APP"
  end.

(** A flag specification: name, byte index, bit index. *)
Definition flagspec : Type := string * nat * Z.

(** [self.flags]. *)
Definition flags_of (m : model) : list flagspec :=
  match m with
  | Dummy => []
  | TS04 =>
      [("negative", 1%nat, 4); ("(auto)", 1%nat, 2); ("DC", 1%nat, 1);
       ("AC", 1%nat, 0); ("/1000", 2%nat, 4); ("/100", 3%nat, 4);
       ("/10", 4%nat, 4); ("diode", 5%nat, 7); ("kilo", 5%nat, 6);
       ("micro", 5%nat, 4); ("(hold)", 6%nat, 7); ("ohms", 6%nat, 5);
       ("continuity", 6%nat, 3); ("mega", 6%nat, 2); ("milli", 6%nat, 0);
       ("NCV", 7%nat, 7); ("bluetooth", 7%nat, 6); ("celsius", 7%nat, 5);
       ("fahrenheit", 7%nat, 4); ("(low_batt)", 7%nat, 3);
       ("volts", 7%nat, 1); ("amps", 7%nat, 0); ("auto_off", 8%nat, 0)]
  | HP90EPD =>
      [("(auto)", 0%nat, 1); ("AC", 0%nat, 3); ("(hold)", 11%nat, 0);
       ("mega", 10%nat, 1); ("kilo", 9%nat, 1); ("milli", 10%nat, 3);
       ("micro", 9%nat, 3); ("nano", 9%nat, 2); ("diode", 9%nat, 0);
       ("continuity", 10%nat, 0); ("%duty", 10%nat, 2);
       ("(relative)", 11%nat, 1); ("ohms", 11%nat, 2); ("farads", 11%nat, 3);
       ("hertz", 12%nat, 1); ("volts", 12%nat, 2); ("amps", 12%nat, 3);
       ("celsius", 13%nat, 2); ("negative", 1%nat, 3); ("/1000", 3%nat, 3);
       ("/100", 5%nat, 3); ("/10", 7%nat, 3); ("(low_batt)", 12%nat, 0);
       ("mystery_1", 0%nat, 2); ("mystery_2", 13%nat, 0)]
  | AN9002 =>
      [("(auto)", 10%nat, 0); ("/1000", 4%nat, 4); ("/100", 5%nat, 4);
       ("/10", 6%nat, 4); ("(relative)", 3%nat, 1); ("(maximum)", 8%nat, 0);
       ("(minimum)", 8%nat, 1); ("AC", 8%nat, 3); ("DC", 9%nat, 6);
       ("hertz", 9%nat, 0); ("%duty", 8%nat, 2); ("(hold)", 7%nat, 4);
       ("milli", 9%nat, 5); ("negative", 3%nat, 4); ("celsius", 7%nat, 6);
       ("fahrenheit", 7%nat, 5); ("volts", 9%nat, 4); ("ohms", 9%nat, 1);
       ("mega", 9%nat, 3); ("kilo", 9%nat, 2); ("farads", 8%nat, 4);
       ("nano", 8%nat, 7); ("micro", 8%nat, 5); ("milli", 8%nat, 6);
       ("amps", 9%nat, 7); ("milli", 10%nat, 3); ("micro", 10%nat, 2);
       ("diode", 7%nat, 7); ("continuity", 3%nat, 3); ("(low_batt)", 3%nat, 0)]
  | V05B =>
      [("/1000", 4%nat, 4); ("/100", 5%nat, 4); ("/10", 6%nat, 4);
       ("AC", 8%nat, 3); ("DC", 8%nat, 2); ("hertz", 9%nat, 5);
       ("(hold)", 3%nat, 1); ("high_volt", 3%nat, 2); ("buzzer", 3%nat, 3);
       ("negative", 3%nat, 4); ("celsius", 9%nat, 7); ("fahrenheit", 9%nat, 6);
       ("volts", 8%nat, 1); ("ohms", 9%nat, 0); ("mega", 9%nat, 3);
       ("kilo", 9%nat, 1); ("farads", 8%nat, 4); ("nano", 8%nat, 0);
       ("micro", 8%nat, 7); ("milli", 9%nat, 2); ("amps", 8%nat, 6);
       ("diode", 8%nat, 5)]
  | WT81B => [("x100", 3%nat, 1); ("x10", 3%nat, 0)]
  | UT383BT =>
      [("(hold)", 16%nat, 0); ("(maximum)", 16%nat, 3);
       ("(minimum)", 16%nat, 2); ("(low_batt)", 16%nat, 6)]
  | TP357 => [("(???)", 2%nat, 0)]
  | TS02 => [("negative", 0%nat, 2); ("positive", 0%nat, 1)]
  | K1705 => [("(overload)", 10%nat, 7); ("negative", 10%nat, 4)]
  | BT980D =>
      [("laser", 5%nat, 2); ("celsius", 5%nat, 0); ("fahrenheit", 5%nat, 1);
       ("backlight", 5%nat, 3)]
  | BT7200_APP =>
      [("(hold)", 11%nat, 3); ("(auto)", 0%nat, 2); ("(minimum)", 14%nat, 1);
       ("(maximum)", 14%nat, 3); ("(relative)", 11%nat, 2);
       ("(low_batt)", 12%nat, 3); ("diode", 9%nat, 3);
       ("continuity", 10%nat, 3); ("/1000", 3%nat, 0); ("/100", 5%nat, 0);
       ("/10", 7%nat, 0); ("negative", 1%nat, 0); ("milli", 10%nat, 0);
       ("mega", 10%nat, 2); ("DC", 0%nat, 1); ("AC", 0%nat, 0);
       ("ohms", 11%nat, 1); ("hertz", 12%nat, 2); ("%duty", 10%nat, 1);
       ("celsius", 13%nat, 1); ("fahrenheit", 13%nat, 0); ("NCV", 13%nat, 3);
       ("amps", 12%nat, 0); ("volts", 12%nat, 1)]
  | BT985C_APP =>
      [("fahrenheit", 6%nat, 6); ("(scan)", 6%nat, 0); ("(memory)", 6%nat, 1);
       ("(laser)", 6%nat, 2); ("(backlight)", 6%nat, 3);
       ("(low_batt)", 6%nat, 4)]
  end.

(** The segment table of [TS04_Decoder]. *)
Definition segments_TS04 : list (Z * string) :=
  [(bin "00000000", " "); (bin "11101011", "0"); (bin "00001010", "1");
   (bin "10101101", "2"); (bin "10001111", "3"); (bin "01001110", "4");
   (bin "11000111", "5"); (bin "11100111", "6"); (bin "10001010", "7");
   (bin "11101111", "8"); (bin "11001111", "9"); (bin "01100001", "L");
   (bin "11100101", "E"); (bin "11100100", "F"); (bin "00000100", "-")].

(** [self.segments]: bit pattern to digit character. *)
Definition segments_of (m : model) : gmap Z string :=
  match m with
  | TS04 | BT7200_APP => list_to_map segments_TS04
  | HP90EPD =>
      list_to_map
        [(bin "0000000", " "); (bin "1111101", "0"); (bin "0000101", "1");
         (bin "1011011", "2"); (bin "0011111", "3"); (bin "0100111", "4");
         (bin "0111110", "5"); (bin "1111110", "6"); (bin "0010101", "7");
         (bin "1111111", "8"); (bin "0111111", "9"); (bin "1101000", "L")]
  | AN9002 | V05B =>
      <[bin "00100111" := "o"]> (<[bin "01100101" := "t"]> (<[bin "00100011" := "u"]>
        (<[bin "11101110" := "A"]> (list_to_map segments_TS04))))
  | _ => ∅
  end.

(** The literal strings of [AN9002_Decoder]. *)
Definition strings_AN9002 : gmap string pyval :=
  list_to_map
    [("Auto", PStr "?"); ("    ", PStr "?"); (" EF ", PInt 0);
     ("-   ", PInt 1); ("--  ", PInt 2); ("--- ", PInt 3);
     ("----", PInt 4); (" 0L ", PFloat inf)].

(** [self.strings]: digit strings with a fixed meaning. *)
Definition strings_of (m : model) : gmap string pyval :=
  match m with
  | TS04 =>
      list_to_map
        [("    ", PStr "?"); (" EF ", PInt 0); ("   -", PInt 1);
         ("  --", PInt 2); (" ---", PInt 3); ("----", PInt 4);
         (" 0L ", PFloat inf)]
  | HP90EPD => list_to_map [("    ", PStr "?"); (" 0L ", PFloat inf)]
  | AN9002 | V05B | BT7200_APP => strings_AN9002
  | UT383BT => list_to_map [("    OL", PFloat inf)]
  | _ => ∅
  end.

(** [self.mode_strings]: digit strings that set a mode flag. *)
Definition mode_strings_of (m : model) : gmap string string :=
  match m with
  | AN9002 | V05B =>
      list_to_map
        [(" EF ", "NCV"); ("-   ", "NCV"); ("--  ", "NCV"); ("--- ", "NCV");
         ("----", "NCV")]
  | _ => ∅
  end.

(** [self.flip_bits]: the XOR whitening key. *)
Definition flip_bits_of (m : model) : list Z :=
  match m with
  | AN9002 => [0x1B; 0x84; 0x70; 0x55; 0xA2; 0xC1; 0x32; 0x71; 0x66; 0xAA; 0x3B]
  | V05B => take 10 [0x1B; 0x84; 0x70; 0x55; 0xA2; 0xC1; 0x32; 0x71; 0x66; 0xAA; 0x3B]
  | _ => []
  end.

(** [self.scaling], in the order of the dictionary literal. *)
Definition scaling : list (string * num) :=
  [("negative", NInt (-1)); ("positive", NInt 1); ("/1000", NFloat 0.001);
   ("/100", NFloat 0.01); ("/10", NFloat 0.1); ("kilo", NInt 1000);
   ("mega", NFloat 1e6); ("milli", NFloat 0.001); ("micro", NFloat 1e-6);
   ("nano", NFloat 1e-9); ("x10", NInt 10); ("x100", NInt 100)].

(** ** [LCD_Decoder]: the shared decoding steps *)

(** The flag loop of [decode_lcd]: [if data[byte] & (1<<bit): lcd[flag] = True]. *)
Fixpoint read_flags (fl : list flagspec) (data : list Z) (lcd : lcd_t) : exn lcd_t :=
  match fl with
  | [] => Ok lcd
  | (flag, byte, bit) :: fl' =>
      b ← getitem data byte;
      read_flags fl' data
        (if negb (Z.land b (Z.shiftl 1 bit) =? 0) then set_flag lcd flag else lcd)
  end.

(** The bit pattern a [merge_digit] method looks up. *)
Definition merge_key (m : model) (byte1 byte2 : Z) : Z :=
  match m with
  | HP90EPD => Z.lor (Z.shiftl (Z.land byte1 (bin "111")) 4) (Z.land byte2 (bin "1111"))
  | BT7200_APP => Z.lor (Z.shiftl (Z.land byte1 (bin "1110")) 4) (Z.land byte2 (bin "1111"))
  | _ => Z.lor (Z.land byte1 (bin "11100000")) (Z.land byte2 (bin "1111"))
  end.

(** [merge_digit]: [self.segments[key]], a [KeyError] when the pattern has
    no entry. *)
Definition merge_digit (m : model) (byte1 byte2 : Z) : exn string :=
  match segments_of m !! merge_key m byte1 byte2 with
  | Some c => Ok c
  | None => Raise KeyError
  end.

(** [self.merge_digit(data[i], data[j])]. *)
Definition digit_at (m : model) (data : list Z) (i j : nat) : exn string :=
  byte1 ← getitem data i;
  byte2 ← getitem data j;
  merge_digit m byte1 byte2.

(** The byte positions two by two merged into the four digits. *)
Definition digit_pairs (m : model) : list (nat * nat) :=
  match m with
  | TS04 => [(1, 2); (2, 3); (3, 4); (4, 5)]%nat
  | HP90EPD => [(1, 2); (3, 4); (5, 6); (7, 8)]%nat
  | AN9002 | V05B => [(3, 4); (4, 5); (5, 6); (6, 7)]%nat
  | BT7200_APP => [(1, 2); (3, 4); (5, 6); (7, 8)]%nat
  | _ => []
  end.

(** [digit1 + digit2 + digit3 + digit4], each digit looked up in turn. *)
Fixpoint merged_digits (m : model) (data : list Z) (pairs : list (nat * nat)) : exn string :=
  match pairs with
  | [] => Ok ""
  | (i, j) :: pairs' =>
      digit ← digit_at m data i j;
      rest ← merged_digits m data pairs';
      Ok (digit +:+ rest)
  end.

(** [str(data[i] & 0x0F)]. *)
Definition bcd_at (data : list Z) (i : nat) : exn string :=
  b ← getitem data i;
  Ok (py_str (Z.land b 0x0F)).

(** [decode_digits], by class; the base method returns [None]. *)
Definition decode_digits (m : model) (data : list Z) : exn (option pyval) :=
  match m with
  | TS04 | HP90EPD | AN9002 | V05B | BT7200_APP =>
      digits ← merged_digits m data (digit_pairs m);
      Ok (Some (PStr digits))
  | TS02 =>
      digit1 ← bcd_at data 1;
      digit2 ← bcd_at data 2;
      digit3 ← bcd_at data 3;
      digit4 ← bcd_at data 4;
      Ok (Some (PStr (digit1 +:+ digit2 +:+ digit3 +:+ digit4)))
  | K1705 =>
      b11 ← getitem data 11;
      b12 ← getitem data 12;
      b13 ← getitem data 13;
      Ok (Some (PStr (py_str (Z.shiftl b11 16 + Z.shiftl b12 8 + b13))))
  | _ => Ok None
  end.

(** [LCD_Decoder.decode_lcd]. *)
Definition decode_lcd_base (m : model) (data : list Z) : exn lcd_t :=
  lcd ← read_flags (flags_of m) data ∅;
  digits ← decode_digits m data;
  let lcd := <["digits" := digits]> lcd in
  match digits with
  | Some (PStr s) =>
      match mode_strings_of m !! s with
      | Some flag => Ok (set_flag lcd flag)
      | None => Ok lcd
      end
  | _ => Ok lcd
  end.

(** [n *= x] on numbers. *)
Definition num_mul (a b : num) : num :=
  match a, b with
  | NInt x, NInt y => NInt (x * y)
  | NInt x, NFloat y => NFloat (Z2F x * y)%float
  | NFloat x, NInt y => NFloat (x * Z2F y)%float
  | NFloat x, NFloat y => NFloat (x * y)%float
  end.

(** The scaling loop of [lcd_to_number]. *)
Fixpoint apply_scaling (sc : list (string * num)) (lcd : lcd_t) (n : num) : num :=
  match sc with
  | [] => n
  | (flag, x) :: sc' =>
      apply_scaling sc' lcd (if has lcd flag then num_mul n x else n)
  end.

(** [LCD_Decoder.lcd_to_number]. *)
Definition lcd_to_number (m : model) (lcd : lcd_t) : exn pyval :=
  digits ← lcd_item lcd "digits";
  match digits with
  | Some (PStr s) =>
      match strings_of m !! s with
      | Some v => Ok v
      | None =>
          n ← py_int10 s;
          let n := apply_scaling scaling lcd (NInt n) in
          if has lcd "(overload)" then Ok (PFloat inf) else Ok (num_val n)
      end
  | _ => Raise TypeError
  end.

Definition modes : list string :=
  ["DC"; "AC"; "volts"; "amps"; "ohms"; "NCV"; "diode"; "continuity";
   "celsius"; "fahrenheit"; "farads"; "hertz"; "%duty"; "lux"; "fc";
   "degrees"; "%RH"; "grams"; "(auto)"; "(hold)"; "(relative)";
   "(maximum)"; "(minimum)"; "(low_batt)"].

(** [LCD_Decoder.lcd_to_units]. *)
Definition lcd_to_units (lcd : lcd_t) : string :=
  String.concat " " (filter (fun m => has lcd m = true) modes).

(** [[(lcd, self.lcd_to_number(lcd), self.lcd_to_units(lcd))]]. *)
Definition lcd_reading (m : model) (lcd : lcd_t) : exn (list reading) :=
  n ← lcd_to_number m lcd;
  Ok [RTriple (Some lcd) (Some n) (Some (lcd_to_units lcd))].

(** [for i,x in enumerate(self.flip_bits): data[i] ^= x]. *)
Fixpoint whiten (key : list Z) (data : list Z) : exn (list Z) :=
  match key, data with
  | [], _ => Ok data
  | x :: key', d :: data' =>
      rest ← whiten key' data';
      Ok (Z.lxor d x :: rest)
  | _ :: _, [] => Raise IndexError
  end.

Fixpoint insert_sorted (s : string) (l : list string) : list string :=
  match l with
  | [] => [s]
  | x :: l' => if String.leb s x then s :: l else x :: insert_sorted s l'
  end.

(** [sorted] on a list of strings. *)
Definition sorted_strings (l : list string) : list string :=
  fold_right insert_sorted [] l.

(** The keys of [set(lcd) - set(['digits'])], in sorted order. *)
Definition flag_names (lcd : lcd_t) : list string :=
  sorted_strings (filter (fun k => k ≠ "digits") (map fst (map_to_list lcd))).

(** The line printed for a frame that is not recognised. *)
Definition warning (m : model) (data : list Z) : string :=
  "WARNING: unrecognized " +:+ model_name m +:+ " data " +:+ hex data.

(** ** The [decode] methods

    A call of [decode] prints zero or more lines, may replace the reassembly
    buffer ([self.buffer], used by [HP90EPD_Decoder] only) and either returns
    a sequence of readings or raises. *)

Record outcome := Outcome {
  out_log : list string;          (* lines printed *)
  out_buffer : list Z;            (* [self.buffer] after the call *)
  out_result : exn (list reading) (* the returned sequence, or the exception *)
}.

(** A return of [[(None, None, None)]] without a printed line. *)
Definition silent_absent (buf : list Z) : outcome := Outcome [] buf (Ok [absent]).

(** [print('WARNING: unrecognized', ...)] and [return [(None, None, None)]]. *)
Definition warn_absent (m : model) (buf data : list Z) : outcome :=
  Outcome [warning m data] buf (Ok [absent]).

Definition returns (buf : list Z) (r : exn (list reading)) : outcome :=
  Outcome [] buf r.

(** The frame [b'SPP:sendData 08\\s\\n\\']. *)
Definition spp_banner : list Z :=
  map (fun c => Z.of_nat (nat_of_ascii c))
      (list_ascii_of_string "SPP:sendData 08\s\n\").

Definition frame_eqb (a b : list Z) : bool := bool_decide (a = b).

(** [Dummy_Decoder.decode]; [hide_known] is [True] and [flags] is empty, so
    [unknown_binary] replaces nothing. *)
Definition decode_Dummy (buf data : list Z) : outcome :=
  returns buf (
    data ← whiten (flip_bits_of Dummy) data;
    lcd ← decode_lcd_base Dummy data;
    let lcd := set_flag lcd "dummy" in
    let bits := binary data in
    Ok [RTriple (Some lcd) (Some (PStr bits))
                (Some (String.concat " " (flag_names lcd)))]).

(** [TS04_Decoder.decode]. *)
Definition decode_TS04 (buf data : list Z) : outcome :=
  if frame_eqb data spp_banner then silent_absent buf
  else if negb (Nat.eqb (length data) 9) then silent_absent buf
  else returns buf (lcd ← decode_lcd_base TS04 data; lcd_reading TS04 lcd).

(** [HP90EPD_Decoder.decode]: a frame of 8 bytes is kept in the buffer, a
    frame of 6 bytes completes it; the mismatch branch is
    [return None, None, None]. *)
Definition decode_HP90EPD (buf data : list Z) : outcome :=
  if Nat.eqb (length data) 8 then Outcome [] data (Ok [absent])
  else if Nat.eqb (length data) 6 && Nat.eqb (length buf) 8 then
    let data := (buf ++ data)%list in
    match decode_lcd_base HP90EPD data with
    | Raise e => Outcome [] buf (Raise e)
    | Ok lcd =>
        let lcd :=
          if has lcd "volts" || has lcd "amps"
          then if negb (has lcd "AC") then set_flag lcd "DC" else lcd
          else lcd in
        Outcome [] [] (lcd_reading HP90EPD lcd)
    end
  else Outcome [] [] (Ok [RNone; RNone; RNone]).

(** [AN9002_Decoder.decode]. *)
Definition decode_AN9002 (buf data : list Z) : outcome :=
  if negb (Nat.eqb (length data) 11) then silent_absent buf
  else returns buf (
    data ← whiten (flip_bits_of AN9002) data;
    lcd ← decode_lcd_base AN9002 data;
    lcd_reading AN9002 lcd).

(** [V05B_Decoder.decode]. *)
Definition decode_V05B (buf data : list Z) : outcome :=
  if negb (Nat.eqb (length data) 10) then silent_absent buf
  else returns buf (
    data ← whiten (flip_bits_of V05B) data;
    lcd ← decode_lcd_base V05B data;
    lcd_reading V05B lcd).

(** [(data[i] << 8) | data[j]]. *)
Definition word_at (data : list Z) (i j : nat) : exn Z :=
  hi ← getitem data i;
  lo ← getitem data j;
  Ok (Z.lor (Z.shiftl hi 8) lo).

(** [WT81B_Decoder.decode_lcd]. *)
Definition decode_lcd_WT81B (data : list Z) : exn lcd_t :=
  lcd ← read_flags (flags_of WT81B) data ∅;
  t ← word_at data 4 5;
  temperature ← int_truediv t 10;
  let lcd := <["temperature" := Some (PFloat temperature)]> lcd in
  l ← word_at data 6 7;
  lux ← int_truediv l 10;
  let lux := if has lcd "x10" then (lux * Z2F 10)%float else lux in
  let lux := if has lcd "x100" then (lux * Z2F 100)%float else lux in
  let lux := if (lux =? Z2F 360600)%float then inf else lux in
  Ok (<["lux" := Some (PFloat lux)]> lcd).

Definition pattern_WT81B : pattern :=
  [Some 0xFF; Some 0x57; Some 0x4C; None; None; None; None; None].

(** The frame test of [WT81B_Decoder.decode]:
    [not self.match(data, ...) or data[3] > 3]. *)
Definition mismatch_WT81B (data : list Z) : exn bool :=
  if negb (match_ data pattern_WT81B) then Ok true
  else b ← getitem data 3; Ok (3 <? b).

(** [WT81B_Decoder.decode]. *)
Definition decode_WT81B (buf data : list Z) : outcome :=
  match mismatch_WT81B data with
  | Raise e => returns buf (Raise e)
  | Ok true => warn_absent WT81B buf data
  | Ok false =>
      returns buf (
        lcd ← decode_lcd_WT81B data;
        lux ← lcd_item lcd "lux";
        temperature ← lcd_item lcd "temperature";
        Ok [RTriple (Some lcd) lux (Some "lux");
            RTriple (Some lcd) temperature (Some "celsius")])
  end.

Definition pattern_UT383BT : pattern :=
  [Some 0xAA; Some 0xBB; Some 0x10; Some 0x01; Some 0x3A; None; None; None;
   None; None; None; Some 0x4C; Some 0x55; Some 0x58; None; Some 0x30; None;
   None; None].

(** [bytes(data).decode('ascii')]. *)
Definition decode_ascii (data : list Z) : exn string :=
  if forallb (fun b => (0 <=? b) && (b <? 128)) data
  then Ok (string_of_list_ascii (map (fun b => ascii_of_nat (Z.to_nat b)) data))
  else Raise UnicodeDecodeError.

(** [data[i:j]]. *)
Definition slice (data : list Z) (i j : nat) : list Z := take (j - i) (drop i data).

(** [UT383BT_Decoder.decode]. *)
Definition decode_UT383BT (buf data : list Z) : outcome :=
  if negb (match_ data pattern_UT383BT) then warn_absent UT383BT buf data
  else returns buf (
    lcd ← decode_lcd_base UT383BT data;
    let lcd := set_flag lcd "lux" in
    digits ← decode_ascii (slice data 5 11);
    let lcd := <["digits" := Some (PStr digits)]> lcd in
    lcd_reading UT383BT lcd).

(** [TP357_Decoder.decode_lcd]; the sign correction reads the undefined
    name [n]. *)
Definition decode_lcd_TP357 (data : list Z) : exn lcd_t :=
  lcd ← read_flags (flags_of TP357) data ∅;
  b4 ← getitem data 4;
  b3 ← getitem data 3;
  let temp := Z.lor (Z.shiftl b4 8) b3 in
  temp ← (if negb (Z.land temp 0x8000 =? 0) then Raise NameError else Ok temp);
  temperature ← int_truediv temp 10;
  let lcd := <["temperature" := Some (PFloat temperature)]> lcd in
  b5 ← getitem data 5;
  Ok (<["humidity" := Some (PInt b5)]> lcd).

Definition pattern_TP357 : pattern :=
  [Some 0xC2; Some 0x00; None; None; None; None; Some 0x2C].

Definition mismatch_TP357 (data : list Z) : exn bool :=
  if negb (match_ data pattern_TP357) then Ok true
  else b ← getitem data 2; Ok (1 <? b).

(** [TP357_Decoder.decode]. *)
Definition decode_TP357 (buf data : list Z) : outcome :=
  match mismatch_TP357 data with
  | Raise e => returns buf (Raise e)
  | Ok true => warn_absent TP357 buf data
  | Ok false =>
      returns buf (
        lcd ← decode_lcd_TP357 data;
        temperature ← lcd_item lcd "temperature";
        humidity ← lcd_item lcd "humidity";
        Ok [RTriple (Some lcd) temperature (Some "celsius");
            RTriple (Some lcd) humidity (Some "%RH")])
  end.

(** [TS02_Decoder.check]: each test reads its byte first, so a short frame
    raises [IndexError] at the first missing byte. *)
Definition check_TS02 (data : list Z) : exn bool :=
  b0 ← getitem data 0;
  if negb (Z.land b0 (bin "11111001") =? bin "00101001") then Ok false else
  b1 ← getitem data 1;
  if negb (Z.land b1 0xF0 =? 0x30) then Ok false else
  b2 ← getitem data 2;
  if negb (Z.land b2 0xF0 =? 0x30) then Ok false else
  b3 ← getitem data 3;
  if negb (Z.land b3 0xF0 =? 0x30) then Ok false else
  b4 ← getitem data 4;
  if negb (Z.land b4 0xF0 =? 0x30) then Ok false else
  b5 ← getitem data 5;
  if negb (b5 =? 0x30) then Ok false else
  Ok true.

(** [TS02_Decoder.decode]. *)
Definition decode_TS02 (buf data : list Z) : outcome :=
  match check_TS02 data with
  | Raise e => returns buf (Raise e)
  | Ok false => warn_absent TS02 buf data
  | Ok true =>
      returns buf (
        lcd ← decode_lcd_base TS02 data;
        let lcd := set_flag lcd "degrees" in
        let lcd := set_flag lcd "/10" in
        lcd_reading TS02 lcd)
  end.

Definition pattern_K1705 : pattern :=
  [Some 0xA3; Some 0xBE; Some 0x15; Some 0x92; Some 0x93; Some 0; Some 0;
   Some 0xA0; Some 0; Some 0; None; None; None; None; Some 0xFF; Some 0x3E;
   Some 0xBA].

(** [K1705_Decoder.decode]. *)
Definition decode_K1705 (buf data : list Z) : outcome :=
  if Nat.eqb (length data) 128 then silent_absent buf
  else if negb (match_ data pattern_K1705) then warn_absent K1705 buf data
  else returns buf (
    lcd ← decode_lcd_base K1705 data;
    let lcd := set_flag lcd "grams" in
    let lcd := set_flag lcd "/100" in
    lcd_reading K1705 lcd).

Definition ack_BT980D : pattern :=
  [Some 0xA7; Some 0x00; Some 0x20; Some 0x07; Some 0x85; Some 0x7D;
   Some 0x43; Some 0x33; Some 0x48; Some 0xDE; Some 0x70; Some 0x35;
   Some 0x7A].

Definition pattern_BT980D : pattern :=
  [Some 0xA7; Some 0x00; Some 0x20; Some 0x0B; Some 0x8D; None; None;
   Some 0xC9; None; None; Some 0x8F; None; None; Some 0xCC; Some 0xBD; None;
   Some 0x7A].

(** [BT980D_Decoder.decode]. *)
Definition decode_BT980D (buf data : list Z) : outcome :=
  if match_ data ack_BT980D then silent_absent buf
  else if negb (match_ data pattern_BT980D) then warn_absent BT980D buf data
  else returns buf (
    lcd ← decode_lcd_base BT980D data;
    Ok [RTriple (Some lcd) (Some (PStr (hex data)))
                (Some (String.concat " " (flag_names lcd)))]).

(** The recovery steps of [BT7200_APP_Decoder.decode]: a missing last byte
    is appended, a leading extra byte is dropped. *)
Definition recover_BT7200 (data : list Z) : list Z :=
  let data :=
    if match2 data "1.2.3.4.5.6.7.8.9.A.B.C.D.E." then (data ++ [0xF0])%list
    else data in
  if match2 data "F.1.2.3.4.5.6.7.8.9.A.B.C.D.E.F." then drop 1 data else data.

(** [BT7200_APP_Decoder.decode]. *)
Definition decode_BT7200_APP (buf data : list Z) : outcome :=
  let data := recover_BT7200 data in
  if negb (match2 data "1.2.3.4.5.6.7.8.9.A.B.C.D.E.F.")
  then warn_absent BT7200_APP buf data
  else returns buf (lcd ← decode_lcd_base BT7200_APP data; lcd_reading BT7200_APP lcd).

(** [BT985C_APP_Decoder._16bit_temperature]. *)
Definition _16bit_temperature (b1 b2 : Z) : float :=
  let t := b1 + Z.shiftl b2 8 in
  let t := if negb (Z.land b2 0x80 =? 0) then t - 2 ^ 16 else t in
  (Z2F t / 10.0)%float.

(** [mode_table] of [BT985C_APP_Decoder.decode_lcd]. *)
Definition mode_table : gmap Z string :=
  list_to_map
    [(0, "max_celsius"); (1, "avg_celsius"); (2, "min_celsius");
     (3, "low_alarm_celsius"); (4, "high_alarm_celsius"); (5, "Îµ")].

(** [BT985C_APP_Decoder.decode_lcd]. *)
Definition decode_lcd_BT985C (data : list Z) : exn lcd_t :=
  lcd ← read_flags (flags_of BT985C_APP) data ∅;
  let lcd := if negb (has lcd "fahrenheit") then set_flag lcd "celsius" else lcd in
  let lcd := if negb (has lcd "(scan)") then set_flag lcd "(hold)" else lcd in
  mode ← getitem data 1;
  lcd ← (if (0 <=? mode) && (mode <=? 4) then
           b2 ← getitem data 2;
           b3 ← getitem data 3;
           Ok (<["minor_reading" := Some (PFloat (_16bit_temperature b2 b3))]> lcd)
         else Ok lcd);
  lcd ← (if mode =? 5 then
           b3 ← getitem data 3;
           r ← int_truediv b3 100;
           Ok (<["minor_reading" := Some (PFloat r)]> lcd)
         else Ok lcd);
  unit ← match mode_table !! mode with Some u => Ok u | None => Raise KeyError end;
  let lcd := <["minor_unit" := Some (PStr unit)]> lcd in
  b4 ← getitem data 4;
  b5 ← getitem data 5;
  Ok (<["temperature" := Some (PFloat (_16bit_temperature b4 b5))]> lcd).

(** A reading unit taken from the LCD: [lcd['minor_unit']]. *)
Definition as_unit (v : option pyval) : option string :=
  match v with Some (PStr s) => Some s | _ => None end.

(** [BT985C_APP_Decoder.decode]. *)
Definition decode_BT985C_APP (buf data : list Z) : outcome :=
  if negb (match2 data "BC 0. .. .. .. .. .. ..")
  then warn_absent BT985C_APP buf data
  else returns buf (
    lcd ← decode_lcd_BT985C data;
    minor_reading ← lcd_item lcd "minor_reading";
    minor_unit ← lcd_item lcd "minor_unit";
    temperature ← lcd_item lcd "temperature";
    Ok [RTriple (Some lcd) minor_reading (as_unit minor_unit);
        RTriple (Some lcd) temperature (Some "celsius")]).

(** [decoder.decode(data)] for a decoder of class [m] whose buffer holds
    [buf]. *)
Definition decode (m : model) (buf data : list Z) : outcome :=
  match m with
  | Dummy => decode_Dummy buf data
  | TS04 => decode_TS04 buf data
  | HP90EPD => decode_HP90EPD buf data
  | AN9002 => decode_AN9002 buf data
  | V05B => decode_V05B buf data
  | WT81B => decode_WT81B buf data
  | UT383BT => decode_UT383BT buf data
  | TP357 => decode_TP357 buf data
  | TS02 => decode_TS02 buf data
  | K1705 => decode_K1705 buf data
  | BT980D => decode_BT980D buf data
  | BT7200_APP => decode_BT7200_APP buf data
  | BT985C_APP => decode_BT985C_APP buf data
  end.

(** ** Frame tests and decoded frames *)

(** The frame test at the head of a [decode] method: [Ok true] when the
    frame is turned away.  The test of [TS02_Decoder] may itself raise. *)
Definition rejected (m : model) (buf data : list Z) : exn bool :=
  match m with
  | Dummy => Ok false
  | TS04 => Ok (frame_eqb data spp_banner || negb (Nat.eqb (length data) 9))
  | HP90EPD =>
      Ok (negb (Nat.eqb (length data) 8)
          && negb (Nat.eqb (length data) 6 && Nat.eqb (length buf) 8))
  | AN9002 => Ok (negb (Nat.eqb (length data) 11))
  | V05B => Ok (negb (Nat.eqb (length data) 10))
  | WT81B => mismatch_WT81B data
  | UT383BT => Ok (negb (match_ data pattern_UT383BT))
  | TP357 => mismatch_TP357 data
  | TS02 => ok ← check_TS02 data; Ok (negb ok)
  | K1705 => Ok (negb (match_ data pattern_K1705))
  | BT980D => Ok (negb (match_ data pattern_BT980D))
  | BT7200_APP =>
      Ok (negb (match2 (recover_BT7200 data) "1.2.3.4.5.6.7.8.9.A.B.C.D.E.F."))
  | BT985C_APP => Ok (negb (match2 data "BC 0. .. .. .. .. .. .."))
  end.

(** Whether the branch that turns the frame away prints the warning. *)
Definition diagnoses (m : model) (data : list Z) : bool :=
  match m with
  | Dummy | TS04 | HP90EPD | AN9002 | V05B => false
  | K1705 => negb (Nat.eqb (length data) 128)
  | BT980D => negb (match_ data ack_BT980D)
  | _ => true
  end.

(** The bytes the warning shows: [BT7200_APP_Decoder] prints the frame
    after its recovery steps. *)
Definition shown (m : model) (data : list Z) : list Z :=
  match m with BT7200_APP => recover_BT7200 data | _ => data end.

(** The bytes a segment model hands to [decode_lcd] once the frame is
    accepted: reassembled, whitened or recovered. *)
Definition lcd_frame (m : model) (buf data : list Z) : option (list Z) :=
  match m with
  | TS04 =>
      if frame_eqb data spp_banner then None
      else if Nat.eqb (length data) 9 then Some data else None
  | HP90EPD =>
      if Nat.eqb (length data) 8 then None
      else if Nat.eqb (length data) 6 && Nat.eqb (length buf) 8
           then Some (buf ++ data)%list else None
  | AN9002 =>
      if Nat.eqb (length data) 11
      then match whiten (flip_bits_of AN9002) data with
           | Ok data => Some data
           | Raise _ => None
           end
      else None
  | V05B =>
      if Nat.eqb (length data) 10
      then match whiten (flip_bits_of V05B) data with
           | Ok data => Some data
           | Raise _ => None
           end
      else None
  | BT7200_APP =>
      let data := recover_BT7200 data in
      if match2 data "1.2.3.4.5.6.7.8.9.A.B.C.D.E.F." then Some data else None
  | _ => None
  end.

(** Some digit position of the frame merges to a bit pattern that has no
    entry in the segment table. *)
Definition missing_segment (m : model) (frame : list Z) : Prop :=
  Exists (fun p : nat * nat =>
            exists byte1 byte2,
              frame !! p.1 = Some byte1 /\ frame !! p.2 = Some byte2 /\
              segments_of m !! merge_key m byte1 byte2 = None)
         (digit_pairs m).

(** The value and the unit carried by an element of a decode result; a bare
    [None] or byte carries neither. *)
Definition value_of (r : reading) : option pyval :=
  match r with RTriple _ v _ => v | _ => None end.

Definition units_of (r : reading) : option string :=
  match r with RTriple _ _ u => u | _ => None end.

(** Value and unit are both present or both absent. *)
Definition paired (r : reading) : Prop :=
  value_of r = None <-> units_of r = None.

(** ** [BLE_Session]

    Times are counted in microseconds, the resolution of [datetime]. *)

(** A poll, init or stop message: [{'uuid': .., 'payload': .., 'sleep': ..}],
    with ['response' in msg and msg['response']] as the last field. *)
Record message_spec := MessageSpec {
  msg_uuid : string;
  msg_payload : list Z;
  msg_sleep : Z;
  msg_response : bool
}.

(** An entry of [self.devices].  [dev_decode] is the class of the decoder
    whose bound [decode] was registered, [None] for the default
    [lambda x: x]; [dev_buffer] is that decoder's buffer; [dev_lastseen] is
    [None] for the initial [0]. *)
Record device := Device {
  dev_uuid : string;
  dev_decode : option model;
  dev_buffer : list Z;
  dev_alias : option string;
  dev_lastseen : option Z;
  dev_poll_msg : option message_spec;
  dev_init_msg : option message_spec;
  dev_stop_msg : option message_spec
}.

Definition set_lastseen (t : option Z) (d : device) : device :=
  Device (dev_uuid d) (dev_decode d) (dev_buffer d) (dev_alias d) t
         (dev_poll_msg d) (dev_init_msg d) (dev_stop_msg d).

Definition set_buffer (buf : list Z) (d : device) : device :=
  Device (dev_uuid d) (dev_decode d) buf (dev_alias d) (dev_lastseen d)
         (dev_poll_msg d) (dev_init_msg d) (dev_stop_msg d).

(** A queued message [(timestamp, address, r)]. *)
Record message := Message {
  m_time : Z;
  m_address : string;
  m_data : reading
}.

(** The fields of a [BLE_Session]; [dbus_lock] and [running] hold whether
    the lock is locked. *)
Record session := Session {
  devices : gmap string device;
  messages : list message;
  dbus_lock : bool;
  running : bool;
  last_flush : Z;
  live_count : gmap string nat;
  last_messages : gmap string message;
  recycle : gset string
}.

Definition with_devices (d : gmap string device) (s : session) : session :=
  Session d (messages s) (dbus_lock s) (running s) (last_flush s)
          (live_count s) (last_messages s) (recycle s).

Definition with_messages (q : list message) (s : session) : session :=
  Session (devices s) q (dbus_lock s) (running s) (last_flush s)
          (live_count s) (last_messages s) (recycle s).

Definition with_dbus_lock (b : bool) (s : session) : session :=
  Session (devices s) (messages s) b (running s) (last_flush s)
          (live_count s) (last_messages s) (recycle s).

Definition with_running (b : bool) (s : session) : session :=
  Session (devices s) (messages s) (dbus_lock s) b (last_flush s)
          (live_count s) (last_messages s) (recycle s).

Definition with_live_count (c : gmap string nat) (s : session) : session :=
  Session (devices s) (messages s) (dbus_lock s) (running s) (last_flush s)
          c (last_messages s) (recycle s).

Definition with_recycle (r : gset string) (s : session) : session :=
  Session (devices s) (messages s) (dbus_lock s) (running s) (last_flush s)
          (live_count s) (last_messages s) r.

(** [BLE_Session.__init__], at time [now]. *)
Definition new_session (now : Z) : session :=
  Session ∅ [] false true now ∅ ∅ ∅.

(** [BLE_Session.register_device].  The parameter [recycle_flag] is the
    keyword argument [recycle]; the test [if self.recycle:] reads the
    session's set, which is true when the set is not empty. *)
Definition register_device (address notify_uuid : string)
    (decode : option model) (poll_msg init_msg stop_msg : option message_spec)
    (alias : option string) (recycle_flag : bool) (s : session) : session :=
  let d := Device notify_uuid decode [] alias None poll_msg init_msg stop_msg in
  let s := with_devices (<[address := d]> (devices s)) s in
  if bool_decide (recycle s ≠ ∅)
  then with_recycle ({[address]} ∪ recycle s) s
  else s.

(** ['{}'.format(alias)]. *)
Definition alias_str (alias : option string) : string :=
  match alias with Some a => a | None => "None" end.

(** [BLE_Session.reporting], without the terminal rendering. *)
Definition reporting (address : string) (units : option string) (s : session)
    : exn session :=
  match units with
  | None => Ok s
  | Some u =>
      match devices s !! address with
      | None => Raise KeyError
      | Some d =>
          let datum := alias_str (dev_alias d) +:+ " (" +:+ u +:+ ")" in
          let n := default 0%nat (live_count s !! datum) in
          Ok (with_live_count (<[datum := S n]> (live_count s)) s)
      end
  end.

(** [r[2]]: only a triple can be indexed. *)
Definition third (r : reading) : exn (option string) :=
  match r with
  | RTriple _ _ u => Ok u
  | RNone | RByte _ => Raise TypeError
  end.

(** The loop of [_message_callback] over the decode results; the clock
    reads of one call are taken at one instant [now]. *)
Fixpoint deliver (address : string) (now : Z) (results : list reading)
    (s : session) : session * exn unit :=
  match results with
  | [] => (s, Ok tt)
  | r :: rest =>
      let m := Message now address r in
      let s := with_messages (messages s ++ [m]) s in
      match third r with
      | Raise e => (s, Raise e)
      | Ok units =>
          match reporting address units s with
          | Raise e => (s, Raise e)
          | Ok s =>
              match devices s !! address with
              | None => (s, Raise KeyError)
              | Some d =>
                  deliver address now rest
                    (with_devices
                       (<[address := set_lastseen (Some now) d]> (devices s)) s)
              end
          end
      end
  end.

(** [BLE_Session._message_callback] for a frame [data] arriving at [now]:
    the new session, the lines printed by the decoder, and whether the
    callback returned or raised. *)
Definition _message_callback (address : string) (now : Z) (data : list Z)
    (s : session) : session * list string * exn unit :=
  match devices s !! address with
  | None => (s, [], Raise KeyError)
  | Some d =>
      match dev_decode d with
      | None =>
          let '(s', r) := deliver address now (map RByte data) s in
          (s', [], r)
      | Some m =>
          let o := decode m (dev_buffer d) data in
          let s :=
            with_devices (<[address := set_buffer (out_buffer o) d]> (devices s)) s in
          match out_result o with
          | Raise e => (s, out_log o, Raise e)
          | Ok results =>
              let '(s', r) := deliver address now results s in
              (s', out_log o, r)
          end
      end
  end.

(** [BLE_Session.message_flush], consumed to the end as [list(...)] does,
    at time [now].  The last loop reads the undefined global name
    [last_messages] as soon as a recycled address has a last message. *)
Definition message_flush (drop clear_count : bool) (now : Z) (s : session)
    : session * exn (list message) :=
  let batch := messages s in
  let last :=
    fold_left (fun acc m => <[m_address m := m]> acc) batch (last_messages s) in
  let s' :=
    Session (devices s) [] (dbus_lock s) (running s) now
            (if clear_count then ∅ else live_count s) last (recycle s) in
  if bool_decide (recycle s ∩ dom last ≠ ∅)
  then (s', Raise NameError)
  else (s', Ok (if drop then [] else batch)).

(** ** [_connect_to_device]: one task per device

    A task is suspended at one of the [await]s of [_connect_to_device] and
    [_poll_device]; the code between two [await]s runs without interruption,
    and is one step here.  Leaving the [async with] block is part of the step
    that leaves it.  The lock is an [asyncio.Lock]: any task may release it,
    and a waiting task obtains it when it is free (the order among waiters is
    not modelled). *)

Inductive pc :=
| AwaitGate                      (* await self._dbus_lock.acquire() *)
| AwaitConnect                   (* async with BleakClient(...) *)
| AwaitNotify                    (* await client.start_notify(...) *)
| AwaitSettle                    (* await asyncio.sleep(0.5) *)
| AwaitInitWrite                 (* await client.write_gatt_char(init_msg) *)
| AwaitInitSleep                 (* await asyncio.sleep(init_msg['sleep']) *)
| AwaitPollTick (delay_till : Z) (* await asyncio.sleep(0.1) in _poll_device *)
| AwaitPollWait (delay_till : Z) (* await asyncio.sleep(waiting) *)
| AwaitPollWrite (delay_till : Z)(* await client.write_gatt_char(poll_msg) *)
| AwaitWatchTick                 (* await asyncio.sleep(0.1) in the lastseen loop *)
| AwaitStopWrite                 (* await client.write_gatt_char(stop_msg) *)
| AwaitStopSleep                 (* await asyncio.sleep(stop_msg['sleep']) *)
| AwaitStopNotify                (* await client.stop_notify(...) *)
| AwaitBackoff                   (* await asyncio.sleep(2) in an except clause *)
| Returned                       (* the coroutine returned *)
| Abandoned.                     (* _messy_cleanup ran *)

#[global] Instance pc_eq_dec : EqDecision pc.
Proof. solve_decision. Defined.

(** What happens to a suspended task. *)
Inductive event :=
| Resume                 (* the awaited call or sleep completes *)
| RaiseBleak             (* the awaited transport call raises BleakError *)
| RaiseTimeout           (* ... raises asyncio TimeoutError *)
| RaiseOther             (* ... raises another exception *)
| Notify (data : list Z). (* the transport calls the notification callback *)

(** The session with the program counter of every task. *)
Record system := System {
  sess : session;
  tasks : gmap string pc
}.

(** One second, in microseconds. *)
Definition second : Z := 1000000.

(** The liveness test of the lastseen loop:
    [lastseen != 0 and (now - lastseen).total_seconds() > 2]. *)
Definition watchdog_expired (now : Z) (lastseen : option Z) : bool :=
  match lastseen with
  | None => false
  | Some t => 2 * second <? now - t
  end.

(** The clauses [except BleakError] and [except TimeoutError]: the lock is
    released if it is locked, then the task sleeps 2 seconds. *)
Definition retry_handler (s : session) : session * pc :=
  (if dbus_lock s then with_dbus_lock false s else s, AwaitBackoff).

(** [except Exception] and [_messy_cleanup]. *)
Definition messy_cleanup (s : session) : session * pc :=
  let s := if dbus_lock s then with_dbus_lock false s else s in
  (if running s then with_running false s else s, Abandoned).

(** After the lastseen loop: the stop message, then [stop_notify]. *)
Definition after_watch (d : device) (s : session) : session * pc :=
  match dev_stop_msg d with
  | Some _ => (s, AwaitStopWrite)
  | None => (s, AwaitStopNotify)
  end.

(** The head of the lastseen loop, [while self.is_running()]. *)
Definition watch_loop (d : device) (s : session) : session * pc :=
  if running s then (s, AwaitWatchTick) else after_watch d s.

(** The head of the loop of [_poll_device]; when it ends the lastseen loop
    follows. *)
Definition poll_loop (delay_till : Z) (d : device) (s : session) : session * pc :=
  if running s then (s, AwaitPollTick delay_till) else watch_loop d s.

(** After the init message: [_poll_device] if a poll message is set. *)
Definition after_init (now : Z) (d : device) (s : session) : session * pc :=
  match dev_poll_msg d with
  | Some poll => poll_loop (now + msg_sleep poll) d s
  | None => watch_loop d s
  end.

(** After [self._dbus_lock.release()]. *)
Definition after_release (now : Z) (d : device) (s : session) : session * pc :=
  match dev_init_msg d with
  | Some _ => (s, AwaitInitWrite)
  | None => after_init now d s
  end.

(** The three ways a transport call ends. *)
Definition transport (ev : event) (s : session) (ok : session * pc)
    : option (session * pc) :=
  match ev with
  | Resume => Some ok
  | RaiseBleak | RaiseTimeout => Some (retry_handler s)
  | RaiseOther => Some (messy_cleanup s)
  | Notify _ => None
  end.

(** A sleep only completes. *)
Definition sleep (ev : event) (ok : session * pc) : option (session * pc) :=
  match ev with
  | Resume => Some ok
  | _ => None
  end.

(** Whether notifications are delivered: from [start_notify] to
    [stop_notify]. *)
Definition subscribed (p : pc) : bool :=
  match p with
  | AwaitSettle | AwaitInitWrite | AwaitInitSleep | AwaitPollTick _
  | AwaitPollWait _ | AwaitPollWrite _ | AwaitWatchTick | AwaitStopWrite
  | AwaitStopSleep | AwaitStopNotify => true
  | _ => false
  end.

(** One step of the task of [address] at time [now]; [None] when the event
    cannot happen in the task's state. *)
Definition task_step (now : Z) (address : string) (ev : event) (d : device)
    (p : pc) (s : session) : option (session * pc) :=
  match ev with
  | Notify data =>
      if subscribed p then Some ((_message_callback address now data s).1.1, p)
      else None
  | _ =>
      match p with
      | AwaitGate =>
          if dbus_lock s then None
          else sleep ev
                 (let s := with_dbus_lock true s in
                  if negb (running s) then (with_dbus_lock false s, Returned)
                  else (s, AwaitConnect))
      | AwaitConnect => transport ev s (s, AwaitNotify)
      | AwaitNotify => transport ev s (s, AwaitSettle)
      | AwaitSettle =>
          sleep ev
            (if dbus_lock s then after_release now d (with_dbus_lock false s)
             else messy_cleanup s)
      | AwaitInitWrite => transport ev s (s, AwaitInitSleep)
      | AwaitInitSleep => sleep ev (after_init now d s)
      | AwaitPollTick delay_till =>
          sleep ev
            (let waiting := delay_till - now in
             if second / 10 <? waiting then poll_loop delay_till d s
             else if 0 <? waiting then (s, AwaitPollWait delay_till)
             else (s, AwaitPollWrite delay_till))
      | AwaitPollWait delay_till => sleep ev (s, AwaitPollWrite delay_till)
      | AwaitPollWrite delay_till =>
          transport ev s
            (match dev_poll_msg d with
             | Some poll => poll_loop (delay_till + msg_sleep poll) d s
             | None => poll_loop delay_till d s
             end)
      | AwaitWatchTick =>
          sleep ev
            (if watchdog_expired now (dev_lastseen d)
             then retry_handler
                    (with_devices
                       (<[address := set_lastseen None d]> (devices s)) s)
             else watch_loop d s)
      | AwaitStopWrite => transport ev s (s, AwaitStopSleep)
      | AwaitStopSleep => sleep ev (s, AwaitStopNotify)
      | AwaitStopNotify => transport ev s (s, Returned)
      | AwaitBackoff => sleep ev (s, AwaitGate)
      | Returned | Abandoned => None
      end
  end.

(** One step of the system: the task of [address] takes the event. *)
Definition step (now : Z) (address : string) (ev : event) (st : system)
    : option system :=
  d ← devices (sess st) !! address;
  p ← tasks st !! address;
  '(s, p') ← task_step now address ev d p (sess st);
  Some (System s (<[address := p']> (tasks st))).

(** [_run]: one task per registered device, each about to ask for the
    lock. *)
Definition start (s : session) : system :=
  System s ((fun _ => AwaitGate) <$> devices s).

(** A schedule: at each time, which task takes which event. *)
Fixpoint run (schedule : list (Z * string * event)) (st : system) : option system :=
  match schedule with
  | [] => Some st
  | (now, address, ev) :: rest =>
      st' ← step now address ev st;
      run rest st'
  end.

(** The part of a task between obtaining the lock and giving it back:
    connect, subscribe, settle. *)
Definition in_gate_section (p : pc) : bool :=
  match p with
  | AwaitConnect | AwaitNotify | AwaitSettle => true
  | _ => false
  end.

(** ** [statistics]

    Arithmetic on Python numbers.  An [int] meets a [float] through
    [float(int)]; the comparison of an [int] with a [float] and the quotient
    of two [int]s are exact here as long as the [int]s are below 2^53. *)

Definition to_float (n : num) : float :=
  match n with NInt z => Z2F z | NFloat f => f end.

(** [a + b]. *)
Definition num_add (a b : num) : num :=
  match a, b with
  | NInt x, NInt y => NInt (x + y)
  | _, _ => NFloat (to_float a + to_float b)%float
  end.

(** [a < b]. *)
Definition num_ltb (a b : num) : bool :=
  match a, b with
  | NInt x, NInt y => x <? y
  | _, _ => (to_float a <? to_float b)%float
  end.

(** [a == b]. *)
Definition num_eqb (a b : num) : bool :=
  match a, b with
  | NInt x, NInt y => x =? y
  | _, _ => (to_float a =? to_float b)%float
  end.

(** [sum(values)], added from the left starting at the [int] 0 (the
    summation of CPython 3.11; later versions compensate float sums, which
    can change the last place). *)
Definition py_sum (values : list num) : num := fold_left num_add values (NInt 0).

(** [mean]: [sum(values) / len(values)]. *)
Definition mean (values : list num) : exn float :=
  match values with
  | [] => Raise ZeroDivisionError
  | _ => Ok (to_float (py_sum values) / Z2F (Z.of_nat (length values)))%float
  end.

Fixpoint insert_num (x : num) (l : list num) : list num :=
  match l with
  | [] => [x]
  | y :: l' => if num_ltb x y then x :: l else y :: insert_num x l'
  end.

(** [sorted(values)] for numbers: a stable sort by [<]. *)
Definition sort_nums (values : list num) : list num :=
  fold_left (fun acc x => insert_num x acc) values [].

(** [min(values)] and [max(values)]: the first smallest, the first largest. *)
Definition py_min (values : list num) : exn num :=
  match values with
  | [] => Raise ValueError
  | x :: rest => Ok (fold_left (fun cur y => if num_ltb y cur then y else cur) rest x)
  end.

Definition py_max (values : list num) : exn num :=
  match values with
  | [] => Raise ValueError
  | x :: rest => Ok (fold_left (fun cur y => if num_ltb cur y then y else cur) rest x)
  end.

(** [values[i]]. *)
Definition item (values : list num) (i : nat) : exn num :=
  match values !! i with
  | Some v => Ok v
  | None => Raise IndexError
  end.

(** [int(round(k / 4))] for a natural [k]: Python rounds halves to the even
    neighbour.  [len(values) * 0.25] is [round_quarters len] and
    [len(values) * 0.75] is [round_quarters (3 * len)]; both products are
    exact in binary64 for every list that fits in memory. *)
Definition round_quarters (k : nat) : nat :=
  let q := (k / 4)%nat in
  match (k mod 4)%nat with
  | 0%nat | 1%nat => q
  | 2%nat => if Nat.even q then q else S q
  | _ => S q
  end.

(** [(v - m)**2] for a sample [v] and the [float] mean [m]; the square is
    taken as the product. *)
Definition sq_dev (m : float) (v : num) : num :=
  let d := (to_float v - m)%float in NFloat (d * d)%float.

(** One row of the result. *)
Record stats := Stats {
  st_timestamp : Z;
  st_duration : float;
  st_address : string;
  st_unit : string;
  st_mean : float;
  st_samples : nat;
  st_deviation : num;
  st_minimum : num;
  st_quartile1 : num;
  st_median : num;
  st_quartile3 : num;
  st_maximum : num
}.

(** [(stop_time - start_time).total_seconds()]. *)
Definition total_seconds (start_time stop_time : Z) : float :=
  (Z2F (stop_time - start_time) / Z2F second)%float.

(** The body of the second loop of [statistics] for one column whose
    samples are numbers. *)
Definition column_stats (name : string * string) (samples : list num)
    (start_time stop_time : Z) : exn (option stats) :=
  let values := sort_nums samples in
  if Nat.eqb (length values) 0 then Ok None else
  m ← mean values;
  deviation ← mean (map (sq_dev m) values);
  minimum ← py_min values;
  quartile1 ← item values (round_quarters (length values));
  median ← item values (length values / 2);
  quartile3 ← item values (Nat.min (round_quarters (3 * length values))
                                   (length values - 1));
  maximum ← py_max values;
  Ok (Some (Stats stop_time (total_seconds start_time stop_time) name.1 name.2
                  m (length values)
                  (if num_eqb minimum maximum then NInt 0
                   else NFloat (PrimFloat.sqrt deviation))
                  minimum quartile1 median quartile3 maximum)).

(** A reading value as a number: a [str] or [None] among the samples makes
    [sorted] or [sum] raise [TypeError]; [True] counts as 1. *)
Definition as_num (v : option pyval) : exn num :=
  match v with
  | Some (PInt z) => Ok (NInt z)
  | Some (PFloat f) => Ok (NFloat f)
  | Some PTrue => Ok (NInt 1)
  | Some (PStr _) | None => Raise TypeError
  end.

Fixpoint as_nums (vs : list (option pyval)) : exn (list num) :=
  match vs with
  | [] => Ok []
  | v :: vs' => n ← as_num v; ns ← as_nums vs'; Ok (n :: ns)
  end.

(** [units.split('(')[0]]. *)
Fixpoint before_paren (s : string) : string :=
  match s with
  | EmptyString => EmptyString
  | String c r => if Ascii.eqb c "(" then EmptyString else String c (before_paren r)
  end.

(** [columns]: a [defaultdict(list)] in insertion order, keyed by
    [(address, unit)], holding [(timestamp, n)] pairs. *)
Definition columns_t : Type := list ((string * string) * list (Z * option pyval)).

(** [columns[name].append(sample)]. *)
Fixpoint add_sample (name : string * string) (sample : Z * option pyval)
    (columns : columns_t) : columns_t :=
  match columns with
  | [] => [(name, [sample])]
  | (k, vs) :: rest =>
      if bool_decide (k = name) then (k, vs ++ [sample])%list :: rest
      else (k, vs) :: add_sample name sample rest
  end.

(** The first loop of [statistics]. *)
Fixpoint collect (msgs : list message) (columns : columns_t) : exn columns_t :=
  match msgs with
  | [] => Ok columns
  | m :: rest =>
      match m_data m with
      | RTriple None None None => collect rest columns
      | RTriple _ n units =>
          match units with
          | None => Raise AttributeError
          | Some u =>
              let name := (m_address m, py_strip (before_paren u)) in
              collect rest (add_sample name (m_time m, n) columns)
          end
      | RNone | RByte _ => Raise TypeError
      end
  end.

(** The second loop of [statistics]. *)
Fixpoint rows (columns : columns_t) (start_time stop_time : Z) : exn (list stats) :=
  match columns with
  | [] => Ok []
  | (name, values) :: rest =>
      samples ← as_nums (map snd values);
      row ← column_stats name samples start_time stop_time;
      others ← rows rest start_time stop_time;
      Ok (match row with Some r => r :: others | None => others end)
  end.

(** [statistics(messages, start_time, stop_time)], consumed to the end. *)
Definition statistics (msgs : list message) (start_time stop_time : Z)
    : exn (list stats) :=
  columns ← collect msgs [];
  rows columns start_time stop_time.

(** [self.devices[address]['lastseen']], [None] for the initial [0] and for
    an address that is not registered. *)
Definition lastseen (s : session) (address : string) : option Z :=
  d ← devices s !! address; dev_lastseen d.

(** An element that can be indexed: a triple. *)
Definition is_triple (r : reading) : Prop :=
  match r with RTriple _ _ _ => True | _ => False end.

(** ** Sample sessions for the examples *)

Definition meter_a : string := "98:7B:F3:00:00:01".
Definition meter_b : string := "98:7B:F3:00:00:02".

(** One [TS04] meter, registered with [recycle=True]. *)
Definition one_meter : session :=
  register_device meter_a "0000ffb2-0000-1000-8000-00805f9b34fb" (Some TS04)
                  None None None (Some "bench") true (new_session 0).

(** Two [TS04] meters. *)
Definition two_meters : session :=
  register_device meter_b "0000ffb2-0000-1000-8000-00805f9b34fb" (Some TS04)
                  None None None None false one_meter.

(** A [TS04] frame showing 0.11 volts. *)
Definition frame_volts : list Z := [0; 0xE0; 0x1B; 0x0A; 0xEA; 0x0B; 0; 2; 0].

(** The task of [meter_a] obtains the lock, connects, subscribes and enters
    the lastseen loop, within the first second. *)
Definition connect_a : list (Z * string * event) :=
  [(0, meter_a, Resume); (200000, meter_a, Resume); (400000, meter_a, Resume);
   (900000, meter_a, Resume)].

(** The arguments of one call of [register_device]. *)
Record registration := Registration {
  reg_address : string;
  reg_uuid : string;
  reg_decode : option model;
  reg_poll_msg : option message_spec;
  reg_init_msg : option message_spec;
  reg_stop_msg : option message_spec;
  reg_alias : option string;
  reg_recycle : bool
}.

Definition register (r : registration) (s : session) : session :=
  register_device (reg_address r) (reg_uuid r) (reg_decode r) (reg_poll_msg r)
                  (reg_init_msg r) (reg_stop_msg r) (reg_alias r) (reg_recycle r) s.

(** A series of registrations. *)
Definition register_all (regs : list registration) (s : session) : session :=
  fold_left (fun s r => register r s) regs s.

(** A series of notifications: address, arrival time, frame. *)
Definition receive_all (frames : list (string * Z * list Z)) (s : session) : session :=
  fold_left (fun s f => (_message_callback f.1.1 f.1.2 f.2 s).1.1) frames s.

(** [data == (None, None, None)]. *)
Definition is_absent (r : reading) : bool :=
  match r with RTriple None None None => true | _ => false end.

(** A row belongs to a column: the column's values are numbers and the row
    is what the loop body computes from them. *)
Definition row_of (start_time stop_time : Z)
    (column : (string * string) * list (Z * option pyval)) (row : stats) : Prop :=
  exists samples,
    as_nums (map snd column.2) = Ok samples /\
    samples <> [] /\
    column_stats column.1 samples start_time stop_time = Ok (Some row).

(** The batch of the example: four readings of one meter in volts. *)
Definition four_samples : list message :=
  map (fun f => Message 0 meter_a (RTriple (Some ∅) (Some (PFloat f)) (Some "volts")))
      [1; 2; 3; 4]%float.


(** What a step can do to a lastseen field: nothing, set it to [now] (a
    notification), or clear it (the watchdog of the device itself). *)
Inductive lastseen_change (now : Z) (a : string) (ev : event) (d : device) (p : pc)
    (s s' : session) (b : string) : Prop :=
| Unchanged : lastseen s' b = lastseen s b -> lastseen_change now a ev d p s s' b
| Refreshed : b = a -> (exists data, ev = Notify data) -> lastseen s' b = Some now ->
              lastseen_change now a ev d p s s' b
| Cleared : b = a -> ev = Resume -> p = AwaitWatchTick ->
            watchdog_expired now (dev_lastseen d) = true ->
            lastseen s' b = None -> lastseen_change now a ev d p s s' b.

(** ** Further definitions *)

From Stdlib Require DecimalPos DecimalZ.

(** The number a string of decimal digits stands for, continuing from
    [acc]: what [parse_digits] accumulates. *)
Fixpoint uint_value (d : Decimal.uint) (acc : Z) : Z :=
  match d with
  | Decimal.Nil => acc
  | Decimal.D0 l => uint_value l (10 * acc + 0)
  | Decimal.D1 l => uint_value l (10 * acc + 1)
  | Decimal.D2 l => uint_value l (10 * acc + 2)
  | Decimal.D3 l => uint_value l (10 * acc + 3)
  | Decimal.D4 l => uint_value l (10 * acc + 4)
  | Decimal.D5 l => uint_value l (10 * acc + 5)
  | Decimal.D6 l => uint_value l (10 * acc + 6)
  | Decimal.D7 l => uint_value l (10 * acc + 7)
  | Decimal.D8 l => uint_value l (10 * acc + 8)
  | Decimal.D9 l => uint_value l (10 * acc + 9)
  end.

(** A string made of the characters ['0'] to ['9'] only. *)
Fixpoint all_digits (s : string) : bool :=
  match s with
  | EmptyString => true
  | String c r =>
      match digit_val c with Some _ => all_digits r | None => false end
  end.

(** [str(d)] of a value below ten has one digit, of a larger nibble two:
    the factor by which the digits before it are shifted. *)
Definition nibble_shift (d : Z) : Z := if d <? 10 then 10 else 100.

(** [r] raises nothing but the exceptions that [allowed] lists. *)
Definition raises_only {A} (allowed : pyexc -> bool) (r : exn A) : Prop :=
  forall e, r = Raise e -> allowed e = true.

(** The exceptions of a segment model: a pattern outside the table and
    digits that are not a number. *)
Definition segment_errors (e : pyexc) : bool :=
  match e with KeyError | ValueError => true | _ => false end.

(** The exceptions with which a [decode] method can end on a frame that
    passed its frame test: a segment pattern or a mode outside the table
    ([KeyError]), digits that are not a number ([ValueError]), the undefined
    name of [TP357_Decoder] and digit bytes of [UT383BT_Decoder] outside
    ASCII. *)
Definition decode_raises (m : model) (e : pyexc) : bool :=
  match m, e with
  | (TS04 | HP90EPD | AN9002 | V05B | BT7200_APP), (KeyError | ValueError) => true
  | UT383BT, (UnicodeDecodeError | ValueError) => true
  | TP357, NameError => true
  | BT985C_APP, KeyError => true
  | _, _ => false
  end.

(** How far a task is from its end once the run signal is cleared: the
    largest number of awaits of [_connect_to_device] and [_poll_device]
    that can still complete or raise. *)
Definition rank (p : pc) : nat :=
  match p with
  | Returned | Abandoned => 0
  | AwaitGate => 1
  | AwaitBackoff => 2
  | AwaitStopNotify => 3
  | AwaitStopSleep => 4
  | AwaitStopWrite => 5
  | AwaitWatchTick | AwaitPollWrite _ | AwaitInitSleep => 6
  | AwaitPollWait _ | AwaitInitWrite => 7
  | AwaitPollTick _ | AwaitSettle => 8
  | AwaitNotify => 9
  | AwaitConnect => 10
  end.

(** The lock guards the section: at most one task is between obtaining
    the lock and giving it back, and none when the lock is free. *)
Definition gate_inv (st : system) : Prop :=
  (forall a b pa pb,
     tasks st !! a = Some pa -> tasks st !! b = Some pb ->
     in_gate_section pa = true -> in_gate_section pb = true -> a = b) /\
  (dbus_lock (sess st) = false ->
   forall a p, tasks st !! a = Some p -> in_gate_section p = false).

(** An [except] clause runs in a task that is outside the section while
    the lock is locked: the awaited call of the task raised, or its
    watchdog fired. *)
Definition foreign_release (now : Z) (a : string) (ev : event) (st : system) : Prop :=
  dbus_lock (sess st) = true /\
  exists p d,
    tasks st !! a = Some p /\ devices (sess st) !! a = Some d /\
    in_gate_section p = false /\
    (ev = RaiseBleak \/ ev = RaiseTimeout \/ ev = RaiseOther \/
     (ev = Resume /\ p = AwaitWatchTick /\
      watchdog_expired now (dev_lastseen d) = true)).

(** The column into which the first loop of [statistics] puts a message:
    [(address, units.split('(')[0].strip())], none for the absent triple. *)
Definition column_of (m : message) : option (string * string) :=
  match m_data m with
  | RTriple None None None => None
  | RTriple _ _ (Some u) => Some (m_address m, py_strip (before_paren u))
  | _ => None
  end.

(** [columns[name]], empty for a name that is not a key. *)
Fixpoint samples_of (name : string * string) (columns : columns_t)
    : list (Z * option pyval) :=
  match columns with
  | [] => []
  | (k, vs) :: rest => if bool_decide (k = name) then vs else samples_of name rest
  end.

(** The names of [modes] that say what is measured, and the annotations in
    parentheses that follow them in the list. *)
Definition measure_modes : list string :=
  ["DC"; "AC"; "volts"; "amps"; "ohms"; "NCV"; "diode"; "continuity";
   "celsius"; "fahrenheit"; "farads"; "hertz"; "%duty"; "lux"; "fc";
   "degrees"; "%RH"; "grams"].

Definition annotation_modes : list string :=
  ["(auto)"; "(hold)"; "(relative)"; "(maximum)"; "(minimum)"; "(low_batt)"].

(** A word: not empty, without white space and without an opening
    parenthesis. *)
Fixpoint plain (s : string) : bool :=
  match s with
  | EmptyString => true
  | String c r => negb (is_space c) && negb (Ascii.eqb c "(") && plain r
  end.

Definition word (s : string) : bool :=
  match s with EmptyString => false | _ => plain s end.

(** ** [find_meters]: the meters among the scanned devices *)

(** An entry of [known_devices]. *)
Record known_device := Known {
  known_prefix : string;
  known_name : string;
  known_decoder : string
}.

Definition known_devices : list known_device :=
  [Known "98:7B:F3:" "bde spp dev" "TS04";
   Known "01:B4:05:" "FS9721-LP3" "HP90EPD";
   Known "FC:58:FA:" "Bluetooth DMM" "AN9002";
   Known "20:91:48:" "UT383BT" "UT383BT";
   Known "E8:D0:3C:" "UT383BT" "UT383BT";
   Known "7C:01:0A:" "LuxMeter" "WT81B";
   Known "48:7E:48:" "TP357 (*" "TP357";
   Known "86:28:A9:" "ToolSmart-AngleFinder" "TS02";
   Known "BB:DD:55:" "Gotobake*" "K1705";
   Known "01:BC:EC:" "980F" "BT980D";
   Known "01:BC:EC:" "AiLink_*" "BT7200_APP";
   Known "07:B4:EC:" "SWAN" "BT985C_APP"].

(** A scanned device.  [ble_id] stands for the identity of the object, by
    which the set [found] compares; the name of a device that advertises
    none is [None]. *)
Record ble_device := BleDevice {
  ble_id : nat;
  ble_address : string;
  ble_name : option string
}.

(** The named tuple [Device(d, decoder, model)]. *)
Record meter := Meter {
  meter_d : ble_device;
  meter_decoder : model;
  meter_model : string
}.

(** [s.startswith(p)]. *)
Definition startswith (s p : string) : bool := String.prefix p s.

(** [s.endswith('*')]. *)
Fixpoint endswith_star (s : string) : bool :=
  match s with
  | EmptyString => false
  | String c EmptyString => Ascii.eqb c "*"
  | String _ r => endswith_star r
  end.

(** [s[:-1]]. *)
Fixpoint drop_last (s : string) : string :=
  match s with
  | EmptyString => EmptyString
  | String _ EmptyString => EmptyString
  | String c r => String c (drop_last r)
  end.

(** The name test of [find_meters], [True] when the entry is passed over:
    [d.name.startswith] is an [AttributeError] on a name that is [None],
    [d.name != known['name']] is not. *)
Definition name_differs (known : known_device) (d : ble_device) : exn bool :=
  if endswith_star (known_name known) then
    match ble_name d with
    | None => Raise AttributeError
    | Some n => Ok (negb (startswith n (drop_last (known_name known))))
    end
  else
    Ok (match ble_name d with
        | Some n => negb (String.eqb n (known_name known))
        | None => true
        end).

(** The loop over [known_devices] for one device; the state is the set
    [found] and the meters yielded so far. *)
Fixpoint try_known (address_check : bool) (d : ble_device)
    (knowns : list known_device) (acc : list nat * list meter)
    : exn (list nat * list meter) :=
  match knowns with
  | [] => Ok acc
  | known :: rest =>
      if address_check && negb (startswith (ble_address d) (known_prefix known))
      then try_known address_check d rest acc
      else
        differs ← name_differs known d;
        if (differs : bool) then try_known address_check d rest acc
        else if bool_decide (ble_id d ∈ acc.1) then try_known address_check d rest acc
        else
          decoder ← make_decoder (known_decoder known);
          try_known address_check d rest
            (ble_id d :: acc.1, (acc.2 ++ [Meter d decoder (known_decoder known)])%list)
  end.

(** The loop over the devices. *)
Fixpoint scan_pass (address_check : bool) (devices : list ble_device)
    (acc : list nat * list meter) : exn (list nat * list meter) :=
  match devices with
  | [] => Ok acc
  | d :: rest =>
      acc ← try_known address_check d known_devices acc;
      scan_pass address_check rest acc
  end.

(** [list(find_meters(devices))]: a pass with the address test and a pass
    without it. *)
Definition find_meters (devices : list ble_device) : exn (list meter) :=
  acc ← scan_pass true devices ([], []);
  acc ← scan_pass false devices acc;
  Ok acc.2.

(** A name that some entry of [known_devices] accepts. *)
Definition known_name_of (n : string) (known : known_device) : bool :=
  if endswith_star (known_name known)
  then startswith n (drop_last (known_name known))
  else String.eqb n (known_name known).

(** A device that [find_meters] can pass: it has a name, and the name is
    not the one whose entry names a decoder that [make_decoder] lacks. *)
Definition passable (d : ble_device) : bool :=
  match ble_name d with
  | Some n => negb (String.eqb n "FS9721-LP3")
  | None => false
  end.

(** What a yielded meter says: its device was scanned, an entry of
    [known_devices] accepts the device's name, and the meter carries that
    entry's decoder name and the decoder [make_decoder] makes of it. *)
Definition meter_ok (devices : list ble_device) (m : meter) : Prop :=
  meter_d m ∈ devices /\
  exists n k,
    ble_name (meter_d m) = Some n /\ k ∈ known_devices /\
    known_name_of n k = true /\ meter_model m = known_decoder k /\
    make_decoder (known_decoder k) = Ok (meter_decoder m).

(** The set [found] holds the devices of the meters yielded so far, each
    yielded once. *)
Definition found_inv (devices : list ble_device) (acc : list nat * list meter) : Prop :=
  (forall id, id ∈ fst acc <-> exists m, m ∈ snd acc /\ ble_id (meter_d m) = id) /\
  NoDup (map (fun m => ble_id (meter_d m)) (snd acc)) /\
  Forall (meter_ok devices) (snd acc).

(** The key under which [reporting] counts a reading:
    ['{} ({})'.format(alias, units)], none for a reading without unit. *)
Definition datum_of (d : device) (r : reading) : option string :=
  match r with
  | RTriple _ _ (Some u) => Some (alias_str (dev_alias d) +:+ " (" +:+ u +:+ ")")
  | _ => None
  end.

(** [self.live_count[datum]] of the [defaultdict(int)]. *)
Definition live (s : session) (datum : string) : nat :=
  default 0%nat (live_count s !! datum).

(** * Properties *)

(** ** The error monad *)

Lemma bind_Ok {A B} (m : exn A) (k : A -> exn B) (b : B) :
  (m ≫= k) = Ok b -> exists a, m = Ok a /\ k a = Ok b.
Proof. destruct m as [a|e]; simpl; [eauto | discriminate]. Qed.

(** Splits a hypothesis [x ← m; k = Ok b] into its two steps. *)
Ltac inv_bind H :=
  let a := fresh "a" in
  let Ha := fresh "Hstep" in
  apply bind_Ok in H; destruct H as (a & Ha & H).

Ltac inv_binds H := repeat (inv_bind H).

(** ** Frames turned away (C1) *)

(** What [decode] does with a frame that the frame test turns away. *)
Lemma decode_rejected (m : model) (buf data : list Z) :
  m <> HP90EPD ->
  rejected m buf data = Ok true ->
  decode m buf data =
    Outcome (if diagnoses m data then [warning m (shown m data)] else [])
            buf (Ok [absent]).
Proof.
  intros Hm Hrej. destruct m; simpl in *; try congruence.
  - (* TS04 *)
    unfold decode_TS04. injection Hrej as Hrej.
    destruct (frame_eqb data spp_banner); [reflexivity|].
    simpl in Hrej. rewrite Hrej. reflexivity.
  - (* AN9002 *)
    unfold decode_AN9002. injection Hrej as ->. reflexivity.
  - (* V05B *)
    unfold decode_V05B. injection Hrej as ->. reflexivity.
  - (* WT81B *)
    unfold decode_WT81B. rewrite Hrej. reflexivity.
  - (* UT383BT *)
    unfold decode_UT383BT. injection Hrej as ->. reflexivity.
  - (* TP357 *)
    unfold decode_TP357. rewrite Hrej. reflexivity.
  - (* TS02 *)
    unfold decode_TS02. destruct (check_TS02 data) as [[]|]; simpl in Hrej;
      try discriminate. reflexivity.
  - (* K1705 *)
    unfold decode_K1705. injection Hrej as ->.
    destruct (Nat.eqb (length data) 128); reflexivity.
  - (* BT980D *)
    unfold decode_BT980D. injection Hrej as ->.
    destruct (match_ data ack_BT980D); reflexivity.
  - (* BT7200_APP *)
    unfold decode_BT7200_APP. injection Hrej as Hrej. simpl. rewrite Hrej.
    reflexivity.
  - (* BT985C_APP *)
    unfold decode_BT985C_APP. injection Hrej as ->. reflexivity.
Qed.

(** C1, as amended.  For every decoder class other than [HP90EPD] and every
    frame that its frame test turns away, [decode] returns exactly one
    absent triple, raises nothing and leaves the buffer alone; the warning
    line naming the model and the bytes is printed by the classes with a
    pattern test ([WT81B], [UT383BT], [TP357], [TS02], [K1705] except for
    128-byte frames, [BT980D] except for its acknowledgement frame,
    [BT7200_APP], [BT985C_APP]) and nothing is printed by [TS04], [AN9002]
    and [V05B]. *)
Theorem rejected_frame_absent (m : model) (buf data : list Z) :
  m <> HP90EPD ->
  rejected m buf data = Ok true ->
  decode m buf data =
    Outcome (if diagnoses m data then [warning m (shown m data)] else [])
            buf (Ok [absent]).
Proof. apply decode_rejected. Qed.

(** A frame of three bytes is turned away by [WT81B] with the warning. *)
Lemma rejected_frame_absent_witness :
  decode WT81B [] [1; 2; 3] =
    Outcome ["WARNING: unrecognized WT81B data 0x01 0x02 0x03"] []
            (Ok [absent]).
Proof.
  exact (rejected_frame_absent WT81B [] [1; 2; 3] ltac:(discriminate) eq_refl).
Defined.

(** C1 as stated fails: [TS04] turns a one-byte frame away without
    printing anything. *)
Lemma rejected_frame_not_logged :
  rejected TS04 [] [0] = Ok true /\
  out_result (decode TS04 [] [0]) = Ok [absent] /\
  out_log (decode TS04 [] [0]) = [].
Proof. repeat split. Qed.

(** The mismatch branch of [HP90EPD] returns the bare tuple
    [(None, None, None)]: three [None] elements, not one absent triple. *)
Lemma HP90EPD_mismatch_bare_tuple :
  rejected HP90EPD [] [1; 2; 3] = Ok true /\
  out_result (decode HP90EPD [] [1; 2; 3]) = Ok [RNone; RNone; RNone].
Proof. split; reflexivity. Qed.

(** The frame test of [TS02] raises on a frame shorter than it reads. *)
Lemma TS02_short_frame_raises :
  out_result (decode TS02 [] []) = Raise IndexError /\
  out_result (decode TS02 [] [0x29]) = Raise IndexError.
Proof. split; reflexivity. Qed.

(** ** Segment lookup misses (C2) *)

Lemma getitem_lookup (data : list Z) (i : nat) (b : Z) :
  data !! i = Some b -> getitem data i = Ok b.
Proof. unfold getitem. intros ->. reflexivity. Qed.

Lemma getitem_in_range (data : list Z) (i : nat) :
  (i < length data)%nat -> exists b, getitem data i = Ok b /\ data !! i = Some b.
Proof.
  intros Hi. destruct (lookup_lt_is_Some_2 data i Hi) as [b Hb].
  exists b. split; [apply getitem_lookup|]; assumption.
Qed.

(** The flag loop cannot fail when every flag byte lies inside the frame. *)
Lemma read_flags_in_range (fl : list flagspec) (data : list Z) :
  Forall (fun f : flagspec => (f.1.2 < length data)%nat) fl ->
  forall lcd, exists lcd', read_flags fl data lcd = Ok lcd'.
Proof.
  induction 1 as [|[[flag byte] bit] fl Hbyte _ IH]; intros lcd; simpl.
  - eauto.
  - destruct (getitem_in_range data byte Hbyte) as (b & -> & _). simpl.
    apply IH.
Qed.

(** Merging stops with [KeyError] at the first digit whose pattern is not
    in the table. *)
Lemma merged_digits_miss (m : model) (data : list Z) (pairs : list (nat * nat)) :
  Exists (fun p : nat * nat =>
            exists byte1 byte2,
              data !! p.1 = Some byte1 /\ data !! p.2 = Some byte2 /\
              segments_of m !! merge_key m byte1 byte2 = None) pairs ->
  Forall (fun p : nat * nat => (p.1 < length data)%nat /\ (p.2 < length data)%nat) pairs ->
  merged_digits m data pairs = Raise KeyError.
Proof.
  induction pairs as [|[i j] pairs IH]; intros Hex Hall.
  - inversion Hex.
  - apply Forall_cons in Hall as [[Hi Hj] Hall]. simpl in Hi, Hj. simpl.
    unfold digit_at.
    destruct (getitem_in_range data i Hi) as (b1 & -> & Hb1).
    destruct (getitem_in_range data j Hj) as (b2 & -> & Hb2). simpl.
    unfold merge_digit.
    destruct (segments_of m !! merge_key m b1 b2) as [c|] eqn:Hseg; [|reflexivity].
    simpl. apply Exists_cons in Hex as [Hhead|Htail].
    + destruct Hhead as (x1 & x2 & Hx1 & Hx2 & Hnone). simpl in Hx1, Hx2.
      congruence.
    + rewrite (IH Htail Hall). reflexivity.
Qed.

Lemma whiten_length (key data data' : list Z) :
  whiten key data = Ok data' -> length data' = length data.
Proof.
  revert data data'. induction key as [|x key IH]; intros [|d data] data' H;
    simpl in H; try (injection H as <-; reflexivity); try discriminate.
  inv_bind H. injection H as <-. simpl. f_equal. eauto.
Qed.

Lemma match2_length (data : list Z) (pat : string) :
  match2 data pat = true ->
  String.length (remove_spaces pat) = (length data * 2)%nat.
Proof.
  unfold match2. destruct (Nat.eqb_spec (String.length (remove_spaces pat)) (length data * 2));
    [auto | discriminate].
Qed.

(** A segment-model frame that reaches [decode_lcd] with a pattern outside
    the table makes [decode_lcd] raise [KeyError]. *)
Lemma decode_lcd_miss (m : model) (frame : list Z) :
  Forall (fun f : flagspec => (f.1.2 < length frame)%nat) (flags_of m) ->
  Forall (fun p : nat * nat => (p.1 < length frame)%nat /\ (p.2 < length frame)%nat)
         (digit_pairs m) ->
  digit_pairs m <> [] ->
  missing_segment m frame ->
  decode_lcd_base m frame = Raise KeyError.
Proof.
  intros Hflags Hpairs Hseg Hmiss. unfold decode_lcd_base.
  destruct (read_flags_in_range _ _ Hflags ∅) as [lcd ->]. simpl.
  assert (Hd : decode_digits m frame = Raise KeyError).
  { unfold missing_segment in Hmiss.
    destruct m; simpl in Hseg; try congruence; unfold decode_digits;
      rewrite (merged_digits_miss _ _ _ Hmiss Hpairs); reflexivity. }
  rewrite Hd. reflexivity.
Qed.

Lemma flags_in_range (fl : list flagspec) (n : nat) :
  forallb (fun f : flagspec => (f.1.2 <? n)%nat) fl = true ->
  Forall (fun f : flagspec => (f.1.2 < n)%nat) fl.
Proof.
  intros H. apply Forall_forall. intros f Hf.
  rewrite forallb_forall in H. apply Nat.ltb_lt, H, list_elem_of_In, Hf.
Qed.

Lemma pairs_in_range (pairs : list (nat * nat)) (n : nat) :
  forallb (fun p : nat * nat => (p.1 <? n)%nat && (p.2 <? n)%nat) pairs = true ->
  Forall (fun p : nat * nat => (p.1 < n)%nat /\ (p.2 < n)%nat) pairs.
Proof.
  intros H. apply Forall_forall. intros p Hp.
  rewrite forallb_forall in H. apply list_elem_of_In, H in Hp.
  apply andb_true_iff in Hp as [H1 H2]. split; apply Nat.ltb_lt; assumption.
Qed.

Lemma bind_Ok_l {A B} (a : A) (k : A -> exn B) : (Ok a ≫= k) = k a.
Proof. reflexivity. Qed.

(** A frame of known length that reaches [decode_lcd] with a missing
    pattern: the range conditions are checked by evaluation. *)
Lemma decode_lcd_miss_len (m : model) (frame : list Z) (n : nat) :
  length frame = n ->
  forallb (fun f : flagspec => (f.1.2 <? n)%nat) (flags_of m) = true ->
  forallb (fun p : nat * nat => (p.1 <? n)%nat && (p.2 <? n)%nat) (digit_pairs m) = true ->
  digit_pairs m <> [] ->
  missing_segment m frame ->
  decode_lcd_base m frame = Raise KeyError.
Proof.
  intros <- Hflags Hpairs Hne Hmiss.
  apply decode_lcd_miss; auto using flags_in_range, pairs_in_range.
Qed.

Lemma decode_BT7200_accepted (buf data : list Z) :
  match2 (recover_BT7200 data) "1.2.3.4.5.6.7.8.9.A.B.C.D.E.F." = true ->
  decode_BT7200_APP buf data =
    returns buf (lcd ← decode_lcd_base BT7200_APP (recover_BT7200 data);
                 lcd_reading BT7200_APP lcd).
Proof. intros H. unfold decode_BT7200_APP. cbv zeta. rewrite H. reflexivity. Qed.

Lemma BT7200_frame_length (data : list Z) :
  match2 data "1.2.3.4.5.6.7.8.9.A.B.C.D.E.F." = true -> length data = 15%nat.
Proof.
  intros Hm2. apply match2_length in Hm2.
  change (String.length _) with 30%nat in Hm2. lia.
Qed.

Lemma lcd_frame_BT7200 (buf data frame : list Z) :
  lcd_frame BT7200_APP buf data = Some frame ->
  match2 frame "1.2.3.4.5.6.7.8.9.A.B.C.D.E.F." = true /\
  frame = recover_BT7200 data.
Proof.
  unfold lcd_frame. cbv zeta.
  destruct (match2 (recover_BT7200 data) _) eqn:Hm2; [|discriminate].
  intros [= <-]. auto.
Qed.

(** C2, as amended.  For every segment model and every frame that passes
    the frame test, if a digit position merges to a bit pattern that has no
    entry in the model's segment table then [decode] raises [KeyError]: the
    lookup miss leaves the [decode] call as an exception, nothing is printed
    and no absent triple is returned. *)
Theorem segment_miss_raises (m : model) (buf data frame : list Z) :
  lcd_frame m buf data = Some frame ->
  missing_segment m frame ->
  decode m buf data = Outcome [] buf (Raise KeyError).
Proof.
  intros Hframe Hmiss.
  destruct m; try discriminate Hframe; unfold decode.
  - (* TS04 *)
    unfold lcd_frame in Hframe. unfold decode_TS04. destruct (frame_eqb data spp_banner); [done|].
    destruct (Nat.eqb_spec (length data) 9) as [Hlen|]; [|done].
    injection Hframe as <-. unfold returns.
    rewrite (decode_lcd_miss_len TS04 data 9); solve [reflexivity | assumption | discriminate].
  - (* HP90EPD *)
    unfold lcd_frame in Hframe. unfold decode_HP90EPD. destruct (Nat.eqb (length data) 8); [done|].
    destruct (Nat.eqb_spec (length data) 6) as [Hd|]; [|done].
    destruct (Nat.eqb_spec (length buf) 8) as [Hb|]; [|done].
    cbn [andb] in *. injection Hframe as <-.
    assert (Hlen : length (buf ++ data) = 14%nat) by (rewrite length_app; lia).
    rewrite (decode_lcd_miss_len HP90EPD (buf ++ data) 14); solve [reflexivity | assumption | discriminate].
  - (* AN9002 *)
    unfold lcd_frame in Hframe. unfold decode_AN9002.
    destruct (Nat.eqb_spec (length data) 11) as [Hlen|]; [|done].
    destruct (whiten (flip_bits_of AN9002) data) as [white|] eqn:Hw; [|done].
    injection Hframe as <-. apply whiten_length in Hw. rewrite Hlen in Hw.
    cbn [negb]. unfold returns. rewrite bind_Ok_l.
    rewrite (decode_lcd_miss_len AN9002 white 11); solve [reflexivity | assumption | discriminate].
  - (* V05B *)
    unfold lcd_frame in Hframe. unfold decode_V05B.
    destruct (Nat.eqb_spec (length data) 10) as [Hlen|]; [|done].
    destruct (whiten (flip_bits_of V05B) data) as [white|] eqn:Hw; [|done].
    injection Hframe as <-. apply whiten_length in Hw. rewrite Hlen in Hw.
    cbn [negb]. unfold returns. rewrite bind_Ok_l.
    rewrite (decode_lcd_miss_len V05B white 10); solve [reflexivity | assumption | discriminate].
  - (* BT7200_APP *)
    apply lcd_frame_BT7200 in Hframe as [Hm2 ->].
    rewrite (decode_BT7200_accepted _ _ Hm2). unfold returns.
    rewrite (decode_lcd_miss_len BT7200_APP (recover_BT7200 data) 15);
      first [reflexivity | assumption | discriminate | idtac].
    now apply BT7200_frame_length.
Qed.

(** A nine-byte [TS04] frame whose first digit merges to pattern 1. *)
Lemma segment_miss_raises_witness :
  decode TS04 [] [0; 0; 1; 0; 0; 0; 0; 0; 0] = Outcome [] [] (Raise KeyError).
Proof.
  apply (segment_miss_raises TS04 [] [0; 0; 1; 0; 0; 0; 0; 0; 0]
                             [0; 0; 1; 0; 0; 0; 0; 0; 0]).
  - vm_compute. reflexivity.
  - apply Exists_cons_hd. exists 0, 1. vm_compute. auto.
Defined.

(** C2 as stated fails: the frame passes the length test of [TS04], its
    first digit has no table entry, and [decode] raises instead of
    returning an absent triple. *)
Lemma segment_miss_not_absent :
  rejected TS04 [] [0; 0; 1; 0; 0; 0; 0; 0; 0] = Ok false /\
  segments_of TS04 !! merge_key TS04 0 1 = None /\
  out_result (decode TS04 [] [0; 0; 1; 0; 0; 0; 0; 0; 0]) = Raise KeyError /\
  out_result (decode TS04 [] [0; 0; 1; 0; 0; 0; 0; 0; 0]) <> Ok [absent].
Proof. vm_compute. repeat split. discriminate. Qed.

(** ** Value and unit go together (C3, decoder level) *)

Lemma paired_absent : paired absent.
Proof. unfold paired. simpl. tauto. Qed.

Lemma paired_present (flags : option lcd_t) (v : pyval) (u : string) :
  paired (RTriple flags (Some v) (Some u)).
Proof. unfold paired. simpl. split; discriminate. Qed.

Lemma paired_bare : paired RNone.
Proof. unfold paired. simpl. tauto. Qed.

Lemma paired_byte (b : Z) : paired (RByte b).
Proof. unfold paired. simpl. tauto. Qed.

Create HintDb paired.
#[local] Hint Resolve paired_absent paired_present paired_bare paired_byte : paired.

Lemma lcd_reading_paired (m : model) (lcd : lcd_t) (l : list reading) :
  lcd_reading m lcd = Ok l -> Forall paired l.
Proof.
  unfold lcd_reading. intros H. inv_bind H. injection H as <-.
  auto with paired.
Qed.

Lemma lcd_item_insert (lcd : lcd_t) (key : string) (v : option pyval) :
  lcd_item (<[key := v]> lcd) key = Ok v.
Proof. unfold lcd_item. rewrite lookup_insert_eq. reflexivity. Qed.

Lemma lcd_item_insert_ne (lcd : lcd_t) (key key' : string) (v : option pyval) :
  key <> key' -> lcd_item (<[key := v]> lcd) key' = lcd_item lcd key'.
Proof. intros H. unfold lcd_item. rewrite lookup_insert_ne by assumption. reflexivity. Qed.

(** [WT81B]: both readings carry a number. *)
Lemma decode_lcd_WT81B_items (data : list Z) (lcd : lcd_t) :
  decode_lcd_WT81B data = Ok lcd ->
  exists lux temperature,
    lcd_item lcd "lux" = Ok (Some lux) /\
    lcd_item lcd "temperature" = Ok (Some temperature).
Proof.
  unfold decode_lcd_WT81B. intros H. inv_binds H. injection H as <-.
  eexists _, _. split.
  - apply lcd_item_insert.
  - rewrite lcd_item_insert_ne by discriminate. apply lcd_item_insert.
Qed.

(** [TP357]: both readings carry a number. *)
Lemma decode_lcd_TP357_items (data : list Z) (lcd : lcd_t) :
  decode_lcd_TP357 data = Ok lcd ->
  exists temperature humidity,
    lcd_item lcd "temperature" = Ok (Some temperature) /\
    lcd_item lcd "humidity" = Ok (Some humidity).
Proof.
  unfold decode_lcd_TP357. intros H. inv_binds H. injection H as <-.
  eexists _, _. split.
  - rewrite lcd_item_insert_ne by discriminate. apply lcd_item_insert.
  - apply lcd_item_insert.
Qed.
Lemma mode_table_keys (mode : Z) (u : string) :
  mode_table !! mode = Some u -> 0 <= mode <= 5.
Proof.
  intros H. apply elem_of_list_to_map_2 in H.
  repeat (apply elem_of_cons in H as [H|H]; [injection H as -> _; lia|]).
  inversion H.
Qed.

Lemma decode_lcd_BT985C_items (data : list Z) (lcd : lcd_t) :
  decode_lcd_BT985C data = Ok lcd ->
  exists r u t,
    lcd_item lcd "minor_reading" = Ok (Some r) /\
    lcd_item lcd "minor_unit" = Ok (Some (PStr u)) /\
    lcd_item lcd "temperature" = Ok (Some t).
Proof.
  unfold decode_lcd_BT985C. intros H.
  inv_bind H. cbv zeta in H. inv_bind H.
  rename a0 into mode.
  inv_bind H. inv_bind H. inv_bind H.
  destruct (mode_table !! mode) as [u|] eqn:Hu; [|discriminate].
  injection Hstep3 as <-. apply mode_table_keys in Hu.
  inv_binds H. injection H as <-.
  assert (Hminor : exists r, lcd_item a1 "minor_reading" = Ok (Some r)).
  { destruct (mode =? 5) eqn:H5.
    - inv_binds Hstep2. injection Hstep2 as <-. eexists. apply lcd_item_insert.
    - injection Hstep2 as <-.
      assert (Hlow : (0 <=? mode) && (mode <=? 4) = true) by lia.
      rewrite Hlow in Hstep1. inv_binds Hstep1. injection Hstep1 as <-.
      eexists. apply lcd_item_insert. }
  destruct Hminor as [r Hr].
  exists r, u. eexists. repeat split.
  - rewrite !lcd_item_insert_ne by discriminate. exact Hr.
  - rewrite lcd_item_insert_ne by discriminate. apply lcd_item_insert.
  - apply lcd_item_insert.
Qed.

Ltac solve_paired :=
  repeat (apply Forall_cons_2); try apply Forall_nil_2; auto with paired.

(** Every element of a sequence returned by [decode] has its value and its
    unit both present or both absent. *)
Lemma decode_paired (m : model) (buf data : list Z) (l : list reading) :
  out_result (decode m buf data) = Ok l -> Forall paired l.
Proof.
  destruct m; unfold decode.
  - (* Dummy *)
    unfold decode_Dummy, returns; cbn [out_result]. intros H. inv_binds H.
    injection H as <-. solve_paired.
  - (* TS04 *)
    unfold decode_TS04.
    destruct (frame_eqb data spp_banner); [intros [= <-]; solve_paired|].
    destruct (negb _); [intros [= <-]; solve_paired|].
    unfold returns; cbn [out_result]. intros H. inv_binds H.
    injection H as <-. solve_paired.
  - (* HP90EPD *)
    unfold decode_HP90EPD.
    destruct (Nat.eqb (length data) 8); [intros [= <-]; solve_paired|].
    destruct (_ && _); [|intros [= <-]; solve_paired].
    destruct (decode_lcd_base HP90EPD _); [|discriminate].
    cbn [out_result]. eauto using lcd_reading_paired.
  - (* AN9002 *)
    unfold decode_AN9002.
    destruct (negb _); [intros [= <-]; solve_paired|].
    unfold returns; cbn [out_result]. intros H. inv_binds H.
    injection H as <-. solve_paired.
  - (* V05B *)
    unfold decode_V05B.
    destruct (negb _); [intros [= <-]; solve_paired|].
    unfold returns; cbn [out_result]. intros H. inv_binds H.
    injection H as <-. solve_paired.
  - (* WT81B *)
    unfold decode_WT81B.
    destruct (mismatch_WT81B data) as [[]|]; [intros [= <-]; solve_paired| |discriminate].
    unfold returns; cbn [out_result]. intros H. inv_bind H.
    destruct (decode_lcd_WT81B_items _ _ Hstep) as (lux & t & Hl & Ht).
    rewrite Hl, bind_Ok_l, Ht, bind_Ok_l in H. injection H as <-. solve_paired.
  - (* UT383BT *)
    unfold decode_UT383BT.
    destruct (negb _); [intros [= <-]; solve_paired|].
    unfold returns; cbn [out_result]. intros H. inv_binds H.
    injection H as <-. solve_paired.
  - (* TP357 *)
    unfold decode_TP357.
    destruct (mismatch_TP357 data) as [[]|]; [intros [= <-]; solve_paired| |discriminate].
    unfold returns; cbn [out_result]. intros H. inv_bind H.
    destruct (decode_lcd_TP357_items _ _ Hstep) as (t & h & Ht & Hh).
    rewrite Ht, bind_Ok_l, Hh, bind_Ok_l in H. injection H as <-. solve_paired.
  - (* TS02 *)
    unfold decode_TS02.
    destruct (check_TS02 data) as [[]|]; [|intros [= <-]; solve_paired|discriminate].
    unfold returns; cbn [out_result]. intros H. inv_binds H.
    injection H as <-. solve_paired.
  - (* K1705 *)
    unfold decode_K1705.
    destruct (Nat.eqb _ _); [intros [= <-]; solve_paired|].
    destruct (negb _); [intros [= <-]; solve_paired|].
    unfold returns; cbn [out_result]. intros H. inv_binds H.
    injection H as <-. solve_paired.
  - (* BT980D *)
    unfold decode_BT980D.
    destruct (match_ data ack_BT980D); [intros [= <-]; solve_paired|].
    destruct (negb _); [intros [= <-]; solve_paired|].
    unfold returns; cbn [out_result]. intros H. inv_bind H. injection H as <-. solve_paired.
  - (* BT7200_APP *)
    unfold decode_BT7200_APP. cbv zeta.
    destruct (negb _); [intros [= <-]; solve_paired|].
    unfold returns; cbn [out_result]. intros H. inv_binds H.
    injection H as <-. solve_paired.
  - (* BT985C_APP *)
    unfold decode_BT985C_APP.
    destruct (negb _); [intros [= <-]; solve_paired|].
    unfold returns; cbn [out_result]. intros H. inv_bind H.
    destruct (decode_lcd_BT985C_items _ _ Hstep) as (r & u & t & Hr & Hu & Ht).
    rewrite Hr, bind_Ok_l, Hu, bind_Ok_l, Ht, bind_Ok_l in H.
    injection H as <-. solve_paired.
Qed.

(** ** Repeated calls (C8) *)






(** ** Readings put on the queue (C3) *)

Lemma reporting_messages (address : string) (units : option string) (s s' : session) :
  reporting address units s = Ok s' ->
  messages s' = messages s /\ devices s' = devices s.
Proof.
  unfold reporting. destruct units as [u|]; [|intros [= <-]; auto].
  destruct (devices s !! address); [|discriminate].
  intros [= <-]. auto.
Qed.

(** The loop of the callback appends messages, each holding one of the
    results. *)
Lemma deliver_appends (address : string) (now : Z) (results : list reading) :
  forall s, exists new,
    messages (deliver address now results s).1 = (messages s ++ new)%list /\
    Forall (fun m => m_data m ∈ results) new.
Proof.
  induction results as [|r rest IH]; intros s; simpl.
  - exists []. rewrite app_nil_r. auto.
  - destruct (third r) as [units|e]; simpl.
    + destruct (reporting address units _) as [s1|e] eqn:Hrep; simpl.
      * apply reporting_messages in Hrep as [Hm Hd]. simpl in Hm, Hd.
        destruct (devices s1 !! address) as [d|]; simpl.
        -- destruct (IH (with_devices (<[address:=set_lastseen (Some now) d]> (devices s1)) s1))
             as (new & Hnew & Hall).
           exists (Message now address r :: new). split.
           ++ rewrite Hnew. simpl. rewrite Hm, <- app_assoc. reflexivity.
           ++ constructor; [simpl; left|].
              eapply Forall_impl; [exact Hall|]. intros m Hin. right. exact Hin.
        -- exists [Message now address r]. rewrite Hm. split; [reflexivity|].
           repeat constructor.
      * exists [Message now address r]. split; [reflexivity|]. repeat constructor.
    + exists [Message now address r]. split; [reflexivity|]. repeat constructor.
Qed.

(** C3.  Every record that [_message_callback] puts on the queue, for any
    registered decoder, any buffer contents and any frame, has a value and a
    unit that are both present or both absent; this covers the two-reading
    models. *)
Theorem enqueued_readings_paired (address : string) (now : Z) (data : list Z)
    (s : session) :
  exists new,
    messages (_message_callback address now data s).1.1 = (messages s ++ new)%list /\
    Forall (fun m => paired (m_data m)) new.
Proof.
  unfold _message_callback.
  destruct (devices s !! address) as [d|]; [|exists []; rewrite app_nil_r; auto].
  destruct (dev_decode d) as [m|].
  - cbv zeta.
    destruct (out_result (decode m (dev_buffer d) data)) as [results|e] eqn:Hres.
    + destruct (deliver_appends address now results
                  (with_devices
                     (<[address:=set_buffer (out_buffer (decode m (dev_buffer d) data)) d]>
                        (devices s)) s)) as (new & Hnew & Hall).
      destruct (deliver _ _ _ _) as [s' r]. simpl in *.
      exists new. split; [exact Hnew|].
      apply decode_paired in Hres. rewrite Forall_forall in Hres.
      eapply Forall_impl; [exact Hall|]. intros msg Hin. apply Hres, Hin.
    + exists []. simpl. rewrite app_nil_r. auto.
  - destruct (deliver_appends address now (map RByte data) s) as (new & Hnew & Hall).
    destruct (deliver _ _ _ _) as [s' r]. simpl in *.
    exists new. split; [exact Hnew|].
    eapply Forall_impl; [exact Hall|]. intros msg Hin.
    apply list_elem_of_fmap in Hin as (b & -> & _). apply paired_byte.
Qed.

(** A [WT81B] frame puts two records on the queue, lux and celsius. *)
Example enqueued_WT81B :
  let s := register_device "7C:01:0A:00:00:01" "ff02" (Some WT81B) None None None
             None false (new_session 0) in
  map (fun m => (value_of (m_data m), units_of (m_data m)))
      (messages (_message_callback "7C:01:0A:00:00:01" 5 
                   [0xFF; 0x57; 0x4C; 1; 0; 215; 0x0E; 0x16] s).1.1) =
  [(Some (PFloat 3606), Some "lux"); (Some (PFloat 21.5), Some "celsius")].
Proof. vm_compute. reflexivity. Qed.

(** ** The lastseen field (C4) *)

Lemma lastseen_with_devices (devs : gmap string device) (s : session) (a : string) :
  lastseen (with_devices devs s) a = devs !! a ≫= dev_lastseen.
Proof. reflexivity. Qed.

(** The loop of the callback leaves the lastseen field of other devices
    alone, and the device's own field is [now] or what it was. *)
Lemma deliver_lastseen_cases (address : string) (now : Z) (results : list reading) :
  forall s b,
    lastseen (deliver address now results s).1 b = lastseen s b \/
    (b = address /\ lastseen (deliver address now results s).1 b = Some now).
Proof.
  induction results as [|r rest IH]; intros s b; simpl; [auto|].
  destruct (third r) as [units|e]; simpl; [|auto].
  destruct (reporting address units _) as [s1|e] eqn:Hrep; simpl; [|auto].
  apply reporting_messages in Hrep as [_ Hd]. simpl in Hd.
  destruct (devices s1 !! address) as [d|] eqn:Hdev; simpl.
  - destruct (IH (with_devices (<[address:=set_lastseen (Some now) d]> (devices s1)) s1) b)
      as [Hsame|[-> Hnow]]; [|auto].
    destruct (decide (address = b)) as [->|Hne].
    + right. split; [reflexivity|]. rewrite Hsame. unfold lastseen. simpl.
      rewrite lookup_insert_eq. reflexivity.
    + left. rewrite Hsame. unfold lastseen. simpl.
      rewrite lookup_insert_ne by assumption. rewrite Hd. reflexivity.
  - left. unfold lastseen. simpl. rewrite Hd. reflexivity.
Qed.

(** With a non-empty sequence of triples the loop ends normally and the
    device's field is [now]. *)
Lemma deliver_refreshes (address : string) (now : Z) (results : list reading) :
  forall s d,
    devices s !! address = Some d ->
    results <> [] ->
    Forall is_triple results ->
    (deliver address now results s).2 = Ok tt /\
    lastseen (deliver address now results s).1 address = Some now.
Proof.
  induction results as [|r rest IH]; intros s d Hd Hne Hall; [congruence|].
  apply Forall_cons in Hall as [Hr Hall].
  destruct r as [| |flags v u]; try contradiction. simpl.
  destruct (reporting address u _) as [s1|e] eqn:Hrep.
  - apply reporting_messages in Hrep as [_ Hdev]. simpl in Hdev.
    rewrite Hdev, Hd.
    destruct rest as [|r' rest'].
    + simpl. split; [reflexivity|]. unfold lastseen. simpl.
      rewrite lookup_insert_eq. reflexivity.
    + eapply IH; [|discriminate|exact Hall]. simpl. apply lookup_insert_eq.
  - unfold reporting in Hrep. destruct u; [|discriminate]. simpl in Hrep.
    rewrite Hd in Hrep. discriminate.
Qed.

Lemma callback_lastseen_cases (address : string) (now : Z) (data : list Z)
    (s : session) (b : string) :
  lastseen (_message_callback address now data s).1.1 b = lastseen s b \/
  (b = address /\ lastseen (_message_callback address now data s).1.1 b = Some now).
Proof.
  unfold _message_callback.
  destruct (devices s !! address) as [d|] eqn:Hd; [|auto].
  assert (Hbuf : forall buf,
             lastseen (with_devices (<[address:=set_buffer buf d]> (devices s)) s) b
             = lastseen s b).
  { intros buf. unfold lastseen. simpl.
    destruct (decide (address = b)) as [->|Hne].
    - rewrite lookup_insert_eq, Hd. reflexivity.
    - rewrite lookup_insert_ne by assumption. reflexivity. }
  destruct (dev_decode d) as [m|].
  - cbv zeta. destruct (out_result _) as [results|e]; simpl.
    + pose proof (deliver_lastseen_cases address now results
                    (with_devices
                       (<[address:=set_buffer (out_buffer (decode m (dev_buffer d) data)) d]>
                          (devices s)) s) b) as H.
      destruct (deliver _ _ _ _) as [s' r]. simpl in *.
      rewrite Hbuf in H. exact H.
    + left. apply Hbuf.
  - pose proof (deliver_lastseen_cases address now (map RByte data) s b) as H.
    destruct (deliver _ _ _ _) as [s' r]. simpl in *. exact H.
Qed.

Lemma lastseen_retry_handler (s : session) (b : string) :
  lastseen (retry_handler s).1 b = lastseen s b.
Proof. unfold retry_handler. destruct (dbus_lock s); reflexivity. Qed.

Lemma lastseen_messy_cleanup (s : session) (b : string) :
  lastseen (messy_cleanup s).1 b = lastseen s b.
Proof.
  unfold messy_cleanup. destruct (dbus_lock s); simpl; destruct (running s); reflexivity.
Qed.

Lemma after_watch_session (d : device) (s : session) : (after_watch d s).1 = s.
Proof. unfold after_watch. destruct (dev_stop_msg d); reflexivity. Qed.

Lemma watch_loop_session (d : device) (s : session) : (watch_loop d s).1 = s.
Proof. unfold watch_loop. destruct (running s); [reflexivity|apply after_watch_session]. Qed.

Lemma poll_loop_session (t : Z) (d : device) (s : session) : (poll_loop t d s).1 = s.
Proof. unfold poll_loop. destruct (running s); [reflexivity|apply watch_loop_session]. Qed.

Lemma after_init_session (now : Z) (d : device) (s : session) : (after_init now d s).1 = s.
Proof.
  unfold after_init. destruct (dev_poll_msg d);
    [apply poll_loop_session|apply watch_loop_session].
Qed.

Lemma after_release_session (now : Z) (d : device) (s : session) :
  (after_release now d s).1 = s.
Proof. unfold after_release. destruct (dev_init_msg d); [reflexivity|apply after_init_session]. Qed.

Lemma transport_lastseen now a ev d p s ok s' p' b :
  transport ev s ok = Some (s', p') ->
  ok.1 = s ->
  (forall data, ev <> Notify data) ->
  lastseen_change now a ev d p s s' b.
Proof.
  intros H Hok _. apply Unchanged.
  destruct ev; simpl in H; try discriminate; injection H as H;
    replace s' with (s', p').1 by reflexivity; rewrite <- H.
  - rewrite Hok. reflexivity.
  - apply lastseen_retry_handler.
  - apply lastseen_retry_handler.
  - apply lastseen_messy_cleanup.
Qed.

Lemma sleep_inv ev ok (r : session * pc) :
  sleep ev ok = Some r -> ev = Resume /\ r = ok.
Proof. destruct ev; simpl; try discriminate. intros [= <-]. auto. Qed.

Lemma task_step_lastseen now a ev d p s s' p' b :
  devices s !! a = Some d ->
  task_step now a ev d p s = Some (s', p') ->
  lastseen_change now a ev d p s s' b.
Proof.
  intros Hd H. unfold task_step in H.
  destruct ev as [| | | |data].
  5: { destruct (subscribed p); [|discriminate]. injection H as <- <-.
       destruct (callback_lastseen_cases a now data s b) as [Hsame|[-> Hnow]].
       - apply Unchanged, Hsame.
       - apply Refreshed; eauto. }
  all: destruct p; try discriminate;
    try (eapply transport_lastseen;
         [ exact H
         | first [reflexivity | destruct (dev_poll_msg d); apply poll_loop_session]
         | discriminate ]).
  all: try (destruct (dbus_lock s); discriminate).
  - (* AwaitGate *)
    destruct (dbus_lock s); [discriminate|]. simpl in H.
    destruct (running s); injection H as <- <-; apply Unchanged; reflexivity.
  - (* AwaitSettle *)
    simpl in H. injection H as H. apply Unchanged.
    replace s' with (s', p').1 by reflexivity. rewrite <- H.
    destruct (dbus_lock s).
    + rewrite after_release_session. reflexivity.
    + apply lastseen_messy_cleanup.
  - (* AwaitInitSleep *)
    simpl in H. injection H as H. apply Unchanged.
    replace s' with (s', p').1 by reflexivity. rewrite <- H, after_init_session.
    reflexivity.
  - (* AwaitPollTick *)
    simpl in H. injection H as H. apply Unchanged.
    replace s' with (s', p').1 by reflexivity. rewrite <- H.
    destruct (_ <? _); [rewrite poll_loop_session; reflexivity|].
    destruct (_ <? _); reflexivity.
  - (* AwaitWatchTick *)
    simpl in H. injection H as H.
    replace s' with (s', p').1 by reflexivity. rewrite <- H.
    destruct (watchdog_expired now (dev_lastseen d)) eqn:Hexp.
    + destruct (decide (a = b)) as [->|Hne].
      * apply Cleared; auto. rewrite lastseen_retry_handler. unfold lastseen.
        simpl. rewrite lookup_insert_eq. reflexivity.
      * apply Unchanged. rewrite lastseen_retry_handler. unfold lastseen. simpl.
        rewrite lookup_insert_ne by assumption. reflexivity.
    + apply Unchanged. rewrite watch_loop_session. reflexivity.
Qed.

Lemma lastseen_Some_device (s : session) (b : string) (t : Z) :
  lastseen s b = Some t ->
  exists d, devices s !! b = Some d /\ dev_lastseen d = Some t.
Proof.
  unfold lastseen. destruct (devices s !! b) as [d|]; simpl; [eauto|discriminate].
Qed.

Lemma callback_refreshes (address : string) (now : Z) (data : list Z)
    (s : session) (d : device) (m : model) (results : list reading) :
  devices s !! address = Some d ->
  dev_decode d = Some m ->
  out_result (decode m (dev_buffer d) data) = Ok results ->
  results <> [] ->
  Forall is_triple results ->
  lastseen (_message_callback address now data s).1.1 address = Some now.
Proof.
  intros Hd Hm Hres Hne Hall. unfold _message_callback.
  rewrite Hd, Hm. cbv zeta. rewrite Hres.
  pose proof (deliver_refreshes address now results
                (with_devices
                   (<[address:=set_buffer (out_buffer (decode m (dev_buffer d) data)) d]>
                      (devices s)) s)
                (set_buffer (out_buffer (decode m (dev_buffer d) data)) d)
                (lookup_insert_eq _ _ _) Hne Hall) as [_ H].
  destruct (deliver _ _ _ _) as [s' r]. exact H.
Qed.

(** C4, as amended.  The lastseen field of a registered device is set to
    the arrival time by every frame for which the decoder returns its
    triples, among them the absent triple of a frame that the frame test
    turns away; it is left as it was when the decoder raises.  A lastseen
    that is set becomes "never" in a step exactly when that step is the
    liveness tick of the device's own task finding more than two seconds
    elapsed. *)
Theorem lastseen_refreshed_and_reset :
  (forall address now data s d m results,
     devices s !! address = Some d -> dev_decode d = Some m ->
     out_result (decode m (dev_buffer d) data) = Ok results ->
     results <> [] -> Forall is_triple results ->
     lastseen (_message_callback address now data s).1.1 address = Some now) /\
  (forall address now data s d m,
     devices s !! address = Some d -> dev_decode d = Some m ->
     m <> HP90EPD -> rejected m (dev_buffer d) data = Ok true ->
     lastseen (_message_callback address now data s).1.1 address = Some now) /\
  (forall address now data s d m e,
     devices s !! address = Some d -> dev_decode d = Some m ->
     out_result (decode m (dev_buffer d) data) = Raise e ->
     lastseen (_message_callback address now data s).1.1 address
     = lastseen s address) /\
  (forall now a ev st st' b t,
     step now a ev st = Some st' ->
     lastseen (sess st) b = Some t ->
     (lastseen (sess st') b = None <->
      a = b /\ ev = Resume /\ tasks st !! a = Some AwaitWatchTick /\
      watchdog_expired now (Some t) = true)).
Proof.
  split; [exact callback_refreshes|]. split; [|split].
  - intros address now data s d m Hd Hm Hne Hrej.
    apply (callback_refreshes address now data s d m [absent] Hd Hm).
    + rewrite (decode_rejected m _ _ Hne Hrej). reflexivity.
    + discriminate.
    + repeat constructor.
  - intros address now data s d m e Hd Hm Hres. unfold _message_callback.
    rewrite Hd, Hm. cbv zeta. rewrite Hres. unfold lastseen. simpl.
    rewrite lookup_insert_eq, Hd. reflexivity.
  - intros now a ev st st' b t Hstep Hseen. unfold step in Hstep.
    destruct (devices (sess st) !! a) as [d|] eqn:Hd; [|discriminate].
    destruct (tasks st !! a) as [p|] eqn:Hp; [|discriminate].
    simpl in Hstep.
    destruct (task_step now a ev d p (sess st)) as [[s' p']|] eqn:Htask;
      [|discriminate].
    injection Hstep as <-. simpl.
    pose proof (task_step_lastseen _ _ _ _ _ _ _ _ b Hd Htask) as Hchange.
    split.
    + intros Hnone. destruct Hchange as [Hsame | _ _ Hnow | -> -> -> Hexp _].
      * congruence.
      * congruence.
      * apply lastseen_Some_device in Hseen as (d' & Hd' & Ht).
        assert (d' = d) as -> by congruence. rewrite Ht in Hexp. auto.
    + intros (-> & -> & Hp' & Hexp).
      apply lastseen_Some_device in Hseen as (d' & Hd' & Ht).
      assert (d' = d) as -> by congruence.
      assert (p = AwaitWatchTick) as -> by congruence.
      change (watchdog_expired now (Some t) = true) in Hexp.
      unfold task_step, sleep in Htask. rewrite Ht, Hexp in Htask.
      injection Htask as <- _.
      destruct (dbus_lock _); unfold lastseen; simpl;
        rewrite lookup_insert_eq; reflexivity.
Qed.

(** A one-byte frame is turned away by [TS04] and still refreshes the
    field. *)
Lemma lastseen_refreshed_and_reset_witness :
  let s := register_device "98:7B:F3:00:00:01" "ffb2" (Some TS04) None None None
             None false (new_session 0) in
  lastseen (_message_callback "98:7B:F3:00:00:01" 5 [0] s).1.1 "98:7B:F3:00:00:01"
  = Some 5.
Proof.
  intros s.
  refine (proj1 (proj2 lastseen_refreshed_and_reset)
                "98:7B:F3:00:00:01" 5 [0] s _ TS04 _ _ _ _).
  - vm_compute. reflexivity.
  - reflexivity.
  - discriminate.
  - reflexivity.
Defined.

(** C4 as stated fails: a nine-byte [TS04] frame with a digit outside the
    segment table makes the callback raise, and the field stays at the time
    of the earlier frame. *)
Lemma lastseen_kept_on_raise :
  let a := "98:7B:F3:00:00:01" in
  let s0 := register_device a "ffb2" (Some TS04) None None None None false
              (new_session 0) in
  let s1 := (_message_callback a 5 [0] s0).1.1 in
  let r := _message_callback a 9 [0; 0; 1; 0; 0; 0; 0; 0; 0] s1 in
  lastseen s1 a = Some 5 /\ r.2 = Raise KeyError /\ lastseen r.1.1 a = Some 5.
Proof. vm_compute. repeat split. Qed.

(** ** The watchdog (C5) *)









(** Frames that refresh lastseen every 1.9 seconds keep the task in the
    lastseen loop across the ticks in between. *)
Example frames_every_1900_ms :
  match run (connect_a ++
             [(1000000, meter_a, Notify frame_volts);
              (2000000, meter_a, Resume);
              (2900000, meter_a, Notify frame_volts);
              (2950000, meter_a, Resume);
              (4800000, meter_a, Notify frame_volts);
              (4850000, meter_a, Resume);
              (6700000, meter_a, Resume)])%list (start one_meter) with
  | Some st =>
      tasks st !! meter_a = Some AwaitWatchTick /\
      lastseen (sess st) meter_a = Some 4800000
  | None => False
  end.
Proof. vm_compute. repeat split. Qed.

(** Frames on which the decoder raises do not count: sent 1.9 seconds
    after a good frame, such a frame lets the watchdog fire. *)
Example raising_frames_do_not_refresh :
  match run (connect_a ++
             [(1000000, meter_a, Notify frame_volts);
              (2900000, meter_a, Notify [0; 0; 1; 0; 0; 0; 0; 0; 0]);
              (3100000, meter_a, Resume)])%list (start one_meter) with
  | Some st =>
      tasks st !! meter_a = Some AwaitBackoff /\
      lastseen (sess st) meter_a = None
  | None => False
  end.
Proof. vm_compute. repeat split. Qed.

(** While the run signal is set the loop of [_poll_device] does not end, so
    the task of a device with a poll message does not reach the lastseen
    loop. *)
Lemma poll_loop_keeps_polling (delay_till : Z) (d : device) (s : session) :
  running s = true -> poll_loop delay_till d s = (s, AwaitPollTick delay_till).
Proof. intros H. unfold poll_loop. rewrite H. reflexivity. Qed.

(** ** The admission gate (C7) *)

(** C7 fails on the code.  The task of [meter_a] is in the lastseen loop and
    has given the lock back; the task of [meter_b] holds the lock and is
    connecting.  The watchdog of [meter_a] fires: its [except] clause finds
    the lock locked and releases it, although [meter_b] holds it.  After its
    backoff [meter_a] obtains the lock and connects while [meter_b] is still
    connecting: two tasks are inside the connect-to-subscribed section. *)
Theorem gate_released_by_other_task :
  match run (connect_a ++
             [(1000000, meter_a, Notify frame_volts);
              (1100000, meter_b, Resume);
              (3100000, meter_a, Resume);
              (5100000, meter_a, Resume);
              (5100000, meter_a, Resume)])%list (start two_meters) with
  | Some st =>
      meter_a <> meter_b /\
      (in_gate_section <$> tasks st !! meter_a) = Some true /\
      (in_gate_section <$> tasks st !! meter_b) = Some true
  | None => False
  end.
Proof. vm_compute. repeat split. discriminate. Qed.

(** ** Recycled addresses (C6) *)

Lemma register_device_recycle address uuid decode poll init stop alias flag s :
  recycle s = ∅ ->
  recycle (register_device address uuid decode poll init stop alias flag s) = ∅.
Proof.
  intros H. unfold register_device. cbv zeta. simpl. rewrite H.
  rewrite bool_decide_eq_false_2 by (intros Hne; apply Hne; reflexivity).
  exact H.
Qed.

Lemma register_all_recycle (regs : list registration) (s : session) :
  recycle s = ∅ -> recycle (register_all regs s) = ∅.
Proof.
  unfold register_all. revert s. induction regs as [|r regs IH]; intros s H; simpl.
  - exact H.
  - apply IH. unfold register. apply register_device_recycle, H.
Qed.

Lemma reporting_recycle address units s s' :
  reporting address units s = Ok s' -> recycle s' = recycle s.
Proof.
  unfold reporting. destruct units; [|intros [= <-]; reflexivity].
  destruct (devices s !! address); [|discriminate]. intros [= <-]. reflexivity.
Qed.

Lemma deliver_recycle (address : string) (now : Z) (results : list reading) :
  forall s, recycle (deliver address now results s).1 = recycle s.
Proof.
  induction results as [|r rest IH]; intros s; simpl; [reflexivity|].
  destruct (third r) as [units|e]; simpl; [|reflexivity].
  destruct (reporting address units _) as [s1|e] eqn:Hrep; simpl; [|reflexivity].
  apply reporting_recycle in Hrep. simpl in Hrep.
  destruct (devices s1 !! address); simpl; [|exact Hrep].
  rewrite IH. exact Hrep.
Qed.

Lemma callback_recycle (address : string) (now : Z) (data : list Z) (s : session) :
  recycle (_message_callback address now data s).1.1 = recycle s.
Proof.
  unfold _message_callback. destruct (devices s !! address) as [d|]; [|reflexivity].
  destruct (dev_decode d) as [m|].
  - cbv zeta. destruct (out_result _) as [results|e]; [|reflexivity].
    pose proof (deliver_recycle address now results
                  (with_devices
                     (<[address:=set_buffer (out_buffer (decode m (dev_buffer d) data)) d]>
                        (devices s)) s)) as H.
    destruct (deliver _ _ _ _) as [s' r]. exact H.
  - pose proof (deliver_recycle address now (map RByte data) s) as H.
    destruct (deliver _ _ _ _) as [s' r]. exact H.
Qed.

Lemma receive_all_recycle (frames : list (string * Z * list Z)) (s : session) :
  recycle (receive_all frames s) = recycle s.
Proof.
  unfold receive_all. revert s. induction frames as [|f frames IH]; intros s; simpl.
  - reflexivity.
  - rewrite IH. apply callback_recycle.
Qed.

(** C6 fails on the code.  Whatever devices are registered, with the
    recycle flag or without, and whatever frames arrive, the set of recycled
    addresses of the session is empty; a flush therefore returns the batch
    and leaves the queue empty: no last reading is put back. *)
Theorem recycle_flag_ignored (regs : list registration)
    (frames : list (string * Z * list Z)) (t0 now : Z) (drop clear_count : bool) :
  let s := receive_all frames (register_all regs (new_session t0)) in
  recycle s = ∅ /\
  (message_flush drop clear_count now s).2 = Ok (if drop then [] else messages s) /\
  messages (message_flush drop clear_count now s).1 = [].
Proof.
  intros s.
  assert (Hrec : recycle s = ∅).
  { unfold s. rewrite receive_all_recycle. apply register_all_recycle. reflexivity. }
  split; [exact Hrec|].
  unfold message_flush. cbv zeta. rewrite Hrec.
  rewrite bool_decide_eq_false_2; [split; reflexivity|].
  intros Hne. apply Hne. apply intersection_empty_l_L.
Qed.

(** A meter registered with [recycle=True] sends one reading; the flush
    yields it, remembers it as the last message of the address, and leaves
    the queue empty. *)
Example recycled_meter_not_requeued :
  let s := (_message_callback meter_a 5 frame_volts one_meter).1.1 in
  let flushed := message_flush false true 9 s in
  recycle s = ∅ /\
  length (messages s) = 1%nat /\
  (length <$> flushed.2) = Ok 1%nat /\
  (m_time <$> last_messages flushed.1 !! meter_a) = Some 5 /\
  messages flushed.1 = [].
Proof. vm_compute. repeat split. Qed.

(** Were an address in the set, the flush would stop at the undefined name
    [last_messages]. *)
Example recycle_loop_raises :
  let s := with_recycle {[meter_a]}
             (_message_callback meter_a 5 frame_volts one_meter).1.1 in
  (message_flush false true 9 s).2 = Raise NameError.
Proof. vm_compute. reflexivity. Qed.

(** ** Absent records in a batch (C10) *)

Lemma collect_absent (m : message) (rest : list message) (columns : columns_t) :
  is_absent (m_data m) = true -> collect (m :: rest) columns = collect rest columns.
Proof.
  simpl. destruct (m_data m) as [| |[l|] [v|] [u|]]; simpl; try discriminate.
  reflexivity.
Qed.

Lemma collect_present (m : message) (rest rest' : list message) (columns : columns_t) :
  is_absent (m_data m) = false ->
  (forall columns', collect rest columns' = collect rest' columns') ->
  collect (m :: rest) columns = collect (m :: rest') columns.
Proof.
  intros _ H. simpl.
  destruct (m_data m) as [| |[l|] [v|] [u|]]; simpl; auto.
Qed.

(** The first loop sees a batch and the batch without its absent records
    alike. *)
Lemma collect_skips_absent (msgs : list message) :
  forall columns,
    collect (List.filter (fun m => negb (is_absent (m_data m))) msgs) columns
    = collect msgs columns.
Proof.
  induction msgs as [|m msgs IH]; intros columns; [reflexivity|].
  cbn [List.filter]. destruct (is_absent (m_data m)) eqn:Habs; cbn [negb].
  - rewrite (collect_absent m msgs columns Habs). apply IH.
  - apply collect_present; [exact Habs|]. intros columns'. apply IH.
Qed.

Lemma collect_all_absent (msgs : list message) (columns : columns_t) :
  Forall (fun m => is_absent (m_data m) = true) msgs ->
  collect msgs columns = Ok columns.
Proof.
  induction 1 as [|m msgs Hm _ IH]; [reflexivity|].
  rewrite (collect_absent m msgs columns Hm). exact IH.
Qed.

(** C10.  Records whose data is the absent triple are skipped by
    [statistics]: the result for a batch is the result for the batch without
    them, so they add to no column and to no row; a batch of absent records
    only yields no row at all. *)
Theorem absent_records_skipped (msgs : list message) (start_time stop_time : Z) :
  statistics (List.filter (fun m => negb (is_absent (m_data m))) msgs)
             start_time stop_time
  = statistics msgs start_time stop_time /\
  (Forall (fun m => is_absent (m_data m) = true) msgs ->
   statistics msgs start_time stop_time = Ok []).
Proof.
  unfold statistics. split.
  - rewrite collect_skips_absent. reflexivity.
  - intros Hall. rewrite (collect_all_absent msgs [] Hall). reflexivity.
Qed.

(** Two absent records, as two rejected frames leave them on the queue. *)
Lemma absent_records_skipped_witness :
  statistics [Message 1 meter_a absent; Message 2 meter_b absent] 0 second = Ok [].
Proof.
  apply (proj2 (absent_records_skipped
                  [Message 1 meter_a absent; Message 2 meter_b absent] 0 second)).
  repeat constructor.
Defined.

(** An absent record between two readings changes nothing in the row. *)
Example absent_between_readings :
  let reading v := RTriple (Some ∅) (Some (PFloat v)) (Some "volts") in
  statistics [Message 1 meter_a (reading 1%float); Message 2 meter_a absent;
              Message 3 meter_a (reading 2%float)] 0 second
  = statistics [Message 1 meter_a (reading 1%float);
                Message 3 meter_a (reading 2%float)] 0 second /\
  (map st_samples <$>
     statistics [Message 1 meter_a (reading 1%float); Message 2 meter_a absent;
                 Message 3 meter_a (reading 2%float)] 0 second) = Ok [2%nat].
Proof. vm_compute. split; reflexivity. Qed.

(** ** Statistics of a column (C9) *)

Lemma insert_num_perm (x : num) (l : list num) : Permutation (insert_num x l) (x :: l).
Proof.
  induction l as [|y l IH]; simpl; [reflexivity|].
  destruct (num_ltb x y); [reflexivity|].
  rewrite IH. apply perm_swap.
Qed.

Lemma sort_fold_perm (l acc : list num) :
  Permutation (fold_left (fun acc x => insert_num x acc) l acc) (l ++ acc).
Proof.
  revert acc. induction l as [|x l IH]; intros acc; simpl; [reflexivity|].
  rewrite IH, insert_num_perm. symmetry. apply Permutation_middle.
Qed.

(** [sorted] rearranges the samples. *)
Lemma sort_nums_perm (l : list num) : Permutation (sort_nums l) l.
Proof. unfold sort_nums. rewrite sort_fold_perm, app_nil_r. reflexivity. Qed.

Lemma sort_nums_length (l : list num) : length (sort_nums l) = length l.
Proof. apply Permutation_length, sort_nums_perm. Qed.

(** The rounded quarter rank is a valid index. *)
Lemma round_quarters_lt (n : nat) : (0 < n)%nat -> (round_quarters n < n)%nat.
Proof.
  intros Hn. unfold round_quarters.
  pose proof (Nat.div_mod_eq n 4) as Hdiv.
  pose proof (Nat.mod_upper_bound n 4 ltac:(lia)) as Hmod.
  destruct (n mod 4)%nat as [|[|[|r]]] eqn:Hr; try destruct (Nat.even (n / 4)); lia.
Qed.

Lemma mean_nonempty (values : list num) :
  values <> [] ->
  mean values = Ok (to_float (py_sum values) / Z2F (Z.of_nat (length values)))%float.
Proof. destruct values; [congruence|reflexivity]. Qed.

Lemma item_in_range (values : list num) (i : nat) :
  (i < length values)%nat -> exists v, item values i = Ok v /\ values !! i = Some v.
Proof.
  intros Hi. destruct (lookup_lt_is_Some_2 values i Hi) as [v Hv].
  exists v. unfold item. rewrite Hv. auto.
Qed.

Lemma py_min_ok (values : list num) :
  values <> [] -> exists lo, py_min values = Ok lo.
Proof. destruct values; [congruence|simpl; eauto]. Qed.

Lemma py_max_ok (values : list num) :
  values <> [] -> exists hi, py_max values = Ok hi.
Proof. destruct values; [congruence|simpl; eauto]. Qed.

(** The row of a column with at least one sample. *)
Lemma column_stats_row (name : string * string) (samples : list num)
    (start_time stop_time : Z) :
  samples <> [] ->
  exists row m dev,
    column_stats name samples start_time stop_time = Ok (Some row) /\
    Permutation (sort_nums samples) samples /\
    st_timestamp row = stop_time /\
    st_address row = name.1 /\ st_unit row = name.2 /\
    st_samples row = length samples /\
    mean (sort_nums samples) = Ok m /\ st_mean row = m /\
    mean (map (sq_dev m) (sort_nums samples)) = Ok dev /\
    py_min (sort_nums samples) = Ok (st_minimum row) /\
    py_max (sort_nums samples) = Ok (st_maximum row) /\
    st_deviation row =
      (if num_eqb (st_minimum row) (st_maximum row) then NInt 0
       else NFloat (PrimFloat.sqrt dev)) /\
    sort_nums samples !! round_quarters (length samples) = Some (st_quartile1 row) /\
    sort_nums samples !! (length samples / 2)%nat = Some (st_median row) /\
    sort_nums samples !! Nat.min (round_quarters (3 * length samples))
                                 (length samples - 1) = Some (st_quartile3 row).
Proof.
  intros Hne. unfold column_stats. cbv zeta.
  pose proof (sort_nums_length samples) as Hlen.
  assert (Hpos : (0 < length samples)%nat) by (destruct samples; [congruence|simpl; lia]).
  set (values := sort_nums samples) in *.
  assert (Hvne : values <> []) by (intros E; rewrite E in Hlen; simpl in Hlen; lia).
  rewrite Hlen.
  destruct (Nat.eqb_spec (length samples) 0) as [E|_]; [lia|].
  rewrite (mean_nonempty values Hvne). rewrite bind_Ok_l.
  set (m := (to_float (py_sum values) / Z2F (Z.of_nat (length values)))%float).
  assert (Hsq : map (sq_dev m) values <> [])
    by (destruct values; [congruence|discriminate]).
  rewrite (mean_nonempty _ Hsq). rewrite bind_Ok_l.
  set (dev := (to_float (py_sum (map (sq_dev m) values)) /
               Z2F (Z.of_nat (length (map (sq_dev m) values))))%float).
  destruct (py_min_ok values Hvne) as [lo Hlo].
  destruct (py_max_ok values Hvne) as [hi Hhi].
  destruct (item_in_range values (round_quarters (length samples)))
    as (q1 & Hq1 & Hq1'); [rewrite Hlen; apply round_quarters_lt, Hpos|].
  destruct (item_in_range values (length samples / 2))
    as (med & Hmed & Hmed');
    [rewrite Hlen; apply Nat.div_lt; lia|].
  destruct (item_in_range values (Nat.min (round_quarters (3 * length samples))
                                          (length samples - 1)))
    as (q3 & Hq3 & Hq3'); [rewrite Hlen; lia|].
  rewrite Hlo, bind_Ok_l, Hq1, bind_Ok_l, Hmed, bind_Ok_l, Hq3, bind_Ok_l, Hhi, bind_Ok_l.
  eexists _, m, dev. split; [reflexivity|]. cbn [st_timestamp st_address st_unit
    st_samples st_mean st_minimum st_maximum st_deviation st_quartile1 st_median
    st_quartile3].
  repeat split; try assumption; try reflexivity;
    first [apply sort_nums_perm | apply mean_nonempty; assumption].
Qed.

Lemma add_sample_nonempty name sample (columns : columns_t) :
  Forall (fun c => c.2 <> []) columns ->
  Forall (fun c => c.2 <> []) (add_sample name sample columns).
Proof.
  induction 1 as [|[k vs] columns Hk Hrest IH]; simpl.
  - apply Forall_cons_2; [discriminate|constructor].
  - destruct (bool_decide (k = name)).
    + apply Forall_cons_2; [|assumption]. simpl. destruct vs; discriminate.
    + apply Forall_cons_2; assumption.
Qed.

Lemma collect_nonempty (msgs : list message) :
  forall columns columns',
    Forall (fun c => c.2 <> []) columns ->
    collect msgs columns = Ok columns' ->
    Forall (fun c => c.2 <> []) columns'.
Proof.
  induction msgs as [|m msgs IH]; intros columns columns' Hne H; simpl in H.
  - injection H as <-. exact Hne.
  - destruct (m_data m) as [| |[l|] [v|] [u|]]; try discriminate; eauto using add_sample_nonempty.
Qed.

Lemma as_nums_nonempty (vs : list (option pyval)) (ns : list num) :
  as_nums vs = Ok ns -> vs <> [] -> ns <> [].
Proof.
  destruct vs as [|v vs]; [congruence|]. simpl. intros H _.
  inv_bind H. inv_bind H. injection H as <-. discriminate.
Qed.

(** The second loop yields one row per column, in the order of the
    columns. *)
Lemma rows_of_columns (start_time stop_time : Z) (columns : columns_t) :
  forall rws,
    Forall (fun c => c.2 <> []) columns ->
    rows columns start_time stop_time = Ok rws ->
    Forall2 (row_of start_time stop_time) columns rws.
Proof.
  induction columns as [|[name values] columns IH]; intros rws Hne H; simpl in H.
  - injection H as <-. constructor.
  - apply Forall_cons in Hne as [Hv Hne]. simpl in Hv.
    inv_bind H. rename a into samples. inv_bind H. rename a into row.
    inv_bind H. rename a into others. injection H as <-.
    assert (Hs : samples <> []).
    { eapply as_nums_nonempty; [eassumption|]. destruct values; [congruence|discriminate]. }
    destruct (column_stats_row name samples start_time stop_time Hs)
      as (row' & _ & _ & Hrow & _).
    rewrite Hrow in Hstep0. injection Hstep0 as <-.
    constructor; [|apply IH; assumption].
    exists samples. auto.
Qed.












(** * Further properties *)

(** ** Frame patterns *)

Lemma match_zip_spec (pat : pattern) :
  forall data,
    length pat = length data ->
    (match_zip pat data = true <->
     Forall2 (fun p d => p = None \/ p = Some d) pat data).
Proof.
  induction pat as [|p pat IH]; intros [|d data] Hlen; simpl in *; try discriminate.
  - split; [constructor|reflexivity].
  - injection Hlen as Hlen. specialize (IH data Hlen).
    destruct p as [b|].
    + destruct (Z.eqb_spec b d) as [->|Hne]; simpl.
      * rewrite IH. split.
        -- intros H. constructor; auto.
        -- intros H. apply Forall2_cons in H as [_ H]. exact H.
      * split; [discriminate|]. intros H. apply Forall2_cons in H as [[H|H] _];
          congruence.
    + rewrite IH. split.
      * intros H. constructor; auto.
      * intros H. apply Forall2_cons in H as [_ H]. exact H.
Qed.

Lemma match_Forall2 (data : list Z) (pat : pattern) :
  match_ data pat = true <-> Forall2 (fun p d => p = None \/ p = Some d) pat data.
Proof.
  unfold match_. destruct (Nat.eqb_spec (length pat) (length data)) as [Hlen|Hlen]; simpl.
  - apply match_zip_spec, Hlen.
  - split; [discriminate|]. intros H. apply Forall2_length in H. contradiction.
Qed.

(** X1.  [match] accepts a frame exactly when the frame has as many bytes
    as the pattern has elements and every element that is not a wildcard
    equals the byte at its position. *)
Theorem match_spec (data : list Z) (pat : pattern) :
  match_ data pat = true <->
  length pat = length data /\
  forall i p d, pat !! i = Some (Some p) -> data !! i = Some d -> p = d.
Proof.
  rewrite match_Forall2, Forall2_same_length_lookup. split; intros [Hlen H]; split; auto.
  - intros i p d Hp Hd. destruct (H i (Some p) d Hp Hd) as [?|?]; congruence.
  - intros i [p|] d Hp Hd; [right|left; reflexivity]. f_equal. eauto.
Qed.

(** ** XOR whitening *)

Lemma whiten_twice (key : list Z) :
  forall data white, whiten key data = Ok white -> whiten key white = Ok data.
Proof.
  induction key as [|x key IH]; intros data white H.
  - simpl in H. injection H as <-. reflexivity.
  - destruct data as [|d data]; simpl in H; [discriminate|].
    inv_bind H. injection H as <-. simpl. rewrite (IH _ _ Hstep). simpl.
    rewrite Z.lxor_assoc, Z.lxor_nilpotent, Z.lxor_0_r. reflexivity.
Qed.

Lemma whiten_long_enough (key : list Z) :
  forall data, (length key <= length data)%nat -> exists white, whiten key data = Ok white.
Proof.
  induction key as [|x key IH]; intros data Hlen; simpl.
  - eauto.
  - destruct data as [|d data]; simpl in Hlen; [lia|].
    destruct (IH data ltac:(lia)) as [rest ->]. simpl. eauto.
Qed.

Lemma whiten_too_short (key : list Z) :
  forall data, (length data < length key)%nat -> whiten key data = Raise IndexError.
Proof.
  induction key as [|x key IH]; intros data Hlen; simpl in *; [lia|].
  destruct data as [|d data]; [reflexivity|]. simpl in Hlen.
  rewrite (IH data ltac:(lia)). reflexivity.
Qed.

(** X2.  Whitening is its own inverse: applying the key to a whitened frame
    gives the frame back, so a decoder handed the same byte array twice sees
    the raw bytes the second time.  Whitening fails, with [IndexError],
    exactly when the frame is shorter than the key. *)
Theorem whiten_involutive (key data : list Z) :
  (forall white, whiten key data = Ok white -> whiten key white = Ok data) /\
  (whiten key data = Raise IndexError <-> (length data < length key)%nat) /\
  (is_ok (whiten key data) = true <-> (length key <= length data)%nat).
Proof.
  split; [apply whiten_twice|].
  destruct (Nat.lt_ge_cases (length data) (length key)) as [Hshort|Hlong].
  - rewrite (whiten_too_short key data Hshort). simpl. split.
    + tauto.
    + split; [discriminate|lia].
  - destruct (whiten_long_enough key data Hlong) as [white ->]. simpl. split.
    + split; [discriminate|lia].
    + tauto.
Qed.

(** The eleven-byte key of [AN9002] applied twice. *)
Lemma whiten_involutive_witness :
  whiten (flip_bits_of AN9002)
         [0x1B; 0x84; 0x70; 0xB1; 0x49; 0x2A; 0xD9; 0x9A; 0x66; 0xBA; 0x3B]
  = Ok [0; 0; 0; 0xE4; 0xEB; 0xEB; 0xEB; 0xEB; 0; 0x10; 0].
Proof.
  apply (proj1 (whiten_involutive (flip_bits_of AN9002)
                  [0; 0; 0; 0xE4; 0xEB; 0xEB; 0xEB; 0xEB; 0; 0x10; 0])).
  reflexivity.
Defined.

(** ** [str] and [int] *)

Lemma of_uint_acc_value (d : Decimal.uint) :
  forall acc : positive, Zpos (Pos.of_uint_acc d acc) = uint_value d (Zpos acc).
Proof.
  induction d; intros acc; simpl; try reflexivity; rewrite IHd; f_equal; lia.
Qed.

Lemma of_uint_value (d : Decimal.uint) : Z.of_uint d = uint_value d 0.
Proof.
  unfold Z.of_uint. induction d; simpl; try reflexivity; try exact IHd;
    rewrite of_uint_acc_value; reflexivity.
Qed.

Lemma parse_digits_uint (d : Decimal.uint) :
  forall acc prev,
    (d <> Decimal.Nil \/ prev = true) ->
    parse_digits (NilEmpty.string_of_uint d) acc prev = Some (uint_value d acc).
Proof.
  induction d; intros acc prev H; simpl;
    try (apply IHd; right; reflexivity).
  destruct H as [H| ->]; [congruence|reflexivity].
Qed.

Lemma all_digits_uint (d : Decimal.uint) : all_digits (NilEmpty.string_of_uint d) = true.
Proof. induction d; simpl; auto. Qed.

Lemma digit_not_space (c : ascii) (v : Z) : digit_val c = Some v -> is_space c = false.
Proof.
  unfold digit_val, is_space. cbv zeta. set (n := Z.of_nat (nat_of_ascii c)).
  destruct (Z.leb_spec 48 n), (Z.leb_spec n 57); simpl; try discriminate. intros _.
  destruct (Z.leb_spec 9 n), (Z.leb_spec n 13), (Z.leb_spec 28 n), (Z.leb_spec n 32);
    simpl; try reflexivity; lia.
Qed.

Lemma rstrip_digits (s : string) : all_digits s = true -> rstrip s = s.
Proof.
  induction s as [|c s IH]; simpl; [reflexivity|].
  destruct (digit_val c) as [v|] eqn:Hc; [|discriminate]. intros H.
  rewrite (IH H). destruct s; [|reflexivity].
  rewrite (digit_not_space c v Hc). reflexivity.
Qed.

Lemma lstrip_digits (s : string) : all_digits s = true -> lstrip s = s.
Proof.
  destruct s as [|c s]; simpl; [reflexivity|].
  destruct (digit_val c) as [v|] eqn:Hc; [|discriminate]. intros _.
  rewrite (digit_not_space c v Hc). reflexivity.
Qed.

Lemma py_strip_digits (s : string) : all_digits s = true -> py_strip s = s.
Proof. intros H. unfold py_strip. rewrite (lstrip_digits s H). apply rstrip_digits, H. Qed.

(** A non-empty string of digits is read as the number it spells. *)
Lemma py_int10_uint (d : Decimal.uint) :
  d <> Decimal.Nil -> py_int10 (NilEmpty.string_of_uint d) = Ok (uint_value d 0).
Proof.
  intros Hd. unfold py_int10. rewrite (py_strip_digits _ (all_digits_uint d)).
  pose proof (parse_digits_uint d 0 false (or_introl Hd)) as Hp.
  destruct d; try congruence; simpl in *; rewrite Hp; f_equal; lia.
Qed.

Lemma to_uint_nonnil (p : positive) : Pos.to_uint p <> Decimal.Nil.
Proof.
  intros H. pose proof (DecimalPos.Unsigned.of_to p) as Hp. rewrite H in Hp.
  discriminate.
Qed.

Lemma string_of_uint_nonnil (d : Decimal.uint) :
  d <> Decimal.Nil -> NilZero.string_of_uint d = NilEmpty.string_of_uint d.
Proof. destruct d; congruence || reflexivity. Qed.

Lemma of_uint_to_uint (p : positive) : uint_value (Pos.to_uint p) 0 = Zpos p.
Proof.
  rewrite <- of_uint_value. unfold Z.of_uint.
  rewrite DecimalPos.Unsigned.of_to. reflexivity.
Qed.

(** [int(str(n), 10) == n] for every integer: the decimal string that
    [str] prints is read back as the same number. *)
Lemma py_int10_py_str (n : Z) : py_int10 (py_str n) = Ok n.
Proof.
  unfold py_str. destruct n as [|p|p]; simpl.
  - reflexivity.
  - rewrite (string_of_uint_nonnil _ (to_uint_nonnil p)).
    rewrite py_int10_uint by apply to_uint_nonnil.
    rewrite of_uint_to_uint. reflexivity.
  - rewrite (string_of_uint_nonnil _ (to_uint_nonnil p)).
    unfold py_int10.
    assert (Hstrip : py_strip (String "-" (NilEmpty.string_of_uint (Pos.to_uint p)))
                     = String "-" (NilEmpty.string_of_uint (Pos.to_uint p))).
    { unfold py_strip. simpl.
      rewrite (rstrip_digits _ (all_digits_uint (Pos.to_uint p))).
      destruct (NilEmpty.string_of_uint (Pos.to_uint p)); reflexivity. }
    rewrite Hstrip. simpl.
    rewrite (parse_digits_uint _ 0 false (or_introl (to_uint_nonnil p))).
    rewrite of_uint_to_uint. f_equal.
Qed.

(** ** Keys of a decoded LCD *)

Lemma has_empty (k : string) : has ∅ k = false.
Proof. reflexivity. Qed.

Lemma has_insert (lcd : lcd_t) (k k' : string) (v : option pyval) :
  has (<[k := v]> lcd) k' = String.eqb k k' || has lcd k'.
Proof.
  unfold has. destruct (String.eqb_spec k k') as [->|Hne]; simpl.
  - rewrite lookup_insert_eq. reflexivity.
  - rewrite lookup_insert_ne by assumption. reflexivity.
Qed.

Lemma has_set_flag (lcd : lcd_t) (k k' : string) :
  has (set_flag lcd k) k' = String.eqb k k' || has lcd k'.
Proof. apply has_insert. Qed.

Lemma has_if (c : bool) (a b : lcd_t) (k : string) :
  has (if c then a else b) k = if c then has a k else has b k.
Proof. destruct c; reflexivity. Qed.

Lemma lcd_item_if (c : bool) (a b : lcd_t) (k : string) :
  lcd_item (if c then a else b) k = if c then lcd_item a k else lcd_item b k.
Proof. destruct c; reflexivity. Qed.

Lemma lcd_item_set_flag_ne (lcd : lcd_t) (k k' : string) :
  k <> k' -> lcd_item (set_flag lcd k) k' = lcd_item lcd k'.
Proof. apply lcd_item_insert_ne. Qed.

Lemma getitem_cons_S (d : Z) (data : list Z) (i : nat) :
  getitem (d :: data) (S i) = getitem data i.
Proof. reflexivity. Qed.

Lemma getitem_cons_O (d : Z) (data : list Z) : getitem (d :: data) 0 = Ok d.
Proof. reflexivity. Qed.

Ltac frame_shape H :=
  repeat match type of H with
         | Forall2 _ (_ :: _) _ =>
             let d := fresh "b" in
             let data := fresh "data" in
             let Hd := fresh "Hb" in
             let Hr := fresh "H" in
             apply Forall2_cons_inv_l in H as (d & data & Hd & Hr & ->);
             destruct Hd as [Hd|Hd];
               [try discriminate Hd|first [discriminate Hd|injection Hd as <-]];
             rename Hr into H
         | Forall2 _ [] _ => apply Forall2_nil_inv_l in H as ->
         end.

Lemma lstrip_nonspace (c : ascii) (s : string) :
  is_space c = false -> lstrip (String c s) = String c s.
Proof. intros H. simpl. rewrite H. reflexivity. Qed.

(** The units of a reading depend on which of the mode names are keys. *)
Lemma lcd_to_units_ext (lcd lcd' : lcd_t) :
  Forall (fun m => has lcd m = has lcd' m) modes -> lcd_to_units lcd = lcd_to_units lcd'.
Proof.
  unfold lcd_to_units. generalize modes. intros l H. f_equal.
  induction H as [|m l Hm H IH]; [reflexivity|].
  rewrite !filter_cons. rewrite IH.
  destruct (decide (has lcd m = true)), (decide (has lcd' m = true)); congruence.
Qed.

Ltac eval_has :=
  repeat first [rewrite has_if|rewrite has_set_flag|rewrite has_insert|rewrite has_empty];
  cbn [String.eqb Ascii.eqb Bool.eqb orb andb].

Lemma apply_scaling_hit (flag : string) (x : num) sc (lcd : lcd_t) (n : num) :
  has lcd flag = true ->
  apply_scaling ((flag, x) :: sc) lcd n = apply_scaling sc lcd (num_mul n x).
Proof. intros H. simpl. rewrite H. reflexivity. Qed.

Lemma apply_scaling_miss (flag : string) (x : num) sc (lcd : lcd_t) (n : num) :
  has lcd flag = false ->
  apply_scaling ((flag, x) :: sc) lcd n = apply_scaling sc lcd n.
Proof. intros H. simpl. rewrite H. reflexivity. Qed.

Ltac eval_scaling :=
  unfold scaling;
  repeat first [rewrite apply_scaling_miss by (eval_has; reflexivity)
               |rewrite apply_scaling_hit by (eval_has; reflexivity)];
  cbn [apply_scaling num_mul num_val].

Ltac eval_units u :=
  etransitivity;
  [apply (lcd_to_units_ext _ u); unfold modes; repeat constructor; eval_has; reflexivity
  |vm_compute; reflexivity].

(** ** [K1705_Decoder] *)

(** X3.  A frame that [K1705_Decoder.decode] accepts is never an error:
    it gives one reading in grams.  The number is the 24-bit weight of
    bytes 11 to 13, printed by [decode_digits] and read back by
    [lcd_to_number], negated when bit 4 of byte 10 is set and multiplied
    by 0.01; it is a float also for a weight of zero, and it is infinity
    when the overload bit 7 of byte 10 is set. *)
Theorem K1705_accepted (buf data : list Z) :
  match_ data pattern_K1705 = true ->
  exists b10 b11 b12 b13 lcd,
    data !! 10%nat = Some b10 /\ data !! 11%nat = Some b11 /\
    data !! 12%nat = Some b12 /\ data !! 13%nat = Some b13 /\
    let n := Z.shiftl b11 16 + Z.shiftl b12 8 + b13 in
    let signed := if Z.land b10 16 =? 0 then n else n * -1 in
    decode_K1705 buf data =
      Outcome [] buf
        (Ok [RTriple (Some lcd)
               (Some (PFloat (if Z.land b10 128 =? 0
                              then (Z2F signed * 0.01)%float else inf)))
               (Some "grams")]).
Proof.
  intros H. pose proof H as HF. apply match_Forall2 in HF. unfold pattern_K1705 in HF.
  frame_shape HF. exists b, b0, b1, b2.
  destruct (Z.land b 128 =? 0) eqn:H7, (Z.land b 16 =? 0) eqn:H4.
  all: eexists; do 4 (split; [reflexivity|]).
  all: intros n signed; unfold decode_K1705; rewrite H.
  all: cbn [length Nat.eqb negb]; unfold returns; f_equal.
  all: unfold decode_lcd_base.
  all: cbn [flags_of read_flags decode_digits mode_strings_of].
  all: rewrite ?getitem_cons_S, ?getitem_cons_O, ?bind_Ok_l.
  all: rewrite ?getitem_cons_S, ?getitem_cons_O, ?bind_Ok_l.
  all: fold n; rewrite lookup_empty, bind_Ok_l.
  all: unfold lcd_reading, lcd_to_number.
  all: rewrite !lcd_item_set_flag_ne by discriminate.
  all: rewrite lcd_item_insert, bind_Ok_l.
  all: cbn [strings_of]; rewrite lookup_empty, py_int10_py_str, bind_Ok_l.
  all: change (Z.shiftl 1 7) with 128; change (Z.shiftl 1 4) with 16.
  all: rewrite H7, H4; cbn [negb].
  all: eval_scaling.
  all: eval_has; rewrite bind_Ok_l; subst signed; cbv beta.
  all: do 4 f_equal.
  all: eval_units ({[ "grams" := Some PTrue ]} : lcd_t).
Qed.

(** A weight of 12.34 g below zero: bytes 11 to 13 hold 1234, bit 4 of
    byte 10 is set. *)
Lemma K1705_accepted_witness :
  let data := [0xA3; 0xBE; 0x15; 0x92; 0x93; 0; 0; 0xA0; 0; 0; 0x10; 0; 0x04; 0xD2;
               0xFF; 0x3E; 0xBA] in
  match_ data pattern_K1705 = true /\
  exists lcd,
    decode_K1705 [] data =
      Outcome [] [] (Ok [RTriple (Some lcd) (Some (PFloat (Z2F (-1234) * 0.01)%float))
                           (Some "grams")]).
Proof.
  intros data. split; [reflexivity|].
  destruct (K1705_accepted [] data eq_refl)
    as (b10 & b11 & b12 & b13 & lcd & H10 & H11 & H12 & H13 & H).
  injection H10 as <-. injection H11 as <-. injection H12 as <-. injection H13 as <-.
  exists lcd. exact H.
Defined.

(** ** [TS02_Decoder] *)

Lemma all_digits_app (s t : string) :
  all_digits s = true -> all_digits t = true -> all_digits (s +:+ t) = true.
Proof.
  intros Hs Ht. induction s as [|c s IH]; simpl in *; [exact Ht|].
  destruct (digit_val c); [auto|discriminate].
Qed.

Lemma nibble_range (b : Z) : 0 <= Z.land b 15 <= 15.
Proof.
  change 15 with (Z.ones 4). rewrite Z.land_ones by lia.
  change (Z.ones 4) with 15. pose proof (Z.mod_pos_bound b (2 ^ 4)). lia.
Qed.

Lemma nibble_cases (d : Z) :
  0 <= d <= 15 ->
  In d [0; 1; 2; 3; 4; 5; 6; 7; 8; 9; 10; 11; 12; 13; 14; 15].
Proof. intros H. simpl. lia. Qed.

Lemma append_cons (c : ascii) (s t : string) : String c s +:+ t = String c (s +:+ t).
Proof. reflexivity. Qed.

Lemma append_nil (t : string) : "" +:+ t = t.
Proof. reflexivity. Qed.

Lemma parse_digits_digit (c : ascii) (v : Z) (s : string) (acc : Z) (prev : bool) :
  digit_val c = Some v ->
  parse_digits (String c s) acc prev = parse_digits s (10 * acc + v) true.
Proof. intros H. simpl. rewrite H. reflexivity. Qed.

Ltac eval_str :=
  match goal with
  | |- context [py_str ?k] =>
      let t := constr:(py_str k) in
      let v := eval vm_compute in t in
      change t with v
  end.

Lemma parse_digits_nibble (d : Z) (s : string) (acc : Z) (prev : bool) :
  0 <= d <= 15 ->
  parse_digits (py_str d +:+ s) acc prev = parse_digits s (acc * nibble_shift d + d) true.
Proof.
  intros H. apply nibble_cases in H. simpl in H.
  repeat (destruct H as [<-|H];
          [eval_str; rewrite ?append_cons, ?append_nil;
           repeat (erewrite parse_digits_digit by (vm_compute; reflexivity));
           f_equal; unfold nibble_shift; simpl; lia|]).
  contradiction.
Qed.

Lemma all_digits_nibble (d : Z) : 0 <= d <= 15 -> all_digits (py_str d) = true.
Proof.
  intros H. apply nibble_cases in H. simpl in H.
  repeat (destruct H as [<-|H]; [vm_compute; reflexivity|]). contradiction.
Qed.

Lemma digit_not_sign (c : ascii) (v : Z) :
  digit_val c = Some v -> Ascii.eqb c "-" = false /\ Ascii.eqb c "+" = false.
Proof.
  intros H. split; apply Ascii.eqb_neq; intros ->; vm_compute in H; discriminate H.
Qed.

(** [int] of a non-empty string of digits. *)
Lemma py_int10_digits (s : string) :
  all_digits s = true -> s <> "" ->
  py_int10 s = match parse_digits s 0 false with
               | Some n => Ok n
               | None => Raise ValueError
               end.
Proof.
  intros Hs Hne. unfold py_int10. rewrite (py_strip_digits s Hs).
  destruct s as [|c r]; [congruence|]. simpl in Hs.
  destruct (digit_val c) as [v|] eqn:Hc; [|discriminate].
  destruct (digit_not_sign c v Hc) as [-> ->].
  destruct (parse_digits (String c r) 0 false) as [n|]; [|reflexivity].
  f_equal. lia.
Qed.

Lemma append_empty_r (s : string) : s +:+ "" = s.
Proof. induction s as [|c s IH]; [reflexivity|]. rewrite append_cons, IH. reflexivity. Qed.

Lemma py_str_nibble_nonempty (d : Z) (s : string) : 0 <= d <= 15 -> py_str d +:+ s <> "".
Proof.
  intros H. apply nibble_cases in H. simpl in H.
  repeat (destruct H as [<-|H]; [eval_str; rewrite append_cons; discriminate|]).
  contradiction.
Qed.

(** The four printed nibbles read as one decimal number. *)
Lemma py_int10_nibbles (d1 d2 d3 d4 : Z) :
  0 <= d1 <= 15 -> 0 <= d2 <= 15 -> 0 <= d3 <= 15 -> 0 <= d4 <= 15 ->
  py_int10 (py_str d1 +:+ py_str d2 +:+ py_str d3 +:+ py_str d4)
  = Ok (((d1 * nibble_shift d2 + d2) * nibble_shift d3 + d3) * nibble_shift d4 + d4).
Proof.
  intros H1 H2 H3 H4. rewrite py_int10_digits.
  - rewrite <- (append_empty_r (py_str d4)).
    rewrite !parse_digits_nibble by assumption. reflexivity.
  - auto using all_digits_app, all_digits_nibble.
  - apply py_str_nibble_nonempty, H1.
Qed.

Lemma check_TS02_shape (data : list Z) :
  check_TS02 data = Ok true ->
  exists b0 b1 b2 b3 b4 b5 rest, data = b0 :: b1 :: b2 :: b3 :: b4 :: b5 :: rest.
Proof.
  unfold check_TS02. intros H.
  destruct data as [|b0 [|b1 [|b2 [|b3 [|b4 [|b5 rest]]]]]];
    rewrite ?getitem_cons_S, ?getitem_cons_O, ?bind_Ok_l in H;
    repeat match type of H with
           | (if ?c then _ else _) = _ =>
               destruct c; [discriminate H|];
               rewrite ?getitem_cons_S, ?getitem_cons_O, ?bind_Ok_l in H
           end;
    try discriminate H.
  eauto 8.
Qed.

(** X4.  A frame that passes [TS02_Decoder.check] is never an error: it
    gives one reading in degrees, a float.  The low nibbles of bytes 1 to
    4 are printed one after the other and read back as one decimal number,
    so a nibble above nine takes two digits and shifts the ones before it
    by a hundred; the number is negated when bit 2 of byte 0 is set and
    multiplied by 0.1. *)
Theorem TS02_accepted (buf data : list Z) :
  check_TS02 data = Ok true ->
  exists b0 b1 b2 b3 b4 lcd,
    data !! 0%nat = Some b0 /\ data !! 1%nat = Some b1 /\ data !! 2%nat = Some b2 /\
    data !! 3%nat = Some b3 /\ data !! 4%nat = Some b4 /\
    let d1 := Z.land b1 15 in
    let d2 := Z.land b2 15 in
    let d3 := Z.land b3 15 in
    let d4 := Z.land b4 15 in
    let n := ((d1 * nibble_shift d2 + d2) * nibble_shift d3 + d3) * nibble_shift d4 + d4 in
    let signed := if Z.land b0 4 =? 0 then n else - n in
    decode_TS02 buf data =
      Outcome [] buf
        (Ok [RTriple (Some lcd) (Some (PFloat (Z2F signed * 0.1)%float))
               (Some "degrees")]).
Proof.
  intros H. destruct (check_TS02_shape data H) as (b0 & b1 & b2 & b3 & b4 & b5 & rest & ->).
  exists b0, b1, b2, b3, b4.
  destruct (Z.land b0 4 =? 0) eqn:Hneg, (Z.land b0 2 =? 0) eqn:Hpos.
  all: eexists; do 5 (split; [reflexivity|]).
  all: intros d1 d2 d3 d4 n signed; unfold decode_TS02; rewrite H.
  all: unfold returns; f_equal.
  all: unfold decode_lcd_base.
  all: cbn [flags_of read_flags decode_digits mode_strings_of]; unfold bcd_at.
  all: rewrite ?getitem_cons_S, ?getitem_cons_O, ?bind_Ok_l.
  all: rewrite ?getitem_cons_S, ?getitem_cons_O, ?bind_Ok_l.
  all: rewrite ?getitem_cons_S, ?getitem_cons_O, ?bind_Ok_l.
  all: rewrite lookup_empty, bind_Ok_l.
  all: unfold lcd_reading, lcd_to_number.
  all: rewrite !lcd_item_set_flag_ne by discriminate.
  all: rewrite lcd_item_insert, bind_Ok_l.
  all: cbn [strings_of]; rewrite lookup_empty.
  all: change 0x0F with 15; fold d1 d2 d3 d4.
  all: rewrite py_int10_nibbles by apply nibble_range.
  all: fold n; rewrite bind_Ok_l.
  all: change (Z.shiftl 1 2) with 4; change (Z.shiftl 1 1) with 2.
  all: rewrite Hneg, Hpos; cbn [negb].
  all: eval_scaling.
  all: eval_has; rewrite bind_Ok_l; subst signed; cbv beta.
  all: match goal with
       | |- context [lcd_to_units ?l] =>
           replace (lcd_to_units l) with "degrees"
             by (symmetry; eval_units ({[ "degrees" := Some PTrue ]} : lcd_t))
       end.
  all: rewrite ?Z.mul_1_r; replace (n * -1) with (- n) by lia; reflexivity.
Qed.

(** The digits 1, 2, a nibble of ten and 4 with the negative flag: the
    number read is -12104. *)
Lemma TS02_accepted_witness :
  let data := [0x2D; 0x31; 0x32; 0x3A; 0x34; 0x30] in
  check_TS02 data = Ok true /\
  exists lcd,
    decode_TS02 [] data =
      Outcome [] [] (Ok [RTriple (Some lcd) (Some (PFloat (Z2F (-12104) * 0.1)%float))
                           (Some "degrees")]).
Proof.
  intros data. split; [reflexivity|].
  destruct (TS02_accepted [] data eq_refl)
    as (b0 & b1 & b2 & b3 & b4 & lcd & H0 & H1 & H2 & H3 & H4 & H).
  injection H0 as <-. injection H1 as <-. injection H2 as <-.
  injection H3 as <-. injection H4 as <-.
  exists lcd. exact H.
Defined.

(** ** [TP357_Decoder] *)

(** X5.  A frame that [TP357_Decoder.decode] accepts gives two readings,
    the temperature in celsius (the 16-bit word of bytes 4 and 3 divided
    by ten) and the humidity byte in %RH, as long as bit 15 of the word is
    clear; with bit 15 set, a temperature below zero, the sign correction
    reads the undefined name [n] and the call raises [NameError]. *)
Theorem TP357_accepted (buf data : list Z) :
  mismatch_TP357 data = Ok false ->
  exists b3 b4 b5 lcd,
    data !! 3%nat = Some b3 /\ data !! 4%nat = Some b4 /\ data !! 5%nat = Some b5 /\
    let temp := Z.lor (Z.shiftl b4 8) b3 in
    decode_TP357 buf data =
      Outcome [] buf
        (if Z.land temp 0x8000 =? 0
         then
           Ok [RTriple (Some lcd) (Some (PFloat (Z2F temp / Z2F 10)%float)) (Some "celsius");
               RTriple (Some lcd) (Some (PInt b5)) (Some "%RH")]
         else Raise NameError).
Proof.
  intros H. pose proof H as HF. unfold mismatch_TP357 in HF.
  destruct (match_ data pattern_TP357) eqn:Hm; [|cbn [negb] in HF; discriminate HF].
  clear HF. apply match_Forall2 in Hm. unfold pattern_TP357 in Hm. frame_shape Hm.
  exists b0, b1, b2.
  destruct (Z.land (Z.lor (Z.shiftl b1 8) b0) 0x8000 =? 0) eqn:Hsign;
    [eexists|exists ∅]; do 3 (split; [reflexivity|]); intros temp.
  all: unfold decode_TP357; rewrite H; unfold returns, decode_lcd_TP357.
  all: cbn [flags_of read_flags].
  all: rewrite ?getitem_cons_S, ?getitem_cons_O, ?bind_Ok_l.
  all: rewrite ?getitem_cons_S, ?getitem_cons_O, ?bind_Ok_l.
  all: fold temp; unfold int_truediv; change (10 =? 0) with false; cbv iota.
  all: subst temp; rewrite Hsign; cbn [negb].
  - rewrite !bind_Ok_l.
    rewrite (lcd_item_insert_ne _ "humidity" "temperature") by discriminate.
    rewrite !lcd_item_insert, !bind_Ok_l. reflexivity.
  - reflexivity.
Qed.

(** 23.4 degrees and 45 %RH. *)
Lemma TP357_accepted_witness :
  let data := [0xC2; 0x00; 0x00; 0xEA; 0x00; 0x2D; 0x2C] in
  mismatch_TP357 data = Ok false /\
  exists lcd,
    decode_TP357 [] data =
      Outcome [] []
        (Ok [RTriple (Some lcd) (Some (PFloat (Z2F 234 / Z2F 10)%float)) (Some "celsius");
             RTriple (Some lcd) (Some (PInt 45)) (Some "%RH")]).
Proof.
  intros data. split; [reflexivity|].
  destruct (TP357_accepted [] data eq_refl) as (b3 & b4 & b5 & lcd & H3 & H4 & H5 & H).
  injection H3 as <-. injection H4 as <-. injection H5 as <-.
  exists lcd. exact H.
Defined.

(** ** [BT985C_APP_Decoder] *)

Lemma mode_table_lookup (mode : Z) :
  0 <= mode <= 5 -> exists u, mode_table !! mode = Some u.
Proof.
  intros H.
  assert (Hc : mode = 0 \/ mode = 1 \/ mode = 2 \/ mode = 3 \/ mode = 4 \/ mode = 5) by lia.
  repeat (destruct Hc as [->|Hc]; [eexists; vm_compute; reflexivity|]).
  subst mode. eexists; vm_compute; reflexivity.
Qed.

Lemma mode_table_miss (mode : Z) : ~ 0 <= mode <= 5 -> mode_table !! mode = None.
Proof.
  intros H. destruct (mode_table !! mode) as [u|] eqn:Hu; [|reflexivity].
  apply mode_table_keys in Hu. contradiction.
Qed.

Ltac eval_items :=
  repeat first [rewrite lcd_item_insert
               |rewrite lcd_item_insert_ne by discriminate
               |rewrite bind_Ok_l].

(** X6.  A frame that [BT985C_APP_Decoder.decode] accepts has its mode in
    byte 1.  For the modes 0 to 5 the call gives two readings, the minor
    reading with the unit the mode table names and the temperature in
    celsius; for any other mode, which the frame test lets through up to
    15, the lookup in the mode table raises [KeyError]. *)
Theorem BT985C_accepted (buf data : list Z) :
  match2 data "BC 0. .. .. .. .. .. .." = true ->
  exists mode b2 b3 b4 b5,
    data !! 1%nat = Some mode /\ data !! 2%nat = Some b2 /\ data !! 3%nat = Some b3 /\
    data !! 4%nat = Some b4 /\ data !! 5%nat = Some b5 /\
    (0 <= mode <= 5 ->
     exists lcd u,
       mode_table !! mode = Some u /\
       decode_BT985C_APP buf data =
         Outcome [] buf
           (Ok [RTriple (Some lcd)
                  (Some (PFloat (if mode =? 5 then (Z2F b3 / Z2F 100)%float
                                 else _16bit_temperature b2 b3)))
                  (Some u);
                RTriple (Some lcd) (Some (PFloat (_16bit_temperature b4 b5)))
                  (Some "celsius")])) /\
    (~ 0 <= mode <= 5 ->
     decode_BT985C_APP buf data = Outcome [] buf (Raise KeyError)).
Proof.
  intros H. pose proof (match2_length _ _ H) as Hlen.
  change (String.length _) with 16%nat in Hlen.
  destruct data as [|b0 [|mode [|b2 [|b3 [|b4 [|b5 [|b6 [|b7 [|b8 rest]]]]]]]]];
    simpl in Hlen; try lia.
  exists mode, b2, b3, b4, b5. do 5 (split; [reflexivity|]).
  assert (Hdec : decode_BT985C_APP buf [b0; mode; b2; b3; b4; b5; b6; b7] =
                 returns buf (
                   lcd ← decode_lcd_BT985C [b0; mode; b2; b3; b4; b5; b6; b7];
                   minor_reading ← lcd_item lcd "minor_reading";
                   minor_unit ← lcd_item lcd "minor_unit";
                   temperature ← lcd_item lcd "temperature";
                   Ok [RTriple (Some lcd) minor_reading (as_unit minor_unit);
                       RTriple (Some lcd) temperature (Some "celsius")])).
  { unfold decode_BT985C_APP. rewrite H. reflexivity. }
  rewrite Hdec. clear Hdec H Hlen. unfold returns, decode_lcd_BT985C.
  destruct (read_flags_in_range (flags_of BT985C_APP) [b0; mode; b2; b3; b4; b5; b6; b7])
    with (lcd := (∅ : lcd_t)) as [lcd0 ->].
  { apply flags_in_range. reflexivity. }
  rewrite bind_Ok_l. cbv zeta.
  set (lcd1 := if negb (has (if negb (has lcd0 "fahrenheit") then set_flag lcd0 "celsius" else lcd0) "(scan)") then _ else _).
  rewrite ?getitem_cons_S, ?getitem_cons_O, ?bind_Ok_l.
  unfold int_truediv. change (100 =? 0) with false. cbv iota.
  split.
  - intros Hmode. destruct (mode_table_lookup mode Hmode) as [u Hu].
    rewrite Hu.
    destruct (Z.eqb_spec mode 5) as [->|Hne];
      eexists; exists u; (split; [reflexivity|]); f_equal.
    + change ((0 <=? 5) && (5 <=? 4)) with false. change (5 =? 5) with true. cbv iota.
      rewrite ?getitem_cons_S, ?getitem_cons_O, ?bind_Ok_l.
      eval_items. reflexivity.
    + assert (Hle : (0 <=? mode) && (mode <=? 4) = true).
      { apply andb_true_iff. split; apply Z.leb_le; lia. }
      rewrite Hle. rewrite ?getitem_cons_S, ?getitem_cons_O, ?bind_Ok_l.
      eval_items. reflexivity.
  - intros Hmode. rewrite (mode_table_miss mode Hmode). f_equal.
    assert (Hle : (0 <=? mode) && (mode <=? 4) = false).
    { apply andb_false_iff. destruct (Z.leb_spec 0 mode); [right|left; reflexivity].
      apply Z.leb_gt. lia. }
    rewrite Hle. destruct (Z.eqb_spec mode 5) as [->|_]; [lia|]. reflexivity.
Qed.

(** A frame with mode 6. *)
Lemma BT985C_accepted_witness :
  let data := [0xBC; 0x06; 0x00; 0x00; 0xEA; 0x00; 0x00; 0x00] in
  match2 data "BC 0. .. .. .. .. .. .." = true /\
  decode_BT985C_APP [] data = Outcome [] [] (Raise KeyError).
Proof.
  intros data. split; [reflexivity|].
  destruct (BT985C_accepted [] data eq_refl)
    as (mode & b2 & b3 & b4 & b5 & Hm & _ & _ & _ & _ & _ & Hbad).
  injection Hm as <-. apply Hbad. lia.
Defined.

(** ** Exceptions of [decode] on accepted frames *)

Lemma raises_only_Ok {A} (P : pyexc -> bool) (a : A) : raises_only P (Ok a).
Proof. intros e H. discriminate H. Qed.

Lemma raises_only_Raise {A} (P : pyexc -> bool) (e : pyexc) :
  P e = true -> raises_only P (@Raise A e).
Proof. intros H e' [= <-]. exact H. Qed.

Lemma raises_only_bind {A B} (P : pyexc -> bool) (m : exn A) (k : A -> exn B) :
  raises_only P m ->
  (forall a, m = Ok a -> raises_only P (k a)) ->
  raises_only P (m ≫= k).
Proof.
  intros Hm Hk. destruct m as [a|e]; [exact (Hk a eq_refl)|].
  intros e' H. change (@Raise B e = Raise e') in H. injection H as <-.
  apply Hm. reflexivity.
Qed.

Lemma raises_only_mono {A} (P Q : pyexc -> bool) (r : exn A) :
  (forall e, P e = true -> Q e = true) -> raises_only P r -> raises_only Q r.
Proof. intros HPQ H e He. apply HPQ, H, He. Qed.

Lemma py_int10_raises (s : string) :
  raises_only (fun e => match e with ValueError => true | _ => false end) (py_int10 s).
Proof.
  unfold py_int10. destruct (py_strip s) as [|c r]; [apply raises_only_Raise; reflexivity|].
  destruct (if Ascii.eqb c "-" then _ else _) as [sign body].
  destruct (parse_digits body 0 false);
    [apply raises_only_Ok|apply raises_only_Raise; reflexivity].
Qed.

Lemma merged_digits_raises (m : model) (data : list Z) (pairs : list (nat * nat)) :
  Forall (fun p : nat * nat => (p.1 < length data)%nat /\ (p.2 < length data)%nat) pairs ->
  raises_only (fun e => match e with KeyError => true | _ => false end)
              (merged_digits m data pairs).
Proof.
  induction 1 as [|[i j] pairs [Hi Hj] _ IH]; simpl; [apply raises_only_Ok|].
  simpl in Hi, Hj. unfold digit_at.
  destruct (getitem_in_range data i Hi) as (b1 & -> & _).
  destruct (getitem_in_range data j Hj) as (b2 & -> & _).
  rewrite !bind_Ok_l. apply raises_only_bind.
  - unfold merge_digit. destruct (segments_of m !! merge_key m b1 b2);
      [apply raises_only_Ok|apply raises_only_Raise; reflexivity].
  - intros digit _. apply raises_only_bind; [exact IH|].
    intros rest _. apply raises_only_Ok.
Qed.

Lemma mode_strings_flag (m : model) (s flag : string) :
  mode_strings_of m !! s = Some flag -> flag = "NCV".
Proof.
  destruct m; unfold mode_strings_of; try (rewrite lookup_empty; discriminate);
    intros H; apply elem_of_list_to_map_2 in H;
    repeat (apply elem_of_cons in H as [H|H]; [injection H as _ <-; reflexivity|]);
    inversion H.
Qed.

(** [decode_lcd] stores what [decode_digits] returns under ['digits']. *)
Lemma decode_lcd_base_digits (m : model) (frame : list Z) (lcd : lcd_t) :
  decode_lcd_base m frame = Ok lcd ->
  exists d, decode_digits m frame = Ok d /\ lcd !! "digits" = Some d.
Proof.
  unfold decode_lcd_base. intros H. inv_bind H. inv_bind H. cbv zeta in H.
  exists a0. split; [assumption|].
  assert (Hplain : <["digits" := a0]> a !! "digits" = Some a0) by apply lookup_insert_eq.
  destruct a0 as [[| |s|]|]; try (injection H as <-; exact Hplain).
  destruct (mode_strings_of m !! s) as [flag|] eqn:Hflag;
    injection H as <-; [|exact Hplain].
  apply mode_strings_flag in Hflag as ->. unfold set_flag.
  rewrite lookup_insert_ne by discriminate. exact Hplain.
Qed.

Lemma decode_lcd_base_raises (P : pyexc -> bool) (m : model) (frame : list Z) :
  Forall (fun f : flagspec => (f.1.2 < length frame)%nat) (flags_of m) ->
  raises_only P (decode_digits m frame) ->
  raises_only P (decode_lcd_base m frame).
Proof.
  intros Hflags Hdigits. unfold decode_lcd_base.
  destruct (read_flags_in_range _ _ Hflags ∅) as [lcd ->]. rewrite bind_Ok_l.
  apply raises_only_bind; [exact Hdigits|]. intros d _. cbv zeta.
  destruct d as [[| |s|]|]; try apply raises_only_Ok.
  destruct (mode_strings_of m !! s); apply raises_only_Ok.
Qed.

Lemma lcd_to_number_raises (P : pyexc -> bool) (m : model) (lcd : lcd_t) (s : string) :
  lcd !! "digits" = Some (Some (PStr s)) ->
  raises_only P (py_int10 s) ->
  raises_only P (lcd_to_number m lcd).
Proof.
  intros Hd Hs. unfold lcd_to_number, lcd_item. rewrite Hd, bind_Ok_l.
  destruct (strings_of m !! s); [apply raises_only_Ok|].
  apply raises_only_bind; [exact Hs|]. intros n _. cbv zeta.
  destruct (has lcd "(overload)"); apply raises_only_Ok.
Qed.

Lemma lcd_reading_raises (P : pyexc -> bool) (m : model) (lcd : lcd_t) (s : string) :
  lcd !! "digits" = Some (Some (PStr s)) ->
  raises_only P (py_int10 s) ->
  raises_only P (lcd_reading m lcd).
Proof.
  intros Hd Hs. unfold lcd_reading. apply raises_only_bind.
  - exact (lcd_to_number_raises P m lcd s Hd Hs).
  - intros n _. apply raises_only_Ok.
Qed.

Lemma value_error_segment (s : string) : raises_only segment_errors (py_int10 s).
Proof. eapply raises_only_mono; [|apply py_int10_raises]. intros []; done. Qed.

(** The digits of a segment model are a string. *)
Lemma segment_digits (m : model) (frame : list Z) (d : option pyval) :
  digit_pairs m <> [] -> decode_digits m frame = Ok d -> exists s, d = Some (PStr s).
Proof.
  intros Hp H. destruct m; simpl in Hp; try congruence; unfold decode_digits in H;
    inv_bind H; injection H as <-; eauto.
Qed.

Lemma segment_digits_raises (m : model) (frame : list Z) (n : nat) :
  length frame = n ->
  forallb (fun p : nat * nat => (p.1 <? n)%nat && (p.2 <? n)%nat) (digit_pairs m) = true ->
  digit_pairs m <> [] ->
  raises_only segment_errors (decode_digits m frame).
Proof.
  intros <- Hpairs Hp. apply pairs_in_range in Hpairs.
  assert (H : raises_only segment_errors (merged_digits m frame (digit_pairs m))).
  { eapply raises_only_mono; [|apply merged_digits_raises, Hpairs]. intros []; done. }
  destruct m; simpl in Hp; try congruence; unfold decode_digits;
    (apply raises_only_bind; [exact H|intros; apply raises_only_Ok]).
Qed.

(** [decode_lcd] followed by the reading, for a segment model. *)
Lemma segment_reading_raises (m : model) (frame : list Z) (n : nat) :
  length frame = n ->
  forallb (fun f : flagspec => (f.1.2 <? n)%nat) (flags_of m) = true ->
  forallb (fun p : nat * nat => (p.1 <? n)%nat && (p.2 <? n)%nat) (digit_pairs m) = true ->
  digit_pairs m <> [] ->
  raises_only segment_errors (lcd ← decode_lcd_base m frame; lcd_reading m lcd).
Proof.
  intros Hlen Hflags Hpairs Hp. apply raises_only_bind.
  - apply decode_lcd_base_raises.
    + rewrite Hlen. apply flags_in_range, Hflags.
    + exact (segment_digits_raises m frame n Hlen Hpairs Hp).
  - intros lcd Hlcd. apply decode_lcd_base_digits in Hlcd as (d & Hd & Hl).
    destruct (segment_digits m frame d Hp Hd) as [s ->].
    apply (lcd_reading_raises _ m lcd s Hl), value_error_segment.
Qed.

Lemma raises_only_is_ok {A} (P : pyexc -> bool) (r : exn A) :
  is_ok r = true -> raises_only P r.
Proof. destruct r; [intros _; apply raises_only_Ok|discriminate]. Qed.

Lemma decode_Dummy_raises (buf data : list Z) :
  raises_only (decode_raises Dummy) (out_result (decode_Dummy buf data)).
Proof.
  unfold decode_Dummy, returns. cbn [out_result flip_bits_of whiten].
  rewrite bind_Ok_l. unfold decode_lcd_base. cbn [flags_of read_flags decode_digits].
  rewrite !bind_Ok_l. apply raises_only_Ok.
Qed.

Lemma decode_TS04_raises (buf data : list Z) :
  rejected TS04 buf data = Ok false ->
  raises_only (decode_raises TS04) (out_result (decode_TS04 buf data)).
Proof.
  unfold rejected, decode_TS04. intros [= H]. apply orb_false_iff in H as [-> H].
  apply negb_false_iff in H. rewrite H. cbn [negb]. unfold returns. cbn [out_result].
  apply Nat.eqb_eq in H.
  exact (segment_reading_raises TS04 data 9 H eq_refl eq_refl ltac:(discriminate)).
Qed.

Lemma lookup_digits_set_flag (lcd : lcd_t) (flag : string) (d : option pyval) :
  flag <> "digits" -> lcd !! "digits" = Some d -> set_flag lcd flag !! "digits" = Some d.
Proof. intros Hne H. unfold set_flag. rewrite lookup_insert_ne by assumption. exact H. Qed.

Lemma decode_HP90EPD_raises (buf data : list Z) :
  rejected HP90EPD buf data = Ok false ->
  raises_only (decode_raises HP90EPD) (out_result (decode_HP90EPD buf data)).
Proof.
  unfold rejected, decode_HP90EPD. intros [= H].
  destruct (Nat.eqb (length data) 8); [apply raises_only_Ok|].
  cbn [negb andb] in H. apply negb_false_iff in H. rewrite H.
  apply andb_true_iff in H as [Hd Hb]. apply Nat.eqb_eq in Hd, Hb.
  assert (Hlen : length (buf ++ data) = 14%nat) by (rewrite length_app; lia).
  destruct (decode_lcd_base HP90EPD (buf ++ data)) as [lcd|e] eqn:Hlcd.
  - cbn [out_result].
    apply decode_lcd_base_digits in Hlcd as (d & Hdig & Hl).
    destruct (segment_digits HP90EPD _ d ltac:(discriminate) Hdig) as [s ->].
    apply (lcd_reading_raises _ HP90EPD _ s); [|apply value_error_segment].
    destruct (has lcd "volts" || has lcd "amps"); [|exact Hl].
    destruct (negb (has lcd "AC")); [|exact Hl].
    apply lookup_digits_set_flag; [discriminate|exact Hl].
  - cbn [out_result]. intros e' [= <-].
    apply (decode_lcd_base_raises segment_errors HP90EPD (buf ++ data)); [| |exact Hlcd].
    + rewrite Hlen. apply flags_in_range. reflexivity.
    + exact (segment_digits_raises HP90EPD _ 14 Hlen eq_refl ltac:(discriminate)).
Qed.

Lemma decode_AN9002_raises (buf data : list Z) :
  rejected AN9002 buf data = Ok false ->
  raises_only (decode_raises AN9002) (out_result (decode_AN9002 buf data)).
Proof.
  unfold rejected, decode_AN9002. intros [= H]. rewrite H. unfold returns. cbn [out_result].
  apply negb_false_iff, Nat.eqb_eq in H.
  destruct (whiten_long_enough (flip_bits_of AN9002) data) as [white Hw].
  { rewrite H. cbn. lia. }
  rewrite Hw, bind_Ok_l. apply whiten_length in Hw. rewrite H in Hw.
  exact (segment_reading_raises AN9002 white 11 Hw eq_refl eq_refl ltac:(discriminate)).
Qed.

Lemma decode_V05B_raises (buf data : list Z) :
  rejected V05B buf data = Ok false ->
  raises_only (decode_raises V05B) (out_result (decode_V05B buf data)).
Proof.
  unfold rejected, decode_V05B. intros [= H]. rewrite H. unfold returns. cbn [out_result].
  apply negb_false_iff, Nat.eqb_eq in H.
  destruct (whiten_long_enough (flip_bits_of V05B) data) as [white Hw].
  { rewrite H. cbn. lia. }
  rewrite Hw, bind_Ok_l. apply whiten_length in Hw. rewrite H in Hw.
  exact (segment_reading_raises V05B white 10 Hw eq_refl eq_refl ltac:(discriminate)).
Qed.

Lemma decode_BT7200_raises (buf data : list Z) :
  rejected BT7200_APP buf data = Ok false ->
  raises_only (decode_raises BT7200_APP) (out_result (decode_BT7200_APP buf data)).
Proof.
  unfold rejected. intros [= H]. apply negb_false_iff in H.
  rewrite (decode_BT7200_accepted buf data H). unfold returns. cbn [out_result].
  exact (segment_reading_raises BT7200_APP _ 15 (BT7200_frame_length _ H)
           eq_refl eq_refl ltac:(discriminate)).
Qed.

Ltac eval_getitem := rewrite ?getitem_cons_S, ?getitem_cons_O, ?bind_Ok_l.

Lemma decode_WT81B_raises (buf data : list Z) :
  rejected WT81B buf data = Ok false ->
  raises_only (decode_raises WT81B) (out_result (decode_WT81B buf data)).
Proof.
  unfold rejected, decode_WT81B. intros H. rewrite H. unfold returns. cbn [out_result].
  unfold mismatch_WT81B in H.
  destruct (match_ data pattern_WT81B) eqn:Hm; [|cbn [negb] in H; discriminate H].
  clear H. apply match_Forall2 in Hm. unfold pattern_WT81B in Hm. frame_shape Hm.
  apply raises_only_is_ok.
  destruct (decode_lcd_WT81B [255; 87; 76; b; b0; b1; b2; b3]) as [lcd|e] eqn:Hlcd.
  - destruct (decode_lcd_WT81B_items _ _ Hlcd) as (lux & t & Hlux & Ht).
    rewrite bind_Ok_l, Hlux, bind_Ok_l, Ht. reflexivity.
  - exfalso. revert Hlcd. unfold decode_lcd_WT81B, word_at, int_truediv.
    cbn [flags_of read_flags]. repeat eval_getitem.
    change (10 =? 0) with false. cbv iota. repeat eval_getitem. discriminate.
Qed.

Lemma decode_BT980D_raises (buf data : list Z) :
  rejected BT980D buf data = Ok false ->
  raises_only (decode_raises BT980D) (out_result (decode_BT980D buf data)).
Proof.
  unfold rejected, decode_BT980D. intros [= H]. rewrite H.
  apply negb_false_iff in H.
  destruct (match_ data ack_BT980D); [apply raises_only_Ok|].
  unfold returns. cbn [out_result].
  apply match_Forall2 in H. unfold pattern_BT980D in H. frame_shape H.
  unfold decode_lcd_base. cbn [flags_of read_flags decode_digits]. repeat eval_getitem.
  apply raises_only_Ok.
Qed.

Lemma decode_TP357_raises (buf data : list Z) :
  rejected TP357 buf data = Ok false ->
  raises_only (decode_raises TP357) (out_result (decode_TP357 buf data)).
Proof.
  unfold rejected, decode_TP357. intros H. rewrite H. unfold returns. cbn [out_result].
  unfold mismatch_TP357 in H.
  destruct (match_ data pattern_TP357) eqn:Hm; [|cbn [negb] in H; discriminate H].
  clear H. apply match_Forall2 in Hm. unfold pattern_TP357 in Hm. frame_shape Hm.
  apply raises_only_bind.
  - unfold decode_lcd_TP357, int_truediv. cbn [flags_of read_flags]. repeat eval_getitem.
    change (10 =? 0) with false. cbv iota.
    apply raises_only_bind.
    + destruct (negb (Z.land (Z.lor _ _) _ =? 0));
        [apply raises_only_Raise; reflexivity|apply raises_only_Ok].
    + intros temp _. repeat eval_getitem. apply raises_only_Ok.
  - intros lcd Hlcd. destruct (decode_lcd_TP357_items _ _ Hlcd) as (t & h & Ht & Hh).
    rewrite Ht, bind_Ok_l, Hh, bind_Ok_l. apply raises_only_Ok.
Qed.

Lemma decode_BT985C_raises (buf data : list Z) :
  rejected BT985C_APP buf data = Ok false ->
  raises_only (decode_raises BT985C_APP) (out_result (decode_BT985C_APP buf data)).
Proof.
  unfold rejected, decode_BT985C_APP. intros [= H]. rewrite H. apply negb_false_iff in H.
  unfold returns. cbn [out_result].
  apply match2_length in H. change (String.length _) with 16%nat in H.
  destruct data as [|b0 [|mode [|b2 [|b3 [|b4 [|b5 [|b6 [|b7 [|b8 rest]]]]]]]]];
    simpl in H; try lia.
  apply raises_only_bind.
  - unfold decode_lcd_BT985C.
    destruct (read_flags_in_range (flags_of BT985C_APP) [b0; mode; b2; b3; b4; b5; b6; b7])
      with (lcd := (∅ : lcd_t)) as [lcd0 ->].
    { apply flags_in_range. reflexivity. }
    rewrite bind_Ok_l. cbv zeta. repeat eval_getitem.
    unfold int_truediv. change (100 =? 0) with false. cbv iota.
    destruct ((0 <=? mode) && (mode <=? 4)), (mode =? 5), (mode_table !! mode);
      repeat eval_getitem;
      first [apply raises_only_Ok|apply raises_only_Raise; reflexivity].
  - intros lcd Hlcd.
    destruct (decode_lcd_BT985C_items _ _ Hlcd) as (r & u & t & Hr & Hu & Ht).
    rewrite Hr, bind_Ok_l, Hu, bind_Ok_l, Ht, bind_Ok_l. apply raises_only_Ok.
Qed.

Lemma decode_K1705_raises (buf data : list Z) :
  rejected K1705 buf data = Ok false ->
  raises_only (decode_raises K1705) (out_result (decode_K1705 buf data)).
Proof.
  unfold rejected, decode_K1705. intros [= H]. rewrite H. apply negb_false_iff in H.
  destruct (Nat.eqb (length data) 128); [apply raises_only_Ok|].
  unfold returns. cbn [out_result].
  apply match_Forall2 in H. unfold pattern_K1705 in H. frame_shape H.
  apply raises_only_is_ok.
  destruct (decode_lcd_base K1705 [163; 190; 21; 146; 147; 0; 0; 160; 0; 0; b; b0; b1; b2; 255; 62; 186])
    as [lcd|e] eqn:Hlcd.
  - rewrite bind_Ok_l. apply decode_lcd_base_digits in Hlcd as (d & Hd & Hl).
    unfold decode_digits in Hd. repeat (rewrite ?getitem_cons_S, ?getitem_cons_O, ?bind_Ok_l in Hd).
    injection Hd as <-.
    apply (lookup_digits_set_flag _ "grams") in Hl; [|discriminate].
    apply (lookup_digits_set_flag _ "/100") in Hl; [|discriminate].
    unfold lcd_reading, lcd_to_number, lcd_item. rewrite Hl, bind_Ok_l. cbn [strings_of]. rewrite lookup_empty, py_int10_py_str, bind_Ok_l.
    cbv zeta. destruct (has _ "(overload)"); reflexivity.
  - exfalso. revert Hlcd. unfold decode_lcd_base.
    cbn [flags_of read_flags decode_digits mode_strings_of]. repeat eval_getitem.
    rewrite lookup_empty. discriminate.
Qed.

Lemma decode_TS02_raises (buf data : list Z) :
  rejected TS02 buf data = Ok false ->
  raises_only (decode_raises TS02) (out_result (decode_TS02 buf data)).
Proof.
  unfold rejected, decode_TS02. intros H.
  destruct (check_TS02 data) as [[|]|e] eqn:Hc; try discriminate H. clear H.
  unfold returns. cbn [out_result].
  destruct (check_TS02_shape data Hc) as (b0 & b1 & b2 & b3 & b4 & b5 & rest & ->).
  apply raises_only_is_ok.
  destruct (decode_lcd_base TS02 (b0 :: b1 :: b2 :: b3 :: b4 :: b5 :: rest)) as [lcd|e] eqn:Hlcd.
  - rewrite bind_Ok_l. apply decode_lcd_base_digits in Hlcd as (d & Hd & Hl).
    unfold decode_digits, bcd_at in Hd.
    repeat (rewrite ?getitem_cons_S, ?getitem_cons_O, ?bind_Ok_l in Hd).
    injection Hd as <-.
    apply (lookup_digits_set_flag _ "degrees") in Hl; [|discriminate].
    apply (lookup_digits_set_flag _ "/10") in Hl; [|discriminate].
    unfold lcd_reading, lcd_to_number, lcd_item. rewrite Hl, bind_Ok_l. cbn [strings_of]. rewrite lookup_empty.
    change 0x0F with 15. rewrite py_int10_nibbles by apply nibble_range.
    rewrite bind_Ok_l. cbv zeta. destruct (has _ "(overload)"); reflexivity.
  - exfalso. revert Hlcd. unfold decode_lcd_base, bcd_at.
    cbn [flags_of read_flags decode_digits mode_strings_of]. unfold bcd_at.
    repeat eval_getitem. rewrite lookup_empty. discriminate.
Qed.

Lemma decode_ascii_raises (data : list Z) :
  raises_only (decode_raises UT383BT) (decode_ascii data).
Proof.
  unfold decode_ascii. destruct (forallb _ data);
    [apply raises_only_Ok|apply raises_only_Raise; reflexivity].
Qed.

Lemma decode_UT383BT_raises (buf data : list Z) :
  rejected UT383BT buf data = Ok false ->
  raises_only (decode_raises UT383BT) (out_result (decode_UT383BT buf data)).
Proof.
  unfold rejected, decode_UT383BT. intros [= H]. rewrite H. apply negb_false_iff in H.
  unfold returns. cbn [out_result].
  apply match_Forall2 in H. unfold pattern_UT383BT in H. frame_shape H.
  unfold decode_lcd_base. cbn [flags_of read_flags decode_digits]. repeat eval_getitem.
  cbv zeta. apply raises_only_bind; [apply decode_ascii_raises|].
  intros digits _. apply (lcd_reading_raises _ UT383BT _ digits).
  - apply lookup_insert_eq.
  - eapply raises_only_mono; [|apply py_int10_raises]. intros []; done.
Qed.

(** X7.  On a frame that passes the frame test of its model, [decode]
    raises nothing but what [decode_raises] lists: never [IndexError],
    [TypeError] or [ZeroDivisionError], and nothing at all for [Dummy],
    [WT81B], [TS02], [K1705] and [BT980D]. *)
Theorem accepted_frame_raises (m : model) (buf data : list Z) (e : pyexc) :
  rejected m buf data = Ok false ->
  out_result (decode m buf data) = Raise e ->
  decode_raises m e = true.
Proof.
  intros Hrej He. revert e He. change (raises_only (decode_raises m) (out_result (decode m buf data))).
  destruct m; unfold decode.
  - apply decode_Dummy_raises.
  - apply decode_TS04_raises, Hrej.
  - apply decode_HP90EPD_raises, Hrej.
  - apply decode_AN9002_raises, Hrej.
  - apply decode_V05B_raises, Hrej.
  - apply decode_WT81B_raises, Hrej.
  - apply decode_UT383BT_raises, Hrej.
  - apply decode_TP357_raises, Hrej.
  - apply decode_TS02_raises, Hrej.
  - apply decode_K1705_raises, Hrej.
  - apply decode_BT980D_raises, Hrej.
  - apply decode_BT7200_raises, Hrej.
  - apply decode_BT985C_raises, Hrej.
Qed.

(** A [TP357] frame with a temperature below zero. *)
Lemma accepted_frame_raises_witness :
  let data := [0xC2; 0x00; 0x00; 0x00; 0x80; 0x2D; 0x2C] in
  rejected TP357 [] data = Ok false /\
  out_result (decode TP357 [] data) = Raise NameError /\
  decode_raises TP357 NameError = true.
Proof.
  intros data. split; [reflexivity|]. split; [reflexivity|].
  apply (accepted_frame_raises TP357 [] data NameError); reflexivity.
Defined.

(** ** The message queue *)

Lemma reporting_device (address : string) (units : option string) (s : session) (d : device) :
  devices s !! address = Some d ->
  exists s', reporting address units s = Ok s' /\
             messages s' = messages s /\ devices s' = devices s.
Proof.
  intros Hd. unfold reporting. destruct units as [u|]; [rewrite Hd|]; eauto.
Qed.

(** The loop of [_message_callback] over results that are all triples. *)
Lemma deliver_triples (address : string) (now : Z) (results : list reading) :
  forall s d,
    devices s !! address = Some d ->
    Forall is_triple results ->
    let s' := (deliver address now results s).1 in
    (deliver address now results s).2 = Ok tt /\
    messages s' = (messages s ++ map (Message now address) results)%list /\
    (exists d', devices s' !! address = Some d' /\ dev_buffer d' = dev_buffer d) /\
    (forall b, b <> address -> devices s' !! b = devices s !! b).
Proof.
  induction results as [|r results IH]; intros s d Hd Hall; simpl.
  - rewrite app_nil_r. eauto 6.
  - apply Forall_cons in Hall as [Hr Hall].
    destruct r as [| |flags value units]; try contradiction. cbn [third].
    destruct (reporting_device address units
                (with_messages (messages s ++ [Message now address (RTriple flags value units)]) s)
                d Hd) as (s1 & -> & Hm1 & Hd1).
    rewrite Hd1. cbn [with_messages devices]. rewrite Hd.
    set (s2 := with_devices _ s1).
    assert (Hd2 : devices s2 !! address = Some (set_lastseen (Some now) d))
      by apply lookup_insert_eq.
    destruct (IH s2 _ Hd2 Hall) as (Hok & Hmsgs & (d' & Hd' & Hbuf) & Hother).
    split; [exact Hok|]. split; [|split].
    + rewrite Hmsgs. subst s2. cbn [with_devices messages]. rewrite Hm1.
      cbn [with_messages messages]. rewrite <- app_assoc. reflexivity.
    + exists d'. split; [exact Hd'|]. rewrite Hbuf. reflexivity.
    + intros b Hb. rewrite (Hother b Hb). subst s2. cbn [with_devices devices].
      rewrite lookup_insert_ne by congruence. reflexivity.
Qed.

(** X8.  When the decoder of a registered device returns its triples,
    [_message_callback] puts one message per triple on the queue, behind
    what is already queued and in the order of the triples, each with the
    arrival time and the address; it stores the decoder's buffer with the
    device and leaves the other devices as they are. *)
Theorem callback_enqueues (address : string) (now : Z) (data : list Z)
    (s : session) (d : device) (m : model) (results : list reading) :
  devices s !! address = Some d ->
  dev_decode d = Some m ->
  out_result (decode m (dev_buffer d) data) = Ok results ->
  Forall is_triple results ->
  let r := _message_callback address now data s in
  r.2 = Ok tt /\
  r.1.2 = out_log (decode m (dev_buffer d) data) /\
  messages r.1.1 = (messages s ++ map (Message now address) results)%list /\
  (dev_buffer <$> devices r.1.1 !! address)
    = Some (out_buffer (decode m (dev_buffer d) data)) /\
  (forall b, b <> address -> devices r.1.1 !! b = devices s !! b).
Proof.
  intros Hd Hm Hres Hall. unfold _message_callback. rewrite Hd, Hm. cbv zeta.
  rewrite Hres.
  set (o := decode m (dev_buffer d) data).
  set (s1 := with_devices _ s).
  assert (Hd1 : devices s1 !! address = Some (set_buffer (out_buffer o) d))
    by apply lookup_insert_eq.
  destruct (deliver_triples address now results s1 _ Hd1 Hall)
    as (Hok & Hmsgs & (d' & Hd' & Hbuf) & Hother).
  destruct (deliver address now results s1) as [s' r] eqn:Hdel. simpl in *.
  split; [exact Hok|]. split; [reflexivity|]. split; [exact Hmsgs|]. split.
  - rewrite Hd'. simpl. rewrite Hbuf. reflexivity.
  - intros b Hb. rewrite (Hother b Hb). apply lookup_insert_ne. congruence.
Qed.

(** A [TS04] frame showing 0.11 volts arrives at the registered meter. *)
Lemma callback_enqueues_witness :
  exists d results,
    devices one_meter !! meter_a = Some d /\
    out_result (decode TS04 (dev_buffer d) frame_volts) = Ok results /\
    length results = 1%nat /\
    messages (_message_callback meter_a 5 frame_volts one_meter).1.1
    = map (Message 5 meter_a) results.
Proof.
  destruct (devices one_meter !! meter_a) as [d|] eqn:Hd; [|vm_compute in Hd; discriminate Hd].
  assert (Hm : dev_decode d = Some TS04 /\ dev_buffer d = []).
  { vm_compute in Hd. injection Hd as <-. split; reflexivity. }
  destruct Hm as [Hm Hb].
  destruct (out_result (decode TS04 (dev_buffer d) frame_volts)) as [results|e] eqn:Hres;
    [|rewrite Hb in Hres; vm_compute in Hres; discriminate Hres].
  assert (Hall : Forall is_triple results /\ length results = 1%nat).
  { rewrite Hb in Hres. vm_compute in Hres. injection Hres as <-.
    split; [repeat constructor|reflexivity]. }
  destruct Hall as [Hall Hlen].
  exists d, results. do 3 (split; [reflexivity || assumption|]).
  destruct (callback_enqueues meter_a 5 frame_volts one_meter d TS04 results
              Hd Hm Hres Hall) as (_ & _ & Hmsgs & _).
  rewrite Hmsgs. reflexivity.
Defined.

(** X9.  A device registered without a decoder gets the default
    [lambda x: x]: the callback then walks over the bytes of the frame,
    queues the first byte as a message and raises [TypeError] when it
    indexes that byte for its unit; nothing else of the session changes.
    An empty frame does nothing. *)
Theorem default_decoder_raises (address : string) (now : Z) (data : list Z)
    (s : session) (d : device) :
  devices s !! address = Some d ->
  dev_decode d = None ->
  _message_callback address now data s =
    match data with
    | [] => (s, [], Ok tt)
    | b :: _ =>
        (with_messages (messages s ++ [Message now address (RByte b)]) s, [],
         Raise TypeError)
    end.
Proof.
  intros Hd Hm. unfold _message_callback. rewrite Hd, Hm.
  destruct data as [|b rest]; reflexivity.
Qed.

(** A meter registered with its address and characteristic only. *)
Lemma default_decoder_raises_witness :
  let s := register_device meter_a "ffb2" None None None None None false (new_session 0) in
  (_message_callback meter_a 5 frame_volts s).2 = Raise TypeError /\
  length (messages (_message_callback meter_a 5 frame_volts s).1.1) = 1%nat /\
  lastseen (_message_callback meter_a 5 frame_volts s).1.1 meter_a = None.
Proof.
  intros s.
  rewrite (default_decoder_raises meter_a 5 frame_volts s
             (Device "ffb2" None [] None None None None None));
    [|vm_compute; reflexivity|reflexivity].
  vm_compute. repeat split.
Defined.

(** What the first loop of [message_flush] leaves in [last_messages]. *)
Lemma last_messages_fold (batch : list message) :
  forall (acc : gmap string message) (a : string),
    fold_left (fun acc m => <[m_address m := m]> acc) batch acc !! a =
    match last (filter (fun m => m_address m = a) batch) with
    | Some m => Some m
    | None => acc !! a
    end.
Proof.
  induction batch as [|m batch IH]; intros acc a; simpl; [reflexivity|].
  rewrite IH, filter_cons. destruct (decide (m_address m = a)) as [Ha|Ha].
  - rewrite last_cons. destruct (last (filter _ batch)); [reflexivity|].
    rewrite <- Ha. apply lookup_insert_eq.
  - destruct (last (filter _ batch)); [reflexivity|].
    apply lookup_insert_ne, Ha.
Qed.

(** X10.  With no recycled address, [message_flush] hands out the queued
    messages in the order in which they were queued (none of them with
    [drop]), leaves the queue empty and stamps the flush time; whether or
    not the messages are dropped, [last_messages] afterwards holds for every
    address the last message of the batch from that address, and what it
    held before for an address without a message in the batch. *)
Theorem flush_returns_queue (drop clear_count : bool) (now : Z) (s : session) :
  recycle s = ∅ ->
  let r := message_flush drop clear_count now s in
  r.2 = Ok (if drop then [] else messages s) /\
  messages r.1 = [] /\
  last_flush r.1 = now /\
  devices r.1 = devices s /\
  (forall a,
     last_messages r.1 !! a =
     match last (filter (fun m => m_address m = a) (messages s)) with
     | Some m => Some m
     | None => last_messages s !! a
     end).
Proof.
  intros Hrec. unfold message_flush. cbv zeta. rewrite Hrec.
  rewrite intersection_empty_l_L.
  rewrite bool_decide_eq_false_2 by (intros H; apply H; reflexivity).
  cbn [fst snd messages last_flush devices last_messages].
  repeat split. intros a. apply last_messages_fold.
Qed.

(** Two frames of one meter are flushed; the second is the last message. *)
Lemma flush_returns_queue_witness :
  let s := (_message_callback meter_a 7 frame_volts
              (_message_callback meter_a 5 frame_volts one_meter).1.1).1.1 in
  recycle s = ∅ /\
  (map m_time <$> (message_flush false true 9 s).2) = Ok [5; 7] /\
  (m_time <$> last_messages (message_flush false true 9 s).1 !! meter_a) = Some 7.
Proof.
  intros s. assert (Hrec : recycle s = ∅) by (vm_compute; reflexivity).
  split; [exact Hrec|].
  destruct (flush_returns_queue false true 9 s Hrec) as (Hres & _ & _ & _ & Hlast).
  split.
  - rewrite Hres. vm_compute. reflexivity.
  - rewrite Hlast. vm_compute. reflexivity.
Defined.

(** ** The tasks *)

Lemma reporting_flags (address : string) (units : option string) (s s' : session) :
  reporting address units s = Ok s' ->
  running s' = running s /\ dbus_lock s' = dbus_lock s.
Proof.
  unfold reporting. destruct units as [u|]; [|intros [= <-]; auto].
  destruct (devices s !! address); [|discriminate]. intros [= <-]. auto.
Qed.

Lemma deliver_flags (address : string) (now : Z) (results : list reading) :
  forall s,
    running (deliver address now results s).1 = running s /\
    dbus_lock (deliver address now results s).1 = dbus_lock s.
Proof.
  induction results as [|r results IH]; intros s; simpl; [auto|].
  destruct (third r); [|auto].
  destruct (reporting address a _) as [s1|] eqn:Hrep; [|auto].
  apply reporting_flags in Hrep as [Hr Hl]. simpl in Hr, Hl.
  destruct (devices s1 !! address); [|simpl; auto].
  destruct (IH (with_devices (<[address:=set_lastseen (Some now) d]> (devices s1)) s1))
    as [-> ->]. simpl. auto.
Qed.

Lemma callback_flags (address : string) (now : Z) (data : list Z) (s : session) :
  running (_message_callback address now data s).1.1 = running s /\
  dbus_lock (_message_callback address now data s).1.1 = dbus_lock s.
Proof.
  unfold _message_callback. destruct (devices s !! address) as [d|]; [|auto].
  destruct (dev_decode d) as [m|].
  - cbv zeta. destruct (out_result _) as [results|e]; [|auto].
    match goal with
    | |- context [deliver address now results ?s1] =>
        destruct (deliver_flags address now results s1) as [Hr Hl];
        destruct (deliver address now results s1) as [s' r]
    end.
    simpl in *. auto.
  - destruct (deliver_flags address now (map RByte data) s) as [Hr Hl].
    destruct (deliver address now (map RByte data) s) as [s' r]. simpl in *. auto.
Qed.

Lemma step_inv (now : Z) (a : string) (ev : event) (st st' : system) :
  step now a ev st = Some st' ->
  exists d p s p',
    devices (sess st) !! a = Some d /\ tasks st !! a = Some p /\
    task_step now a ev d p (sess st) = Some (s, p') /\
    st' = System s (<[a := p']> (tasks st)).
Proof.
  unfold step. intros H.
  destruct (devices (sess st) !! a) as [d|] eqn:Hd; [|discriminate H].
  destruct (tasks st !! a) as [p|] eqn:Hp; [|discriminate H]. simpl in H.
  destruct (task_step now a ev d p (sess st)) as [[s p']|] eqn:Hts; [|discriminate H].
  injection H as <-. exists d, p, s, p'. repeat split; assumption.
Qed.

Lemma running_retry_handler (s : session) : running (retry_handler s).1 = running s.
Proof. unfold retry_handler. simpl. destruct (dbus_lock s); reflexivity. Qed.

Lemma running_messy_cleanup (s : session) : running (messy_cleanup s).1 = false.
Proof.
  unfold messy_cleanup. simpl.
  destruct (dbus_lock s); simpl; destruct (running s) eqn:Hr; simpl; auto.
Qed.

Lemma Some_pair_inv {A B} (x : A * B) (a : A) (b : B) :
  Some x = Some (a, b) -> x.1 = a /\ x.2 = b.
Proof. intros [= ->]. auto. Qed.

(** Brings the result of a step into the goal. *)
Ltac step_result H :=
  unfold task_step, transport, sleep in H;
  try discriminate H;
  try (match type of H with
       | (if dbus_lock ?s then None else _) = _ =>
           destruct (dbus_lock s) eqn:?; [discriminate H|]
       end);
  try discriminate H;
  let Hs := fresh "Hs" in
  let Hp := fresh "Hp" in
  apply Some_pair_inv in H as [Hs Hp];
  cbn [fst snd] in Hs, Hp; subst.

Ltac split_cases :=
  cbv zeta;
  repeat match goal with
         | |- context [match dev_poll_msg ?d with _ => _ end] => destruct (dev_poll_msg d)
         | |- context [match dev_init_msg ?d with _ => _ end] => destruct (dev_init_msg d)
         | |- context [match dev_stop_msg ?d with _ => _ end] => destruct (dev_stop_msg d)
         | |- context [if ?c then _ else _] => destruct c eqn:?
         end.

(** A step leaves the run signal as it is or clears it. *)
Lemma task_step_running now a ev d p s s' p' :
  task_step now a ev d p s = Some (s', p') ->
  running s' = running s \/ running s' = false.
Proof.
  intros H. destruct ev as [| | | |data].
  5:{ unfold task_step in H. destruct (subscribed p); [|discriminate H].
      injection H as <- _. left. apply callback_flags. }
  all: destruct p; step_result H.
  all: rewrite ?running_retry_handler, ?running_messy_cleanup; auto.
  all: unfold after_release, after_init, poll_loop, watch_loop, after_watch, retry_handler;
    split_cases; rewrite ?running_messy_cleanup; simpl; auto.
Qed.

(** X11.  The run signal is never set again: along every schedule, once
    [running] is released it stays released, whatever the tasks do and
    whatever frames arrive. *)
Theorem running_never_set (schedule : list (Z * string * event)) :
  forall st st',
    run schedule st = Some st' ->
    running (sess st) = false ->
    running (sess st') = false.
Proof.
  induction schedule as [|[[now a] ev] schedule IH]; intros st st' H Hr; simpl in H.
  - injection H as <-. exact Hr.
  - destruct (step now a ev st) as [st1|] eqn:Hstep; [|discriminate H]. simpl in H.
    apply (IH st1 st' H).
    apply step_inv in Hstep as (d & p & s & p' & _ & _ & Hts & ->). simpl.
    destruct (task_step_running _ _ _ _ _ _ _ _ Hts) as [Heq|Heq]; congruence.
Qed.

(** A task that asks for the lock after the run signal was cleared. *)
Lemma running_never_set_witness :
  match run [(0, meter_a, Resume)] (start (with_running false one_meter)) with
  | Some st' => running (sess st') = false
  | None => False
  end.
Proof.
  destruct (run [(0, meter_a, Resume)] (start (with_running false one_meter)))
    as [st'|] eqn:H.
  - apply (running_never_set _ _ _ H). reflexivity.
  - vm_compute in H. discriminate H.
Defined.

(** X12.  Once the run signal is cleared every task comes to its end: each
    await that completes or raises brings the task strictly closer to
    [Returned] or [Abandoned], which it reaches after at most ten such
    steps, and leaves the other tasks where they are. *)
Theorem shutdown_progress (now : Z) (a : string) (ev : event) (st st' : system) (p : pc) :
  running (sess st) = false ->
  (forall data, ev <> Notify data) ->
  tasks st !! a = Some p ->
  step now a ev st = Some st' ->
  exists p',
    tasks st' !! a = Some p' /\
    (rank p' < rank p <= 10)%nat /\
    (forall b, b <> a -> tasks st' !! b = tasks st !! b).
Proof.
  intros Hrun Hev Hp Hstep.
  apply step_inv in Hstep as (d & p0 & s & p' & Hd & Hp0 & Hts & ->).
  rewrite Hp in Hp0. injection Hp0 as <-.
  exists p'. cbn [tasks]. split; [apply lookup_insert_eq|].
  split; [|intros b Hb; apply lookup_insert_ne; congruence].
  clear Hp Hd. revert Hts Hrun. generalize (sess st). clear st. intros s0 H Hrun.
  destruct ev as [| | | |data]; [| | | |exfalso; exact (Hev data eq_refl)].
  all: destruct p; step_result H.
  all: unfold after_release, after_init, poll_loop, watch_loop, after_watch,
         retry_handler, messy_cleanup.
  all: cbn [running with_dbus_lock with_running]; rewrite ?Hrun.
  all: split_cases; cbn [fst snd rank negb] in *; try lia; try discriminate.
Qed.

(** The task of [meter_a] in the lastseen loop when the run signal is
    cleared: its tick ends the loop. *)
Lemma shutdown_progress_witness :
  let st := System (with_running false one_meter) {[ meter_a := AwaitWatchTick ]} in
  exists st' p',
    step 1000000 meter_a Resume st = Some st' /\
    tasks st' !! meter_a = Some p' /\ (rank p' < rank AwaitWatchTick)%nat.
Proof.
  intros st.
  destruct (step 1000000 meter_a Resume st) as [st'|] eqn:Hstep;
    [|vm_compute in Hstep; discriminate Hstep].
  destruct (shutdown_progress 1000000 meter_a Resume st st' AwaitWatchTick)
    as (p' & Hp' & [Hlt _] & _); try reflexivity; try assumption; [discriminate|].
  exists st', p'. auto.
Defined.

(** ** The lock and the section it guards *)

Lemma dbus_lock_callback (address : string) (now : Z) (data : list Z) (s : session) :
  dbus_lock (_message_callback address now data s).1.1 = dbus_lock s.
Proof. apply callback_flags. Qed.

(** What a step does to the lock and to the place of its task. *)
Lemma task_step_gate now a ev d p s s' p' :
  task_step now a ev d p s = Some (s', p') ->
  (in_gate_section p = false /\ in_gate_section p' = true /\
   dbus_lock s = false /\ dbus_lock s' = true) \/
  (in_gate_section p = true /\ in_gate_section p' = true /\
   dbus_lock s' = dbus_lock s) \/
  (in_gate_section p = true /\ in_gate_section p' = false /\ dbus_lock s' = false) \/
  (in_gate_section p = false /\ in_gate_section p' = false /\
   dbus_lock s' = dbus_lock s) \/
  (in_gate_section p = false /\ dbus_lock s = true /\
   (ev = RaiseBleak \/ ev = RaiseTimeout \/ ev = RaiseOther \/
    (ev = Resume /\ p = AwaitWatchTick /\
     watchdog_expired now (dev_lastseen d) = true))).
Proof.
  intros H. destruct ev as [| | | |data].
  5:{ unfold task_step in H. destruct (subscribed p) eqn:Hsub; [|discriminate H].
      injection H as <- <-. rewrite dbus_lock_callback.
      destruct (in_gate_section p); [right; left|right; right; right; left]; auto. }
  all: destruct p; step_result H.
  all: unfold after_release, after_init, poll_loop, watch_loop, after_watch,
         retry_handler, messy_cleanup.
  all: cbn [dbus_lock with_dbus_lock with_running with_devices].
  all: split_cases.
  all: cbn [fst snd in_gate_section dbus_lock with_dbus_lock with_running with_devices negb] in *.
  all: try (left; repeat split; congruence).
  all: try (right; left; repeat split; congruence).
  all: try (right; right; left; repeat split; congruence).
  all: try (right; right; right; left; repeat split; congruence).
  all: try (right; right; right; right; repeat split; auto; congruence).
  all: right; right; right; right; tauto.
Qed.

Lemma start_tasks (s : session) (a : string) (p : pc) :
  tasks (start s) !! a = Some p -> p = AwaitGate.
Proof.
  unfold start. cbn [tasks]. rewrite lookup_fmap.
  destruct (devices s !! a); simpl; congruence.
Qed.

(** X13.  The lock guards the connect-to-subscribed section as long as no
    [except] clause and no watchdog runs in a task outside the section
    while the lock is locked: [_run] starts with no task in the section,
    and every other step keeps at most one task in it, and none when the
    lock is free.  The handlers release a lock they may not hold; they are
    the only way in which two tasks come to be in the section together. *)
Theorem gate_inv_preserved :
  (forall s, gate_inv (start s)) /\
  (forall now a ev st st',
     gate_inv st ->
     step now a ev st = Some st' ->
     ~ foreign_release now a ev st ->
     gate_inv st').
Proof.
  split.
  - intros s. split.
    + intros a b pa pb Ha _ Hin _. apply start_tasks in Ha as ->. discriminate Hin.
    + intros _ a p Ha. apply start_tasks in Ha as ->. reflexivity.
  - intros now a ev st st' [Hone Hfree] Hstep Hforeign.
    apply step_inv in Hstep as (d & p & s & p' & Hd & Hp & Hts & ->).
    assert (Hother : forall b pb, b <> a ->
              <[a := p']> (tasks st) !! b = Some pb -> tasks st !! b = Some pb).
    { intros b pb Hb H. rewrite lookup_insert_ne in H by congruence. exact H. }
    assert (Hself : forall pa, <[a := p']> (tasks st) !! a = Some pa -> pa = p').
    { intros pa H. rewrite lookup_insert_eq in H. congruence. }
    destruct (task_step_gate _ _ _ _ _ _ _ _ Hts)
      as [(Hp0 & Hp1 & Hl0 & Hl1)|[(Hp0 & Hp1 & Hl)|[(Hp0 & Hp1 & Hl)
         |[(Hp0 & Hp1 & Hl)|(Hp0 & Hl & Hev)]]]].
    + (* the task enters the section: nobody was in it *)
      split; cbn [tasks sess].
      * intros x y px py Hx Hy Hinx Hiny.
        destruct (decide (x = a)) as [->|Hxa], (decide (y = a)) as [->|Hya]; try reflexivity.
        -- apply Hother in Hy; [|exact Hya]. rewrite (Hfree Hl0 y py Hy) in Hiny. discriminate.
        -- apply Hother in Hx; [|exact Hxa]. rewrite (Hfree Hl0 x px Hx) in Hinx. discriminate.
        -- apply Hother in Hx; [|exact Hxa]. rewrite (Hfree Hl0 x px Hx) in Hinx. discriminate.
      * intros Hl. congruence.
    + (* the task moves inside the section *)
      split; cbn [tasks sess].
      * intros x y px py Hx Hy Hinx Hiny.
        destruct (decide (x = a)) as [->|Hxa], (decide (y = a)) as [->|Hya]; try reflexivity.
        -- apply Hother in Hy; [|exact Hya]. symmetry. exact (Hone y a py p Hy Hp Hiny Hp0).
        -- apply Hother in Hx; [|exact Hxa]. exact (Hone x a px p Hx Hp Hinx Hp0).
        -- apply Hother in Hx; [|exact Hxa]. apply Hother in Hy; [|exact Hya]. eauto.
      * intros Hl'. rewrite Hl in Hl'. rewrite (Hfree Hl' a p Hp) in Hp0. discriminate.
    + (* the task leaves the section: nobody is left in it *)
      assert (Hnone : forall x px, <[a := p']> (tasks st) !! x = Some px ->
                        in_gate_section px = false).
      { intros x px Hx. destruct (decide (x = a)) as [->|Hxa].
        - apply Hself in Hx as ->. exact Hp1.
        - apply Hother in Hx; [|exact Hxa].
          destruct (in_gate_section px) eqn:Hin; [|reflexivity].
          exfalso. apply Hxa. exact (Hone x a px p Hx Hp Hin Hp0). }
      split; cbn [tasks sess].
      * intros x y px py Hx Hy Hinx _. rewrite (Hnone x px Hx) in Hinx. discriminate.
      * intros _. exact Hnone.
    + (* the task stays outside *)
      split; cbn [tasks sess].
      * intros x y px py Hx Hy Hinx Hiny.
        destruct (decide (x = a)) as [->|Hxa].
        { apply Hself in Hx as ->. congruence. }
        destruct (decide (y = a)) as [->|Hya].
        { apply Hself in Hy as ->. congruence. }
        apply Hother in Hx; [|exact Hxa]. apply Hother in Hy; [|exact Hya]. eauto.
      * intros Hl' x px Hx. rewrite Hl in Hl'.
        destruct (decide (x = a)) as [->|Hxa].
        -- apply Hself in Hx as ->. exact Hp1.
        -- apply Hother in Hx; [|exact Hxa]. eauto.
    + exfalso. apply Hforeign. split; [exact Hl|]. exists p, d. auto.
Qed.

(** The first task to ask obtains the lock and is alone in the section. *)
Lemma gate_inv_preserved_witness :
  match step 0 meter_a Resume (start two_meters) with
  | Some st' => gate_inv st' /\ tasks st' !! meter_a = Some AwaitConnect
  | None => False
  end.
Proof.
  destruct (step 0 meter_a Resume (start two_meters)) as [st'|] eqn:Hstep;
    [|vm_compute in Hstep; discriminate Hstep].
  split.
  - apply (proj2 gate_inv_preserved 0 meter_a Resume (start two_meters) st').
    + apply (proj1 gate_inv_preserved).
    + exact Hstep.
    + intros [Hlock _]. vm_compute in Hlock. discriminate Hlock.
  - vm_compute in Hstep. injection Hstep as <-. vm_compute. reflexivity.
Defined.

(** ** [statistics]: which readings go into which row *)

Lemma add_sample_samples (k name : string * string) (sample : Z * option pyval)
    (columns : columns_t) :
  samples_of k (add_sample name sample columns) =
  if bool_decide (k = name) then (samples_of k columns ++ [sample])%list
  else samples_of k columns.
Proof.
  induction columns as [|[k' vs] columns IH]; simpl.
  - destruct (bool_decide_reflect (name = k)) as [->|Hne].
    + rewrite bool_decide_eq_true_2 by reflexivity. reflexivity.
    + rewrite bool_decide_eq_false_2 by congruence. reflexivity.
  - destruct (bool_decide_reflect (k' = name)) as [->|Hne]; simpl.
    + destruct (bool_decide_reflect (name = k)) as [->|Hk].
      * rewrite bool_decide_eq_true_2 by reflexivity. reflexivity.
      * rewrite bool_decide_eq_false_2 by congruence. reflexivity.
    + destruct (bool_decide_reflect (k' = k)) as [->|Hk].
      * rewrite bool_decide_eq_false_2 by congruence. reflexivity.
      * exact IH.
Qed.

Lemma add_sample_keys (name : string * string) (sample : Z * option pyval)
    (columns : columns_t) :
  map fst (add_sample name sample columns) =
  if bool_decide (name ∈ map fst columns) then map fst columns
  else (map fst columns ++ [name])%list.
Proof.
  induction columns as [|[k' vs] columns IH]; simpl.
  - reflexivity.
  - destruct (bool_decide_reflect (k' = name)) as [->|Hne]; simpl.
    + rewrite bool_decide_eq_true_2 by apply list_elem_of_here. reflexivity.
    + rewrite IH. destruct (bool_decide_reflect (name ∈ map fst columns)) as [Hin|Hin].
      * rewrite bool_decide_eq_true_2 by (apply list_elem_of_further, Hin). reflexivity.
      * rewrite bool_decide_eq_false_2; [reflexivity|].
        intros H. apply elem_of_cons in H as [H|H]; congruence.
Qed.

Lemma add_sample_NoDup (name : string * string) (sample : Z * option pyval)
    (columns : columns_t) :
  NoDup (map fst columns) -> NoDup (map fst (add_sample name sample columns)).
Proof.
  intros H. rewrite add_sample_keys.
  destruct (bool_decide_reflect (name ∈ map fst columns)) as [Hin|Hin]; [exact H|].
  apply NoDup_app. split; [exact H|]. split; [|apply NoDup_singleton].
  intros x Hx Hx'. apply list_elem_of_singleton in Hx' as ->. contradiction.
Qed.

(** A message that the first loop accepts is absent or has a column. *)
Lemma collect_step (m : message) (rest : list message) (columns columns' : columns_t) :
  collect (m :: rest) columns = Ok columns' ->
  match column_of m with
  | None => collect rest columns = Ok columns'
  | Some k => collect rest (add_sample k (m_time m, value_of (m_data m)) columns) = Ok columns'
  end.
Proof.
  unfold column_of. simpl.
  destruct (m_data m) as [| |[l|] [v|] [u|]]; try discriminate; auto.
Qed.

Lemma collect_samples (msgs : list message) :
  forall columns columns' k,
    collect msgs columns = Ok columns' ->
    length (samples_of k columns') =
    (length (samples_of k columns) +
     length (filter (fun m => column_of m = Some k) msgs))%nat.
Proof.
  induction msgs as [|m msgs IH]; intros columns columns' k H.
  - simpl in H. injection H as <-. rewrite filter_nil. simpl. lia.
  - apply collect_step in H. rewrite filter_cons.
    destruct (column_of m) as [k'|] eqn:Hk.
    + rewrite (IH _ _ k H), add_sample_samples.
      destruct (decide (Some k' = Some k)) as [[= ->]|Hne].
      * rewrite bool_decide_eq_true_2 by reflexivity. rewrite length_app. simpl. lia.
      * rewrite bool_decide_eq_false_2 by congruence. lia.
    + rewrite (IH _ _ k H). destruct (decide (None = Some k)); [discriminate|lia].
Qed.

Lemma collect_NoDup (msgs : list message) :
  forall columns columns',
    collect msgs columns = Ok columns' ->
    NoDup (map fst columns) -> NoDup (map fst columns').
Proof.
  induction msgs as [|m msgs IH]; intros columns columns' H Hnd.
  - simpl in H. injection H as <-. exact Hnd.
  - apply collect_step in H. destruct (column_of m); eauto using add_sample_NoDup.
Qed.

Lemma collect_keys (msgs : list message) :
  forall columns columns' m k,
    collect msgs columns = Ok columns' ->
    m ∈ msgs -> column_of m = Some k -> k ∈ map fst columns'.
Proof.
  assert (Hkeep : forall msgs columns columns' k,
            collect msgs columns = Ok columns' ->
            k ∈ map fst columns -> k ∈ map fst columns').
  { clear msgs. intros msgs.
    induction msgs as [|m msgs IH]; intros columns columns' k H Hk.
    - simpl in H. injection H as <-. exact Hk.
    - apply collect_step in H. destruct (column_of m) as [k'|]; [|eauto].
      apply (IH _ _ k H). rewrite add_sample_keys.
      destruct (bool_decide (k' ∈ map fst columns)); [exact Hk|].
      apply elem_of_app. left. exact Hk. }
  induction msgs as [|m0 msgs IH]; intros columns columns' m k H Hm Hk.
  - inversion Hm.
  - apply collect_step in H. apply elem_of_cons in Hm as [->|Hm].
    + rewrite Hk in H. apply (Hkeep _ _ _ k H). rewrite add_sample_keys.
      destruct (bool_decide_reflect (k ∈ map fst columns)) as [Hin|Hin]; [exact Hin|].
      apply elem_of_app. right. apply list_elem_of_singleton. reflexivity.
    + destruct (column_of m0); eauto.
Qed.

Lemma samples_of_lookup (columns : columns_t) (k : string * string)
    (vs : list (Z * option pyval)) :
  NoDup (map fst columns) -> (k, vs) ∈ columns -> samples_of k columns = vs.
Proof.
  induction columns as [|[k' vs'] columns IH]; intros Hnd Hin; [inversion Hin|].
  simpl in Hnd. apply NoDup_cons in Hnd as [Hk' Hnd]. simpl.
  apply elem_of_cons in Hin as [[= -> ->]|Hin].
  - rewrite bool_decide_eq_true_2 by reflexivity. reflexivity.
  - destruct (bool_decide_reflect (k' = k)) as [->|Hne]; [|auto].
    exfalso. apply Hk'. apply list_elem_of_fmap. exists (k, vs). auto.
Qed.

Lemma as_nums_length (vs : list (option pyval)) :
  forall ns, as_nums vs = Ok ns -> length ns = length vs.
Proof.
  induction vs as [|v vs IH]; intros ns H; simpl in H.
  - injection H as <-. reflexivity.
  - inv_bind H. inv_bind H. injection H as <-. simpl. f_equal. eauto.
Qed.

(** A row carries the key and the number of samples of its column. *)
Lemma row_of_column (start_time stop_time : Z)
    (column : (string * string) * list (Z * option pyval)) (row : stats) :
  row_of start_time stop_time column row ->
  (st_address row, st_unit row) = column.1 /\ st_samples row = length column.2.
Proof.
  intros (samples & Hnums & Hne & Hrow).
  destruct (column_stats_row column.1 samples start_time stop_time Hne)
    as (row' & m & dev & Hrow' & _ & _ & Haddr & Hunit & Hsamples & _).
  rewrite Hrow in Hrow'. injection Hrow' as <-.
  rewrite Haddr, Hunit, Hsamples, (as_nums_length _ _ Hnums), length_map.
  destruct column as [[a u] vs]. auto.
Qed.

(** X14.  The rows that [statistics] returns stand for the columns of the
    batch one to one: no two rows have the same address and unit, the
    sample count of a row is the number of messages of the batch whose
    address and unit, cut at the first parenthesis and stripped, are those
    of the row, it is never zero, and every message that is not the absent
    triple is counted in some row. *)
Theorem statistics_groups (msgs : list message) (start_time stop_time : Z)
    (rws : list stats) :
  statistics msgs start_time stop_time = Ok rws ->
  NoDup (map (fun r => (st_address r, st_unit r)) rws) /\
  (forall r, r ∈ rws ->
     (0 < st_samples r)%nat /\
     st_samples r =
       length (filter (fun m => column_of m = Some (st_address r, st_unit r)) msgs)) /\
  (forall m k, m ∈ msgs -> column_of m = Some k ->
     k ∈ map (fun r => (st_address r, st_unit r)) rws).
Proof.
  intros H. unfold statistics in H. inv_bind H. rename a into columns.
  assert (Hne : Forall (fun c : (string * string) * list (Z * option pyval) => c.2 <> [])
                  columns)
    by (eapply collect_nonempty; [constructor|exact Hstep]).
  pose proof (rows_of_columns start_time stop_time columns rws Hne H) as Hrows.
  assert (Hkeys : map (fun r => (st_address r, st_unit r)) rws = map fst columns).
  { clear -Hrows. induction Hrows as [|c r columns rws Hr _ IH]; [reflexivity|].
    simpl. rewrite IH. f_equal. apply (row_of_column _ _ _ _ Hr). }
  pose proof (collect_NoDup msgs [] columns Hstep (NoDup_nil_2 (A:=string * string))) as Hnd.
  rewrite Hkeys. split; [exact Hnd|]. split.
  - intros r Hr.
    apply list_elem_of_lookup in Hr as [i Hi].
    destruct (Forall2_lookup_r _ _ _ _ _ Hrows Hi) as (c & Hc & Hrc).
    destruct (row_of_column _ _ _ _ Hrc) as [Hk Hn].
    pose proof (Forall_lookup_1 _ _ _ _ Hne Hc) as Hcne.
    destruct c as [k vs]. cbn [fst snd] in *.
    split; [rewrite Hn; destruct vs; [congruence|simpl; lia]|].
    rewrite Hk, Hn.
    rewrite <- (samples_of_lookup columns k vs Hnd).
    + rewrite (collect_samples msgs [] columns k Hstep). reflexivity.
    + eapply list_elem_of_lookup_2, Hc.
  - intros m k Hm Hk. exact (collect_keys msgs [] columns m k Hstep Hm Hk).
Qed.

(** The four readings of one meter in volts make one row of four samples. *)
Lemma statistics_groups_witness :
  exists rws,
    statistics four_samples 0 second = Ok rws /\
    NoDup (map (fun r => (st_address r, st_unit r)) rws) /\
    map st_samples rws = [4%nat].
Proof.
  destruct (statistics four_samples 0 second) as [rws|e] eqn:H;
    [|vm_compute in H; discriminate H].
  exists rws. split; [reflexivity|]. split.
  - apply (statistics_groups four_samples 0 second rws H).
  - vm_compute in H. injection H as <-. reflexivity.
Defined.

(** ** Units and columns *)

Lemma modes_split : modes = (measure_modes ++ annotation_modes)%list.
Proof. reflexivity. Qed.

Lemma append_assoc (s t u : string) : s +:+ t +:+ u = (s +:+ t) +:+ u.
Proof. induction s as [|c s IH]; [reflexivity|]. rewrite !append_cons, IH. reflexivity. Qed.

Lemma concat_cons2 (sep x y : string) (l : list string) :
  String.concat sep (x :: y :: l) = x +:+ sep +:+ String.concat sep (y :: l).
Proof. reflexivity. Qed.

Lemma concat_app_cons (sep : string) (a : list string) (b : string) (l : list string) :
  a <> [] ->
  String.concat sep (a ++ b :: l) = String.concat sep a +:+ sep +:+ String.concat sep (b :: l).
Proof.
  induction a as [|x a IH]; [congruence|]. intros _.
  destruct a as [|y a].
  - reflexivity.
  - change ((x :: y :: a) ++ b :: l)%list with (x :: y :: (a ++ b :: l))%list.
    rewrite !concat_cons2.
    change (y :: (a ++ b :: l))%list with ((y :: a) ++ b :: l)%list.
    rewrite IH by discriminate. rewrite <- !append_assoc. reflexivity.
Qed.

Lemma plain_app (s t : string) : plain s = true -> plain t = true -> plain (s +:+ t) = true.
Proof.
  intros Hs Ht. induction s as [|c s IH]; [exact Ht|]. rewrite append_cons.
  simpl in *. apply andb_true_iff in Hs as [Hc Hs]. rewrite Hc. auto.
Qed.

Lemma before_paren_plain (s t : string) :
  plain s = true -> before_paren (s +:+ t) = s +:+ before_paren t.
Proof.
  intros Hs. induction s as [|c s IH]; [reflexivity|]. rewrite !append_cons.
  simpl in *. apply andb_true_iff in Hs as [Hc Hs]. apply andb_true_iff in Hc as [_ Hc].
  apply negb_true_iff in Hc. rewrite Hc, (IH Hs). reflexivity.
Qed.

Lemma rstrip_app (s t : string) : rstrip t <> "" -> rstrip (s +:+ t) = s +:+ rstrip t.
Proof.
  intros Ht. induction s as [|c s IH]; [reflexivity|]. rewrite !append_cons. simpl.
  rewrite IH. destruct (s +:+ rstrip t) eqn:Hs; [|reflexivity].
  destruct s; [|rewrite append_cons in Hs; discriminate Hs].
  rewrite append_nil in Hs. contradiction.
Qed.

Lemma rstrip_plain (s : string) : plain s = true -> rstrip s = s.
Proof.
  induction s as [|c s IH]; [reflexivity|]. simpl. intros H.
  apply andb_true_iff in H as [Hc Hs]. apply andb_true_iff in Hc as [Hc _].
  apply negb_true_iff in Hc. rewrite (IH Hs). destruct s; [rewrite Hc|]; reflexivity.
Qed.

Lemma rstrip_app_space (s : string) : rstrip (s +:+ " ") = rstrip s.
Proof.
  induction s as [|c s IH]; [reflexivity|]. rewrite append_cons. simpl. rewrite IH.
  reflexivity.
Qed.

Lemma lstrip_word (s t : string) : word s = true -> lstrip (s +:+ t) = s +:+ t.
Proof.
  destruct s as [|c s]; [discriminate|]. simpl. intros H.
  apply andb_true_iff in H as [Hc _]. apply andb_true_iff in Hc as [Hc _].
  apply negb_true_iff in Hc. rewrite append_cons. simpl. rewrite Hc. reflexivity.
Qed.

(** Words joined by single spaces: [strip] and the cut at a parenthesis
    leave them as they are. *)
Lemma concat_words (l : list string) :
  Forall (fun s => word s = true) l ->
  let w := String.concat " " l in
  rstrip w = w /\ (l <> [] -> w <> "") /\
  (forall t, lstrip (w +:+ t) = if decide (l = []) then lstrip t else w +:+ t) /\
  (forall t, before_paren (w +:+ t) = w +:+ before_paren t).
Proof.
  induction 1 as [|x l Hx Hl IH]; cbv zeta.
  - simpl. repeat split; congruence.
  - assert (Hp : plain x = true) by (destruct x; [discriminate|exact Hx]).
    assert (Hne : x <> "") by (destruct x; [discriminate|congruence]).
    destruct l as [|y l].
    + simpl. split; [apply rstrip_plain, Hp|]. split; [auto|]. split.
      * intros t. apply lstrip_word, Hx.
      * intros t. apply before_paren_plain, Hp.
    + cbv zeta in IH. destruct IH as (Hr & Hn & _ & Hb).
      rewrite concat_cons2. set (w := String.concat " " (y :: l)) in *.
      specialize (Hn ltac:(discriminate)).
      split; [|split; [|split]].
      * rewrite rstrip_app; [|rewrite rstrip_app; rewrite Hr; [|exact Hn]].
        -- rewrite rstrip_app, Hr; [reflexivity|rewrite Hr; exact Hn].
        -- destruct w; [congruence|discriminate].
      * intros _. destruct x; [congruence|discriminate].
      * intros t. rewrite <- append_assoc. apply lstrip_word, Hx.
      * intros t. rewrite <- !append_assoc.
        rewrite before_paren_plain by exact Hp.
        change (" " +:+ w +:+ t) with (String " " (w +:+ t)).
        change (before_paren (String " " (w +:+ t)))
          with (String " " (before_paren (w +:+ t))).
        rewrite Hb. reflexivity.
Qed.

Lemma Forall_filter_keep {A} (P : A -> Prop) (Q : A -> Prop) `{forall x, Decision (Q x)}
    (l : list A) :
  Forall P l -> Forall P (filter Q l).
Proof.
  induction 1 as [|x l Hx _ IH]; [constructor|]. rewrite filter_cons.
  destruct (decide (Q x)); [constructor|]; assumption.
Qed.

Lemma concat_paren (b : string) (l : list string) :
  (exists r, b = String "(" r) -> before_paren (String.concat " " (b :: l)) = "".
Proof. intros [r ->]. destruct l; reflexivity. Qed.

(** X15.  The column unit that [statistics] takes from a reading made by
    [lcd_to_units] is the reading's measurement modes alone: cutting at the
    first parenthesis and stripping removes the annotations [(auto)],
    [(hold)], [(relative)], [(maximum)], [(minimum)] and [(low_batt)], so
    two readings that differ in annotations only fall into one column. *)
Theorem column_unit_of_reading (lcd : lcd_t) :
  py_strip (before_paren (lcd_to_units lcd)) =
  String.concat " " (filter (fun m => has lcd m = true) measure_modes).
Proof.
  unfold lcd_to_units. rewrite modes_split, filter_app.
  set (a := filter (fun m => has lcd m = true) measure_modes).
  set (b := filter (fun m => has lcd m = true) annotation_modes).
  assert (Ha : Forall (fun s => word s = true) a).
  { apply Forall_filter_keep. repeat constructor. }
  assert (Hb : Forall (fun s => exists r, s = String "(" r) b).
  { apply Forall_filter_keep. repeat constructor; eexists; reflexivity. }
  destruct (concat_words a Ha) as (Hr & Hn & Hl & Hp).
  unfold py_strip. destruct b as [|x b].
  - rewrite app_nil_r.
    rewrite <- (append_empty_r (String.concat " " a)) at 1.
    rewrite Hp. change (before_paren "") with "". rewrite Hl.
    destruct (decide (a = [])) as [->|_]; [reflexivity|].
    rewrite append_empty_r. exact Hr.
  - apply Forall_cons in Hb as [Hx _].
    destruct (decide (a = [])) as [Hnil|Hne].
    + rewrite Hnil. cbn [app]. rewrite concat_paren by exact Hx. reflexivity.
    + rewrite concat_app_cons by exact Hne.
      rewrite Hp.
      change (before_paren (" " +:+ String.concat " " (x :: b)))
        with (String " " (before_paren (String.concat " " (x :: b)))).
      rewrite concat_paren by exact Hx. rewrite Hl.
      destruct (decide (a = [])) as [?|_]; [contradiction|].
      change (String " " "") with " ". rewrite rstrip_app_space. exact Hr.
Qed.

(** ** [find_meters] *)

Lemma name_differs_named (known : known_device) (d : ble_device) (n : string) :
  ble_name d = Some n -> name_differs known d = Ok (negb (known_name_of n known)).
Proof.
  intros Hn. unfold name_differs, known_name_of. rewrite Hn.
  destruct (endswith_star (known_name known)); reflexivity.
Qed.

Lemma name_differs_match (known : known_device) (d : ble_device) :
  name_differs known d = Ok false ->
  exists n, ble_name d = Some n /\ known_name_of n known = true.
Proof.
  unfold name_differs, known_name_of.
  destruct (endswith_star (known_name known)), (ble_name d) as [n|];
    try discriminate; intros [= H]; exists n; split; try reflexivity;
    apply negb_false_iff, H.
Qed.

(** One device against a list of entries: the device is yielded at most
    once, for an entry that accepts its name and whose decoder exists;
    without the address test it is in [found] afterwards whenever some
    entry accepts its name. *)
Lemma try_known_inv (address_check : bool) (d : ble_device) :
  forall knowns acc acc',
    try_known address_check d knowns acc = Ok acc' ->
    (acc' = acc \/
     exists k dec n,
       k ∈ knowns /\ ble_name d = Some n /\ known_name_of n k = true /\
       make_decoder (known_decoder k) = Ok dec /\ (ble_id d ∉ fst acc) /\
       acc' = (ble_id d :: acc.1, (acc.2 ++ [Meter d dec (known_decoder k)])%list)) /\
    (address_check = false ->
     forall n, ble_name d = Some n ->
       (exists k, k ∈ knowns /\ known_name_of n k = true) ->
       ble_id d ∈ acc'.1).
Proof.
  induction knowns as [|known rest IH]; intros acc acc' H; simpl in H.
  - injection H as <-. split; [left; reflexivity|].
    intros _ n _ (k & Hk & _). inversion Hk.
  - assert (Hskip : try_known address_check d rest acc = Ok acc' ->
              (address_check = true \/ name_differs known d = Ok true \/
               ble_id d ∈ acc.1) ->
              (acc' = acc \/
               exists k dec n,
                 k ∈ known :: rest /\ ble_name d = Some n /\ known_name_of n k = true /\
                 make_decoder (known_decoder k) = Ok dec /\ (ble_id d ∉ fst acc) /\
                 acc' = (ble_id d :: acc.1,
                         (acc.2 ++ [Meter d dec (known_decoder k)])%list)) /\
              (address_check = false ->
               forall n, ble_name d = Some n ->
                 (exists k, k ∈ known :: rest /\ known_name_of n k = true) ->
                 ble_id d ∈ acc'.1)).
    { intros Hrest Hwhy. destruct (IH acc acc' Hrest) as [Hacc Hin]. split.
      - destruct Hacc as [Heq|(k & dec & n & Hk & Hrest')]; [left; exact Heq|].
        right. exists k, dec, n. split; [apply list_elem_of_further, Hk|exact Hrest'].
      - intros Hchk n Hn (k & Hk & Hmatch).
        apply elem_of_cons in Hk as [->|Hk]; [|apply (Hin Hchk n Hn); eauto].
        destruct Hwhy as [Hwhy|[Hwhy|Hwhy]].
        + congruence.
        + rewrite (name_differs_named _ _ _ Hn), Hmatch in Hwhy. discriminate Hwhy.
        + destruct Hacc as [Heq|(? & ? & ? & _ & _ & _ & _ & _ & Heq)]; rewrite Heq;
            [exact Hwhy|apply list_elem_of_further, Hwhy]. }
    destruct (address_check && negb (startswith (ble_address d) (known_prefix known)))
      eqn:Hpre.
    { apply (Hskip H). left. apply andb_true_iff in Hpre as [Hc _]. exact Hc. }
    destruct (name_differs known d) as [[|]|e] eqn:Hname; try discriminate H.
    { apply (Hskip H). auto. }
    rewrite bind_Ok_l in H.
    destruct (bool_decide_reflect (ble_id d ∈ acc.1)) as [Hfound|Hfound].
    { apply (Hskip H). auto. }
    destruct (make_decoder (known_decoder known)) as [dec|e] eqn:Hdec; [|discriminate H].
    rewrite bind_Ok_l in H.
    destruct (name_differs_match _ _ Hname) as (n & Hn & Hmatch).
    destruct (IH _ _ H) as [[Heq|(? & ? & ? & _ & _ & _ & _ & Hnot & _)] _].
    + rewrite Heq. split.
      * right. exists known, dec, n. repeat split; auto. apply list_elem_of_here.
      * intros _ _ _ _. apply list_elem_of_here.
    + exfalso. apply Hnot. apply list_elem_of_here.
Qed.

Lemma try_known_found_inv (devices : list ble_device) (address_check : bool)
    (d : ble_device) (acc acc' : list nat * list meter) :
  d ∈ devices ->
  found_inv devices acc ->
  try_known address_check d known_devices acc = Ok acc' ->
  found_inv devices acc' /\ (forall id, id ∈ fst acc -> id ∈ fst acc').
Proof.
  intros Hd (Hfound & Hnd & Hok) H.
  destruct (try_known_inv _ _ _ _ _ H)
    as [[->|(k & dec & n & Hk & Hn & Hmatch & Hdec & Hnew & ->)] _].
  { split; [exact (conj Hfound (conj Hnd Hok))|auto]. }
  split; [|intros id Hid; apply list_elem_of_further, Hid].
  split; [|split]; cbn [fst snd].
  - intros id. rewrite elem_of_cons, Hfound. split.
    + intros [->|(m & Hm & Hid)].
      * eexists. split; [apply elem_of_app; right; apply list_elem_of_here|reflexivity].
      * exists m. split; [apply elem_of_app; left; exact Hm|exact Hid].
    + intros (m & Hm & Hid). apply elem_of_app in Hm as [Hm|Hm].
      * right. eauto.
      * apply list_elem_of_singleton in Hm as ->. left. symmetry. exact Hid.
  - rewrite map_app. apply NoDup_app. split; [exact Hnd|]. split; [|apply NoDup_singleton].
    intros id Hid Hid'. apply list_elem_of_singleton in Hid' as ->.
    apply Hnew, Hfound. apply list_elem_of_fmap in Hid as (m & Hm & Hin). eauto.
  - apply Forall_app. split; [exact Hok|]. apply Forall_singleton.
    split; [exact Hd|]. exists n, k. auto.
Qed.

Lemma scan_pass_cons (address_check : bool) (d : ble_device) (devs : list ble_device)
    (acc : list nat * list meter) :
  scan_pass address_check (d :: devs) acc =
  (acc1 ← try_known address_check d known_devices acc;
   scan_pass address_check devs acc1).
Proof. reflexivity. Qed.

(** A pass over the devices keeps the invariant, only adds to [found], and
    handles every device without an exception. *)
Lemma scan_pass_found_inv (devices : list ble_device) (address_check : bool) :
  forall devs acc acc',
    (forall d, d ∈ devs -> d ∈ devices) ->
    found_inv devices acc ->
    scan_pass address_check devs acc = Ok acc' ->
    found_inv devices acc' /\
    (forall id, id ∈ fst acc -> id ∈ fst acc') /\
    (forall d, d ∈ devs ->
       exists a a',
         found_inv devices a' /\ (forall id, id ∈ fst a' -> id ∈ fst acc') /\
         try_known address_check d known_devices a = Ok a').
Proof.
  induction devs as [|d devs IH]; intros acc acc' Hsub Hinv H.
  - injection H as <-. split; [exact Hinv|]. split; [auto|]. intros d Hd. inversion Hd.
  - rewrite scan_pass_cons in H.
    destruct (try_known address_check d known_devices acc) as [acc1|e] eqn:Hstep;
      [|discriminate H].
    rewrite bind_Ok_l in H.
    destruct (try_known_found_inv devices address_check d acc acc1) as [Hinv1 Hmono1];
      [apply Hsub, list_elem_of_here|exact Hinv|exact Hstep|].
    destruct (IH acc1 acc') as (Hinv' & Hmono & Heach);
      [intros x Hx; apply Hsub, list_elem_of_further, Hx|exact Hinv1|exact H|].
    split; [exact Hinv'|]. split; [auto|].
    intros x Hx. apply elem_of_cons in Hx as [->|Hx]; [|auto].
    exists acc, acc1. auto.
Qed.

Lemma found_inv_nil (devices : list ble_device) : found_inv devices ([], []).
Proof.
  split; [|split]; cbn [fst snd].
  - intros id. split; [intros H; inversion H|intros (m & H & _); inversion H].
  - constructor.
  - constructor.
Qed.

(** X16.  The meters that [find_meters] yields: each is a scanned device
    whose name an entry of [known_devices] accepts, with the decoder of
    that entry; no device is yielded twice; and every scanned device whose
    name some entry accepts is yielded, whatever its address, since the
    second pass leaves the address prefix out. *)
Theorem find_meters_result (devices : list ble_device) (meters : list meter) :
  find_meters devices = Ok meters ->
  NoDup (map (fun m => ble_id (meter_d m)) meters) /\
  Forall (meter_ok devices) meters /\
  (forall d n k,
     d ∈ devices -> ble_name d = Some n ->
     k ∈ known_devices -> known_name_of n k = true ->
     exists m, m ∈ meters /\ ble_id (meter_d m) = ble_id d).
Proof.
  unfold find_meters. intros H.
  destruct (scan_pass true devices ([], [])) as [acc1|e] eqn:Hstep; [|discriminate H].
  rewrite bind_Ok_l in H.
  destruct (scan_pass false devices acc1) as [acc2|e] eqn:Hstep0; [|discriminate H].
  rewrite bind_Ok_l in H. injection H as <-.
  destruct (scan_pass_found_inv devices true devices ([], []) acc1) as (Hinv1 & _ & _);
    [auto|apply found_inv_nil|exact Hstep|].
  destruct (scan_pass_found_inv devices false devices acc1 acc2)
    as ((Hfound & Hnd & Hok) & _ & Heach); [auto|exact Hinv1|exact Hstep0|].
  split; [exact Hnd|]. split; [exact Hok|].
  intros d n k Hd Hn Hk Hmatch.
  destruct (Heach d Hd) as (a & a' & _ & Hmono & Htry).
  apply Hfound, Hmono.
  apply (proj2 (try_known_inv _ _ _ _ _ Htry) eq_refl n Hn). eauto.
Qed.

(** Two scanned devices, the second with an address that no entry lists. *)
Lemma find_meters_result_witness :
  let devices := [BleDevice 0 "98:7B:F3:00:00:01" (Some "bde spp dev");
                  BleDevice 1 "AA:BB:CC:00:00:02" (Some "LuxMeter")] in
  exists meters,
    find_meters devices = Ok meters /\
    map meter_model meters = ["TS04"; "WT81B"] /\
    NoDup (map (fun m => ble_id (meter_d m)) meters).
Proof.
  intros devices.
  destruct (find_meters devices) as [meters|e] eqn:H; [|vm_compute in H; discriminate H].
  exists meters. split; [reflexivity|]. split.
  - vm_compute in H. injection H as <-. reflexivity.
  - apply (find_meters_result devices meters H).
Defined.

Lemma try_known_skip (d : ble_device) (known : known_device) (rest : list known_device)
    (acc : list nat * list meter) :
  name_differs known d = Ok true ->
  try_known false d (known :: rest) acc = try_known false d rest acc.
Proof. intros H. cbn [try_known andb]. rewrite H. reflexivity. Qed.

Lemma try_known_raise (d : ble_device) (known : known_device) (rest : list known_device)
    (acc : list nat * list meter) (e : pyexc) :
  name_differs known d = Raise e ->
  try_known false d (known :: rest) acc = Raise e.
Proof. intros H. cbn [try_known andb]. rewrite H. reflexivity. Qed.

(** A device without a name stops the pass without the address test: the
    first entry with a wildcard calls [startswith] on [None]. *)
Lemma try_known_unnamed (d : ble_device) (acc : list nat * list meter) :
  ble_name d = None -> try_known false d known_devices acc = Raise AttributeError.
Proof.
  intros Hn. unfold known_devices.
  repeat (rewrite try_known_skip by (unfold name_differs; rewrite Hn; reflexivity)).
  apply try_known_raise. unfold name_differs. rewrite Hn. reflexivity.
Qed.

(** Only the entry of [FS9721-LP3] accepts that name, and its decoder name
    is not one that [make_decoder] knows. *)
Lemma FS9721_no_decoder (k : known_device) :
  k ∈ known_devices -> known_name_of "FS9721-LP3" k = true ->
  make_decoder (known_decoder k) = Raise KeyError.
Proof.
  intros Hk. unfold known_devices in Hk.
  repeat (apply elem_of_cons in Hk as [->|Hk];
          [vm_compute; first [discriminate|reflexivity]|]).
  inversion Hk.
Qed.

(** Every other name that an entry accepts has a decoder. *)
Lemma known_decoder_exists (n : string) (k : known_device) :
  String.eqb n "FS9721-LP3" = false ->
  k ∈ known_devices -> known_name_of n k = true ->
  is_ok (make_decoder (known_decoder k)) = true.
Proof.
  intros Hn Hk. unfold known_devices in Hk.
  repeat (apply elem_of_cons in Hk as [->|Hk];
          [first [intros _; reflexivity
                 |unfold known_name_of; cbn [known_name endswith_star Ascii.eqb Bool.eqb];
                  rewrite Hn; discriminate]|]).
  inversion Hk.
Qed.

(** A device with a name whose entries all have a decoder is handled
    without an exception. *)
Lemma try_known_total (address_check : bool) (d : ble_device) (n : string) :
  ble_name d = Some n ->
  forall knowns acc,
    (forall k, k ∈ knowns -> known_name_of n k = true ->
       is_ok (make_decoder (known_decoder k)) = true) ->
    exists acc', try_known address_check d knowns acc = Ok acc'.
Proof.
  intros Hn. induction knowns as [|known rest IH]; intros acc Hdec; cbn [try_known].
  - eauto.
  - assert (Hrest : forall acc0, exists acc', try_known address_check d rest acc0 = Ok acc').
    { intros acc0. apply IH. intros k Hk. apply Hdec, list_elem_of_further, Hk. }
    destruct (address_check && negb _); [apply Hrest|].
    rewrite (name_differs_named _ _ _ Hn), bind_Ok_l.
    destruct (known_name_of n known) eqn:Hmatch; cbn [negb]; [|apply Hrest].
    destruct (bool_decide _); [apply Hrest|].
    specialize (Hdec known (list_elem_of_here _ _) Hmatch).
    destruct (make_decoder (known_decoder known)); [|discriminate Hdec].
    rewrite bind_Ok_l. apply Hrest.
Qed.

Lemma scan_pass_total (address_check : bool) :
  forall devs acc,
    forallb passable devs = true ->
    exists acc', scan_pass address_check devs acc = Ok acc'.
Proof.
  induction devs as [|d devs IH]; intros acc Hall.
  - simpl. eauto.
  - cbn [forallb] in Hall. apply andb_true_iff in Hall as [Hd Hall].
    rewrite scan_pass_cons. unfold passable in Hd.
    destruct (ble_name d) as [n|] eqn:Hn; [|discriminate Hd].
    apply negb_true_iff in Hd.
    destruct (try_known_total address_check d n Hn known_devices acc) as [acc1 ->].
    { intros k. apply known_decoder_exists, Hd. }
    rewrite bind_Ok_l. apply IH, Hall.
Qed.

(** X17.  [list(find_meters(devices))] comes to its end exactly when every
    scanned device has a name and none is named [FS9721-LP3].  A device
    without a name meets [d.name.startswith] in the second pass at the
    latest, and the entry of [FS9721-LP3] names the decoder [HP90EPD], for
    which [make_decoder], whose key is [90EPD], raises [KeyError]. *)
Theorem find_meters_passable (devices : list ble_device) :
  NoDup (map ble_id devices) ->
  (is_ok (find_meters devices) = true <-> forallb passable devices = true).
Proof.
  intros Hids. split.
  - intros H. unfold find_meters in H.
    destruct (scan_pass true devices ([], [])) as [acc1|e] eqn:H1; [|discriminate H].
    rewrite bind_Ok_l in H.
    destruct (scan_pass false devices acc1) as [acc2|e] eqn:H2; [|discriminate H].
    clear H.
    destruct (scan_pass_found_inv devices true devices ([], []) acc1) as (Hinv1 & _ & _);
      [auto|apply found_inv_nil|exact H1|].
    destruct (scan_pass_found_inv devices false devices acc1 acc2) as (_ & _ & Heach);
      [auto|exact Hinv1|exact H2|].
    apply forallb_forall. intros d Hd. apply list_elem_of_In in Hd.
    destruct (Heach d Hd) as (a & a' & (Hfound & _ & Hok) & _ & Htry).
    unfold passable. destruct (ble_name d) as [n|] eqn:Hn.
    + destruct (String.eqb_spec n "FS9721-LP3") as [->|_]; [|reflexivity].
      exfalso.
      assert (Hin : ble_id d ∈ fst a').
      { apply (proj2 (try_known_inv _ _ _ _ _ Htry) eq_refl _ Hn).
        exists (Known "01:B4:05:" "FS9721-LP3" "HP90EPD").
        split; [|reflexivity]. unfold known_devices.
        apply list_elem_of_further, list_elem_of_here. }
      apply Hfound in Hin as (m & Hm & Hid).
      rewrite Forall_forall in Hok.
      destruct (Hok m Hm) as (Hmd & n' & k & Hn' & Hk & Hmatch & _ & Hdec).
      assert (Heq : meter_d m = d).
      { apply list_elem_of_lookup in Hmd as [i Hi]. apply list_elem_of_lookup in Hd as [j Hj].
        assert (i = j); [|congruence].
        eapply NoDup_lookup; [exact Hids| |];
          rewrite list_lookup_fmap; [rewrite Hi|rewrite Hj]; simpl;
          first [reflexivity|congruence]. }
      rewrite Heq, Hn in Hn'. injection Hn' as <-.
      rewrite (FS9721_no_decoder k Hk Hmatch) in Hdec. discriminate Hdec.
    + rewrite (try_known_unnamed d a Hn) in Htry. discriminate Htry.
  - intros Hall. unfold find_meters.
    destruct (scan_pass_total true devices ([], []) Hall) as [acc1 ->].
    rewrite bind_Ok_l.
    destruct (scan_pass_total false devices acc1 Hall) as [acc2 ->].
    reflexivity.
Qed.

(** A scan of two meters, one of them at an address that no entry lists. *)
Lemma find_meters_passable_witness :
  let devices := [BleDevice 0 "98:7B:F3:00:00:01" (Some "bde spp dev");
                  BleDevice 1 "AA:BB:CC:00:00:02" (Some "LuxMeter")] in
  NoDup (map ble_id devices) /\
  forallb passable devices = true /\
  is_ok (find_meters devices) = true.
Proof.
  intros devices.
  assert (Hids : NoDup (map ble_id devices)).
  { apply NoDup_cons. split; [|apply NoDup_singleton].
    intros H. apply list_elem_of_singleton in H. discriminate H. }
  split; [exact Hids|]. split; [reflexivity|].
  apply (proj2 (find_meters_passable devices Hids)). reflexivity.
Defined.

(** ** [BT7200_APP_Decoder]: frames that lost or gained a byte *)

Lemma match2_wrong_length (data : list Z) (pat : string) :
  String.length (remove_spaces pat) <> (length data * 2)%nat -> match2 data pat = false.
Proof.
  intros H. unfold match2. cbv zeta.
  destruct (Nat.eqb_spec (String.length (remove_spaces pat)) (length data * 2));
    [contradiction|reflexivity].
Qed.

Lemma match2_right_length (data : list Z) (pat : string) :
  String.length (remove_spaces pat) = (length data * 2)%nat ->
  match2 data pat = match2_loop data (remove_spaces pat).
Proof. intros H. unfold match2. cbv zeta. rewrite H, Nat.eqb_refl. reflexivity. Qed.

Lemma match2_loop_app (data more : list Z) :
  forall pat1 pat2,
    String.length pat1 = (length data * 2)%nat ->
    match2_loop (data ++ more) (pat1 +:+ pat2) =
    match2_loop data pat1 && match2_loop more pat2.
Proof.
  induction data as [|d data IH]; intros pat1 pat2 Hlen.
  - destruct pat1; [|discriminate Hlen]. simpl. destruct more; reflexivity.
  - destruct pat1 as [|p1 [|p2 pat1]]; try discriminate Hlen.
    simpl in Hlen. rewrite !append_cons. cbn [app match2_loop].
    rewrite IH by lia.
    destruct (negb (nibble_ok p1 _)); [reflexivity|].
    destruct (negb (nibble_ok p2 _)); reflexivity.
Qed.

(** X18.  [BT7200_APP_Decoder.decode] accepts three shapes of frame: the
    full frame of fifteen bytes, which it takes as it is; the frame that
    lost its last byte, to which it appends [0xF0]; and the frame with one
    byte in front whose high nibble is F, which it drops.  Nothing else
    passes the frame test. *)
Theorem BT7200_recovery (data : list Z) :
  let full := "1.2.3.4.5.6.7.8.9.A.B.C.D.E.F." in
  let short := "1.2.3.4.5.6.7.8.9.A.B.C.D.E." in
  let long := "F.1.2.3.4.5.6.7.8.9.A.B.C.D.E.F." in
  (match2 data full = true -> recover_BT7200 data = data) /\
  (match2 data short = true -> recover_BT7200 data = (data ++ [0xF0])%list) /\
  (match2 data long = true -> recover_BT7200 data = drop 1 data) /\
  (match2 (recover_BT7200 data) full = true <->
   match2 data full = true \/ match2 data short = true \/ match2 data long = true).
Proof.
  intros full short long.
  assert (Hfull : match2 data full = true ->
            match2 data short = false /\ match2 data long = false).
  { intros H. apply match2_length in H. change (String.length _) with 30%nat in H.
    split; apply match2_wrong_length; change (String.length _) with 28%nat
      || change (String.length _) with 32%nat; lia. }
  assert (Hshort : match2 data short = true ->
            match2 (data ++ [0xF0]) long = false /\ match2 (data ++ [0xF0]) full = true).
  { intros H. pose proof (match2_length _ _ H) as Hlen.
    change (String.length _) with 28%nat in Hlen.
    split.
    - apply match2_wrong_length. rewrite length_app. change (String.length _) with 32%nat.
      simpl. lia.
    - rewrite match2_right_length in H
        by (change (String.length _) with 28%nat; lia).
      rewrite match2_right_length
        by (rewrite length_app; change (String.length _) with 30%nat; simpl; lia).
      assert (Hpat : remove_spaces full = remove_spaces short +:+ "F.")
        by (vm_compute; reflexivity).
      rewrite Hpat.
      rewrite match2_loop_app by (change (String.length _) with 28%nat; lia).
      rewrite H. reflexivity. }
  assert (Hlong : match2 data long = true ->
            match2 data short = false /\ match2 (drop 1 data) full = true).
  { intros H. pose proof (match2_length _ _ H) as Hlen.
    change (String.length _) with 32%nat in Hlen.
    split; [apply match2_wrong_length; change (String.length _) with 28%nat; lia|].
    destruct data as [|d data]; [discriminate Hlen|]. cbn [length] in Hlen.
    rewrite match2_right_length in H
      by (change (String.length _) with 32%nat; cbn [length]; lia).
    change (drop 1 (d :: data)) with data.
    rewrite match2_right_length by (change (String.length _) with 30%nat; lia).
    assert (Hpat : remove_spaces long = String "F" (String "." (remove_spaces full)))
      by (vm_compute; reflexivity).
    rewrite Hpat in H.
    cbn [match2_loop] in H.
    destruct (negb (nibble_ok "F" _)); [discriminate H|].
    destruct (negb (nibble_ok "." _)); [discriminate H|]. exact H. }
  subst full short long. unfold recover_BT7200. cbv zeta.
  split; [|split; [|split]].
  - intros H. destruct (Hfull H) as [H1 H2]. rewrite H1. cbv iota. rewrite H2. reflexivity.
  - intros H. rewrite H. cbv iota. destruct (Hshort H) as [H1 _]. rewrite H1. reflexivity.
  - intros H. destruct (Hlong H) as [H1 _]. rewrite H1. cbv iota. rewrite H. reflexivity.
  - split.
    + destruct (match2 data "1.2.3.4.5.6.7.8.9.A.B.C.D.E.") eqn:H1;
        [intros _; right; left; reflexivity|]. cbv iota.
      destruct (match2 data "F.1.2.3.4.5.6.7.8.9.A.B.C.D.E.F.") eqn:H2;
        [intros _; right; right; reflexivity|intros H; left; exact H].
    + intros [H|[H|H]].
      * destruct (Hfull H) as [H1 H2]. rewrite H1. cbv iota. rewrite H2. exact H.
      * rewrite H. cbv iota. destruct (Hshort H) as [H1 H2]. rewrite H1. exact H2.
      * destruct (Hlong H) as [H1 H2]. rewrite H1. cbv iota. rewrite H. exact H2.
Qed.

(** A frame of fourteen bytes: the last position is filled in. *)
Lemma BT7200_recovery_witness :
  let data := [0x10; 0x20; 0x30; 0x40; 0x50; 0x60; 0x70; 0x80; 0x90; 0xA0; 0xB0;
               0xC0; 0xD0; 0xE0] in
  match2 data "1.2.3.4.5.6.7.8.9.A.B.C.D.E." = true /\
  recover_BT7200 data = (data ++ [0xF0])%list.
Proof.
  intros data. split; [vm_compute; reflexivity|].
  apply (proj1 (proj2 (BT7200_recovery data))). vm_compute. reflexivity.
Defined.

(** ** [HP90EPD_Decoder]: the two packets of a reading *)



(** ** The flag loop of [decode_lcd] *)

(** [data[byte] & (1<<bit)] is not zero. *)
Lemma read_flags_cons (flag : string) (byte : nat) (bit : Z) (fl : list flagspec)
    (data : list Z) (lcd : lcd_t) (b : Z) :
  data !! byte = Some b ->
  read_flags (@cons flagspec (flag, byte, bit) fl) data lcd =
  read_flags fl data
    (if negb (Z.land b (Z.shiftl 1 bit) =? 0) then set_flag lcd flag else lcd).
Proof. intros H. cbn [read_flags]. rewrite (getitem_lookup _ _ _ H). reflexivity. Qed.

(** X20.  The flag loop of [decode_lcd] fails, with [IndexError], exactly
    when a flag names a byte beyond the frame.  Otherwise a name is a key
    of the result exactly when it was a key before or some flag of that
    name has its bit set in the frame: flags listed more than once, as
    [milli] is for [AN9002], are joined by or, and no flag is ever taken
    back.  Every key the loop adds has the value [True]. *)
Theorem read_flags_spec (fl : list flagspec) (data : list Z) :
  forall lcd,
    (is_ok (read_flags fl data lcd) = true <->
     Forall (fun f : flagspec => (f.1.2 < length data)%nat) fl) /\
    (forall e, read_flags fl data lcd = Raise e -> e = IndexError) /\
    (forall lcd', read_flags fl data lcd = Ok lcd' ->
       forall key,
         (has lcd' key = true <->
          has lcd key = true \/
          Exists (fun f : flagspec =>
                    f.1.1 = key /\
                    exists b, data !! f.1.2 = Some b /\ Z.land b (Z.shiftl 1 f.2) <> 0) fl) /\
         (lcd' !! key = lcd !! key \/ lcd' !! key = Some (Some PTrue))).
Proof.
  induction fl as [|[[flag byte] bit] fl IH]; intros lcd.
  - simpl. split; [split; auto|]. split; [discriminate|].
    intros lcd' [= <-] key. split; [|auto]. split; [auto|].
    intros [H|H]; [exact H|inversion H].
  - destruct (data !! byte) as [b|] eqn:Hb.
    + rewrite (read_flags_cons flag byte bit fl data lcd b Hb).
      set (lcd1 := if negb _ then _ else _).
      destruct (IH lcd1) as (Hok & Hraise & Hkeys).
      split; [|split; [exact Hraise|]].
      * rewrite Hok, Forall_cons. cbn [fst snd].
        pose proof (lookup_lt_Some _ _ _ Hb). tauto.
      * intros lcd' Hlcd' key. destruct (Hkeys lcd' Hlcd' key) as [Hhas Hval].
        assert (H1 : has lcd1 key = true <->
                     has lcd key = true \/ (flag = key /\ Z.land b (Z.shiftl 1 bit) <> 0)).
        { subst lcd1. destruct (Z.eqb_spec (Z.land b (Z.shiftl 1 bit)) 0) as [Hz|Hz];
            cbn [negb].
          - split; [auto|]. intros [H|[_ H]]; [exact H|contradiction].
          - rewrite has_set_flag. destruct (String.eqb_spec flag key) as [->|Hne]; simpl.
            + split; auto.
            + split; [auto|]. intros [H|[H _]]; [exact H|contradiction]. }
        split.
        -- rewrite Hhas, H1, Exists_cons. cbn [fst snd]. split.
           ++ intros [[H|[Hf Hz]]|H]; auto. right. left. split; [exact Hf|]. eauto.
           ++ intros [H|[[Hf (b' & Hb' & Hz)]|H]]; auto.
              rewrite Hb in Hb'. injection Hb' as <-. auto.
        -- destruct Hval as [Hval|Hval]; [|auto]. rewrite Hval. subst lcd1.
           destruct (negb _); [|auto]. unfold set_flag.
           destruct (decide (flag = key)) as [->|Hne].
           ++ right. apply lookup_insert_eq.
           ++ left. apply lookup_insert_ne, Hne.
    + assert (Hr : read_flags (@cons flagspec (flag, byte, bit) fl) data lcd = Raise IndexError).
      { cbn [read_flags]. unfold getitem. rewrite Hb. reflexivity. }
      rewrite Hr. split; [|split; [intros e [= <-]; reflexivity|discriminate]].
      split; [discriminate|]. intros H. apply Forall_cons in H as [H _]. cbn [fst snd] in H.
      apply lookup_ge_None in Hb. lia.
Qed.

(** The two flags of [TS02] are read from byte 0. *)
Lemma read_flags_spec_witness :
  Forall (fun f : flagspec => (f.1.2 < length [0x2D])%nat) (flags_of TS02) /\
  is_ok (read_flags (flags_of TS02) [0x2D] ∅) = true.
Proof.
  assert (H : Forall (fun f : flagspec => (f.1.2 < length [0x2D])%nat) (flags_of TS02))
    by (repeat constructor).
  split; [exact H|].
  apply (proj1 (read_flags_spec (flags_of TS02) [0x2D] ∅)). exact H.
Defined.

(** ** The live count *)

Lemma reporting_live (address : string) (units : option string) (s : session)
    (d : device) :
  devices s !! address = Some d ->
  exists s',
    reporting address units s = Ok s' /\
    messages s' = messages s /\ devices s' = devices s /\
    forall key,
      live s' key =
      (live s key +
       if decide (datum_of d (RTriple None None units) = Some key) then 1 else 0)%nat.
Proof.
  intros Hd. unfold reporting. destruct units as [u|].
  - rewrite Hd. eexists. split; [reflexivity|]. split; [reflexivity|].
    split; [reflexivity|]. intros key. unfold live, datum_of. cbn [live_count with_live_count].
    destruct (decide (Some (alias_str (dev_alias d) +:+ " (" +:+ u +:+ ")") = Some key))
      as [[= <-]|Hne].
    + rewrite lookup_insert_eq. simpl. lia.
    + rewrite lookup_insert_ne by congruence. lia.
  - exists s. repeat split. intros key. simpl. lia.
Qed.

Lemma deliver_live (address : string) (now : Z) (results : list reading) :
  forall s d,
    devices s !! address = Some d ->
    Forall is_triple results ->
    forall key,
      live (deliver address now results s).1 key =
      (live s key + length (filter (fun r => datum_of d r = Some key) results))%nat.
Proof.
  induction results as [|r results IH]; intros s d Hd Hall key.
  - simpl. lia.
  - apply Forall_cons in Hall as [Hr Hall].
    destruct r as [| |flags value units]; try contradiction.
    cbn [deliver third].
    destruct (reporting_live address units
                (with_messages (messages s ++ [Message now address (RTriple flags value units)]) s)
                d Hd) as (s1 & -> & _ & Hd1 & Hlive).
    rewrite Hd1. cbn [with_messages devices]. rewrite Hd.
    set (s2 := with_devices _ s1).
    assert (Hd2 : devices s2 !! address = Some (set_lastseen (Some now) d))
      by apply lookup_insert_eq.
    rewrite (IH s2 _ Hd2 Hall key).
    assert (Hsame : forall r, datum_of (set_lastseen (Some now) d) r = datum_of d r)
      by (intros []; reflexivity).
    rewrite (list_filter_iff (fun r => datum_of (set_lastseen (Some now) d) r = Some key)
               (fun r => datum_of d r = Some key))
      by (intros r'; rewrite Hsame; reflexivity).
    rewrite filter_cons.
    change (live s2 key) with (live s1 key). rewrite Hlive.
    change (datum_of d (RTriple flags value units))
      with (datum_of d (RTriple None None units)).
    change (live (with_messages _ s) key) with (live s key).
    destruct (decide (datum_of d (RTriple None None units) = Some key)); simpl; lia.
Qed.

(** X21.  [reporting] counts the readings delivered for each alias and
    unit: after a frame whose decoder returns its triples, the count of a
    key has grown by the number of triples whose unit, written behind the
    alias of the device as [alias (unit)], is that key.  The absent triple
    counts nowhere, and the key is made of the alias, not of the address. *)
Theorem callback_counts (address : string) (now : Z) (data : list Z)
    (s : session) (d : device) (m : model) (results : list reading) :
  devices s !! address = Some d ->
  dev_decode d = Some m ->
  out_result (decode m (dev_buffer d) data) = Ok results ->
  Forall is_triple results ->
  forall key,
    live (_message_callback address now data s).1.1 key =
    (live s key + length (filter (fun r => datum_of d r = Some key) results))%nat.
Proof.
  intros Hd Hm Hres Hall key. unfold _message_callback. rewrite Hd, Hm. cbv zeta.
  rewrite Hres.
  set (s1 := with_devices _ s).
  assert (Hd1 : devices s1 !! address
                = Some (set_buffer (out_buffer (decode m (dev_buffer d) data)) d))
    by apply lookup_insert_eq.
  pose proof (deliver_live address now results s1 _ Hd1 Hall key) as Hlive.
  destruct (deliver address now results s1) as [s' r]. cbn [fst snd] in *.
  rewrite Hlive. reflexivity.
Qed.

(** A frame of the bench meter: its reading is counted under the alias. *)
Lemma callback_counts_witness :
  exists d results,
    devices one_meter !! meter_a = Some d /\
    out_result (decode TS04 (dev_buffer d) frame_volts) = Ok results /\
    forall key,
      live (_message_callback meter_a 5 frame_volts one_meter).1.1 key =
      (live one_meter key + length (filter (fun r => datum_of d r = Some key) results))%nat.
Proof.
  destruct (devices one_meter !! meter_a) as [d|] eqn:Hd; [|vm_compute in Hd; discriminate Hd].
  assert (Hm : dev_decode d = Some TS04 /\ dev_buffer d = []).
  { vm_compute in Hd. injection Hd as <-. split; reflexivity. }
  destruct Hm as [Hm Hb].
  destruct (out_result (decode TS04 (dev_buffer d) frame_volts)) as [results|e] eqn:Hres;
    [|rewrite Hb in Hres; vm_compute in Hres; discriminate Hres].
  assert (Hall : Forall is_triple results).
  { rewrite Hb in Hres. vm_compute in Hres. injection Hres as <-. repeat constructor. }
  exists d, results. do 2 (split; [reflexivity || assumption|]).
  exact (callback_counts meter_a 5 frame_volts one_meter d TS04 results Hd Hm Hres Hall).
Defined.
